(** * Project Bantay Bayan, Uplink Monitor: the model of [js/main.js]

    A shallow embedding of the simulator's script and the proofs of its
    stated properties.  The script loads three CSV tables (barangays,
    cities, provinces), draws a marker per node and a connector line per
    child/parent pair, and lets the user enable or disable nodes, which
    greys markers and shows or hides connector lines.

    Conventions of the model:
    - a JavaScript string is a [string] whose characters are the code units
      U+0000..U+00FF;
    - a CSV cell is [option string]: Papa.parse runs with [header: true] and
      [dynamicTyping: false], so a cell is a string, or [undefined] ([None])
      when the row has no such column;
    - a normalised identifier is [option string], [None] being [null];
    - a JavaScript [Map] is an association list in insertion order
      (module [JsMap]);
    - a Leaflet layer (marker or polyline) is an object with an identity:
      it carries a stamp, given once by a counter as Leaflet's
      [_leaflet_id] is; a layer group is the finite set of the stamps it
      holds, and the icon of a marker lives in a store indexed by stamp;
    - popups, the map view and the status line are left out: nothing the
      properties speak of reads them. *)

From Stdlib Require Import Ascii String ZArith.
From stdpp Require Import gmap strings list sorting pretty.

Local Open Scope Z_scope.

(** ** JavaScript primitives *)

(** [WhiteSpace] and [LineTerminator] code units below U+0100: TAB, LF, VT,
    FF, CR, SP and NBSP.  They are what [String.prototype.trim] strips and
    what [Number] skips around a numeric literal. *)
Definition is_ws (a : ascii) : bool :=
  let n := N_of_ascii a in
  ((9 <=? n)%N && (n <=? 13)%N) || (n =? 32)%N || (n =? 160)%N.

Fixpoint trimStart (s : string) : string :=
  match s with
  | EmptyString => EmptyString
  | String a s' => if is_ws a then trimStart s' else s
  end.

Fixpoint trimEnd (s : string) : string :=
  match s with
  | EmptyString => EmptyString
  | String a s' =>
      match trimEnd s' with
      | EmptyString => if is_ws a then EmptyString else String a EmptyString
      | t => String a t
      end
  end.

(** [s.trim()] *)
Definition trim (s : string) : string := trimEnd (trimStart s).

(** A JavaScript Number.  [Finite neg m e] stands for the binary64 value
    nearest to [(-1)^neg * m * 10^e]; the two zeros are [Finite _ 0 _]. *)
Inductive number : Type :=
  | NaN
  | Infinity (neg : bool)
  | Finite (neg : bool) (m : N) (e : Z).

Definition isFinite (n : number) : bool :=
  match n with Finite _ _ _ => true | _ => false end.

(** ToBoolean on a Number: [NaN], [+0] and [-0] are falsy. *)
Definition truthy_number (n : number) : bool :=
  match n with
  | NaN => false
  | Infinity _ => true
  | Finite _ m _ => negb (m =? 0)%N
  end.

Definition is_zero (n : number) : bool :=
  match n with Finite _ m _ => (m =? 0)%N | _ => false end.

(** *** [Number(string)]: the StringToNumber grammar *)

Definition digitOf (base : N) (a : ascii) : option N :=
  let n := N_of_ascii a in
  let v :=
    if ((48 <=? n) && (n <=? 57))%N then Some (n - 48)%N
    else if ((97 <=? n) && (n <=? 102))%N then Some (n - 87)%N
    else if ((65 <=? n) && (n <=? 70))%N then Some (n - 55)%N
    else None in
  match v with
  | Some d => if (d <? base)%N then Some d else None
  | None => None
  end.

Fixpoint takeDigits (base : N) (l : list ascii) : list N * list ascii :=
  match l with
  | [] => ([], [])
  | a :: l' =>
      match digitOf base a with
      | Some d => let '(ds, r) := takeDigits base l' in (d :: ds, r)
      | None => ([], l)
      end
  end.

Definition digitsValue (base : N) (ds : list N) : N :=
  fold_left (fun acc d => (acc * base + d)%N) ds 0%N.

(** The mathematical value [m * 10^e] rounded to binary64, as far as the
    script can tell values apart: at or above [2^1024 - 2^970] the nearest
    binary64 is an infinity, at or below [2^-1075] it is zero. *)
Definition roundMV (neg : bool) (m : N) (e : Z) : number :=
  let m' := Z.of_N m in
  if (m =? 0)%N then Finite neg 0 0
  else if (0 <=? e) then
    if (2 ^ 1024 - 2 ^ 970 <=? m' * 10 ^ e) then Infinity neg else Finite neg m e
  else
    if ((2 ^ 1024 - 2 ^ 970) * 10 ^ (- e) <=? m') then Infinity neg
    else if (m' * 2 ^ 1075 <=? 10 ^ (- e)) then Finite neg 0 0
    else Finite neg m e.

(** [NonDecimalIntegerLiteral]: [0x], [0o], [0b] and at least one digit. *)
Definition nonDecimalLiteral (l : list ascii) : option number :=
  match l with
  | "0"%char :: p :: ds =>
      let base :=
        if bool_decide (p = "x"%char ∨ p = "X"%char) then Some 16%N
        else if bool_decide (p = "o"%char ∨ p = "O"%char) then Some 8%N
        else if bool_decide (p = "b"%char ∨ p = "B"%char) then Some 2%N
        else None in
      match base with
      | Some b =>
          match takeDigits b ds with
          | (d :: ds', []) => Some (roundMV false (digitsValue b (d :: ds')) 0)
          | _ => None
          end
      | None => None
      end
  | _ => None
  end.

(** [ExponentPart]: absent, or [e]/[E], an optional sign and digits. *)
Definition exponentPart (l : list ascii) : option Z :=
  match l with
  | [] => Some 0
  | c :: r =>
      if bool_decide (c = "e"%char ∨ c = "E"%char) then
        let '(sg, r') :=
          match r with
          | "+"%char :: r' => (false, r')
          | "-"%char :: r' => (true, r')
          | _ => (false, r)
          end in
        match takeDigits 10 r' with
        | (d :: ds, []) =>
            let v := Z.of_N (digitsValue 10 (d :: ds)) in
            Some (if sg then - v else v)
        | _ => None
        end
      else None
  end.

(** [StrUnsignedDecimalLiteral] *)
Definition unsignedDecimalLiteral (neg : bool) (l : list ascii) : option number :=
  if bool_decide (l = list_ascii_of_string "Infinity") then Some (Infinity neg)
  else
    let '(ip, r1) := takeDigits 10 l in
    let '(fp, r2) :=
      match r1 with
      | "."%char :: r => takeDigits 10 r
      | _ => ([], r1)
      end in
    match ip ++ fp with
    | [] => None
    | ds =>
        match exponentPart r2 with
        | Some ex => Some (roundMV neg (digitsValue 10 ds) (ex - Z.of_nat (length fp)))
        | None => None
        end
    end.

(** [StrNumericLiteral] *)
Definition numericLiteral (l : list ascii) : option number :=
  match nonDecimalLiteral l with
  | Some n => Some n
  | None =>
      match l with
      | "+"%char :: r => unsignedDecimalLiteral false r
      | "-"%char :: r => unsignedDecimalLiteral true r
      | _ => unsignedDecimalLiteral false l
      end
  end.

(** [Number(x)] for a cell: [undefined] gives [NaN]; a string of white
    space only gives [+0]; otherwise the trimmed string is read as a
    numeric literal, and is [NaN] when it is not one. *)
Definition Number (x : option string) : number :=
  match x with
  | None => NaN
  | Some s =>
      match list_ascii_of_string (trim s) with
      | [] => Finite false 0 0
      | l => match numericLiteral l with Some n => n | None => NaN end
      end
  end.

(** [toNum]:
<<
  const n = Number(x);
  return Number.isFinite(n) ? n : null;
>> *)
Definition toNum (x : option string) : option number :=
  let n := Number x in
  if isFinite n then Some n else None.

(** [normalizeId]:
<<
  const s = (x ?? "").toString().trim();
  return s.length ? s : null;
>> *)
Definition normalizeId (x : option string) : option string :=
  let s := trim (default "" x) in
  if (0 <? String.length s)%nat then Some s else None.

(** ToBoolean on an identifier: [null] and the empty string are falsy. *)
Definition truthy_id (x : option string) : bool :=
  match x with
  | Some s => (0 <? String.length s)%nat
  | None => false
  end.

(** ToBoolean on a coordinate: [null], [NaN] and the zeros are falsy. *)
Definition truthy_coord (x : option number) : bool :=
  match x with
  | Some n => truthy_number n
  | None => false
  end.

(** [s || dflt] on strings *)
Definition or_str (s dflt : string) : string :=
  if (0 <? String.length s)%nat then s else dflt.

(** ** Thrown errors

    A [TypeError] is what reading a property of [undefined] raises; the
    functions that the script guards against it are written with [deref],
    so that their never throwing is a theorem and not a convention. *)
Inductive result (A : Type) : Type :=
  | Ok (a : A)
  | Throw (msg : string).
Arguments Ok {A} a.
Arguments Throw {A} msg.

#[global] Instance result_ret : MRet result := fun A a => Ok a.

#[global] Instance result_bind : MBind result := fun A B k r =>
  match r with
  | Ok a => k a
  | Throw msg => Throw msg
  end.

Definition deref {A : Type} (x : option A) : result A :=
  match x with
  | Some a => Ok a
  | None => Throw "TypeError: Cannot read properties of undefined"
  end.

(** [!x] on an object reference or [undefined] *)
Definition falsy_ref {A : Type} (x : option A) : bool :=
  match x with Some _ => false | None => true end.

(** ** JavaScript [Map], keyed by an identifier

    Entries are kept in insertion order; [set] on a present key replaces
    the value in place, on an absent key appends. *)
Module JsMap.
Definition t (V : Type) : Type := list (option string * V).

Definition empty {V : Type} : t V := [].

Definition get {V : Type} (k : option string) (m : t V) : option V :=
  snd <$> List.find (fun kv => bool_decide (kv.1 = k)) m.

Definition has {V : Type} (k : option string) (m : t V) : bool :=
  match get k m with Some _ => true | None => false end.

Fixpoint set {V : Type} (k : option string) (v : V) (m : t V) : t V :=
  match m with
  | [] => [(k, v)]
  | (k', v') :: m' =>
      if bool_decide (k' = k) then (k, v) :: m' else (k', v') :: set k v m'
  end.

Definition values {V : Type} (m : t V) : list V := m.*2.

Definition keys {V : Type} (m : t V) : list (option string) := m.*1.

(** [m.forEach((v, k) => ...)] threading a state [S] *)
Definition forEach {V S : Type} (m : t V) (f : S → option string → V → S) (s : S) : S :=
  fold_left (fun acc kv => f acc kv.1 kv.2) m s.

(** the same when the callback may throw *)
Fixpoint forEachM {V S : Type} (m : t V) (f : S → option string → V → result S)
    (s : S) : result S :=
  match m with
  | [] => Ok s
  | (k, v) :: m' => s' ← f s k v; forEachM m' f s'
  end.
End JsMap.

(** ** Rows *)

(** A row as Papa.parse returns it: column name to cell text. *)
Abbreviation raw_row := (gmap string string).

Module BrgyRow.
Record t : Type := mk {
  brgy_id : option string;
  city_id : option string;
  barangay : string;
  city : string;
  lat : option number;
  lon : option number
}.
End BrgyRow.

Module CityRow.
Record t : Type := mk {
  city_id : option string;
  province_id : option string;
  city : string;
  province : string;
  lat : option number;
  lon : option number
}.
End CityRow.

Module ProvRow.
Record t : Type := mk {
  province_id : option string;
  province : string;
  lat : option number;
  lon : option number
}.
End ProvRow.

(** The three [map] callbacks of [main].  The spread [...r] also copies the
    columns the script never reads; the model keeps the ones it reads. *)
Definition normBarangay (r : raw_row) : BrgyRow.t :=
  {| BrgyRow.brgy_id := normalizeId (r !! "brgy_id");
     BrgyRow.city_id := normalizeId (r !! "city_id");
     BrgyRow.barangay := trim (default "" (r !! "barangay"));
     BrgyRow.city := trim (default "" (r !! "city"));
     BrgyRow.lat := toNum (r !! "lat");
     BrgyRow.lon := toNum (r !! "lon") |}.

Definition normCity (r : raw_row) : CityRow.t :=
  {| CityRow.city_id := normalizeId (r !! "city_id");
     CityRow.province_id := normalizeId (r !! "province_id");
     CityRow.city := trim (default "" (r !! "city"));
     CityRow.province := trim (default "" (r !! "province"));
     CityRow.lat := toNum (r !! "lat");
     CityRow.lon := toNum (r !! "lon") |}.

Definition normProvince (r : raw_row) : ProvRow.t :=
  {| ProvRow.province_id := normalizeId (r !! "province_id");
     ProvRow.province := trim (default "" (r !! "province"));
     ProvRow.lat := toNum (r !! "lat");
     ProvRow.lon := toNum (r !! "lon") |}.

(** The three [filter] callbacks of [main]:
    [r => r.brgy_id && r.city_id && r.lat && r.lon], [r => r.city_id],
    [r => r.province_id]. *)
Definition keepBarangay (r : BrgyRow.t) : bool :=
  truthy_id (BrgyRow.brgy_id r) && truthy_id (BrgyRow.city_id r)
  && truthy_coord (BrgyRow.lat r) && truthy_coord (BrgyRow.lon r).

Definition keepCity (r : CityRow.t) : bool := truthy_id (CityRow.city_id r).

Definition keepProvince (r : ProvRow.t) : bool := truthy_id (ProvRow.province_id r).

(** What the three fetches of [main] return. *)
Record dataset : Type := {
  barangaysRaw : list raw_row;
  citiesRaw : list raw_row;
  provincesRaw : list raw_row
}.

(** ** Icons, markers, lines *)

Inductive icon : Type :=
  | LIcon (iconUrl shadowUrl className : string)
  | AwesomeIcon (glyph prefix markerColor iconColor : string).

Definition brgyIconEnabled : icon :=
  LIcon "./css/images/marker-icon.png" "./css/images/marker-shadow.png" "".
Definition brgyIconDisabled : icon :=
  LIcon "./css/images/marker-icon.png" "./css/images/marker-shadow.png" "marker-disabled".
Definition cityIconEnabled : icon := AwesomeIcon "city" "fa" "green" "white".
Definition provinceIconEnabled : icon := AwesomeIcon "landmark" "fa" "red" "white".
Definition disabledAwesome : icon := AwesomeIcon "ban" "fa" "gray" "white".

Inductive node_type : Type := Province | City | Barangay.

#[global] Instance node_type_eq_dec : EqDecision node_type.
Proof. solve_decision. Defined.

(** The objects [{ province: ..., city: ..., barangay: ... }] of maps. *)
Record by_type (V : Type) : Type := {
  province : JsMap.t V;
  city : JsMap.t V;
  barangay : JsMap.t V
}.
Arguments province {V} _.
Arguments city {V} _.
Arguments barangay {V} _.

(** [obj[type]] *)
Definition sel {V : Type} (ty : node_type) (o : by_type V) : JsMap.t V :=
  match ty with
  | Province => province o
  | City => city o
  | Barangay => barangay o
  end.

Definition upd {V : Type} (ty : node_type) (f : JsMap.t V → JsMap.t V)
    (o : by_type V) : by_type V :=
  match ty with
  | Province => {| province := f (province o); city := city o; barangay := barangay o |}
  | City => {| province := province o; city := f (city o); barangay := barangay o |}
  | Barangay => {| province := province o; city := city o; barangay := f (barangay o) |}
  end.

Record marker : Type := {
  m_stamp : nat;
  m_latlng : number * number
}.

Record polyline : Type := {
  l_stamp : nat;
  l_latlngs : list (number * number);
  l_color : string
}.

(** One row of the checkbox tree: what [buildNodeRow] puts in it.  The
    state of the checkbox after that is the browser's; the script reads it
    in the change handler. *)
Record node_row : Type := {
  nr_type : node_type;
  nr_id : option string;
  nr_checked : bool;
  nr_label : string;
  nr_meta : string
}.

(** ** The state of the script: its module-level variables, the tree
    element and Leaflet's stamp counter. *)
Record state : Type := mkState {
  barangays : list BrgyRow.t;
  cities : list CityRow.t;
  provinces : list ProvRow.t;
  cityById : JsMap.t CityRow.t;
  provinceById : JsMap.t ProvRow.t;
  barangaysByCity : JsMap.t (list BrgyRow.t);
  enabled : by_type bool;
  markers : by_type marker;
  linkBrgyToCity : JsMap.t polyline;
  linkCityToProv : JsMap.t polyline;
  layerBrgy : gset nat;
  layerCity : gset nat;
  layerProv : gset nat;
  layerLinks : gset nat;
  icons : gmap nat icon;
  tree : list (node_row * list (node_row * list node_row));
  lastId : nat
}.

Definition initial : state :=
  {| barangays := []; cities := []; provinces := [];
     cityById := JsMap.empty; provinceById := JsMap.empty;
     barangaysByCity := JsMap.empty;
     enabled := {| province := JsMap.empty; city := JsMap.empty; barangay := JsMap.empty |};
     markers := {| province := JsMap.empty; city := JsMap.empty; barangay := JsMap.empty |};
     linkBrgyToCity := JsMap.empty; linkCityToProv := JsMap.empty;
     layerBrgy := ∅; layerCity := ∅; layerProv := ∅; layerLinks := ∅;
     icons := ∅; tree := []; lastId := 0%nat |}.

(** Assignments to one variable of the state. *)
Definition set_barangays x (st : state) : state :=
  mkState x (cities st) (provinces st) (cityById st) (provinceById st)
    (barangaysByCity st) (enabled st) (markers st) (linkBrgyToCity st)
    (linkCityToProv st) (layerBrgy st) (layerCity st) (layerProv st) (layerLinks
    st) (icons st) (tree st) (lastId st).

Definition set_cities x (st : state) : state :=
  mkState (barangays st) x (provinces st) (cityById st) (provinceById st)
    (barangaysByCity st) (enabled st) (markers st) (linkBrgyToCity st)
    (linkCityToProv st) (layerBrgy st) (layerCity st) (layerProv st) (layerLinks
    st) (icons st) (tree st) (lastId st).

Definition set_provinces x (st : state) : state :=
  mkState (barangays st) (cities st) x (cityById st) (provinceById st)
    (barangaysByCity st) (enabled st) (markers st) (linkBrgyToCity st)
    (linkCityToProv st) (layerBrgy st) (layerCity st) (layerProv st) (layerLinks
    st) (icons st) (tree st) (lastId st).

Definition set_cityById x (st : state) : state :=
  mkState (barangays st) (cities st) (provinces st) x (provinceById st)
    (barangaysByCity st) (enabled st) (markers st) (linkBrgyToCity st)
    (linkCityToProv st) (layerBrgy st) (layerCity st) (layerProv st) (layerLinks
    st) (icons st) (tree st) (lastId st).

Definition set_provinceById x (st : state) : state :=
  mkState (barangays st) (cities st) (provinces st) (cityById st) x
    (barangaysByCity st) (enabled st) (markers st) (linkBrgyToCity st)
    (linkCityToProv st) (layerBrgy st) (layerCity st) (layerProv st) (layerLinks
    st) (icons st) (tree st) (lastId st).

Definition set_barangaysByCity x (st : state) : state :=
  mkState (barangays st) (cities st) (provinces st) (cityById st)
    (provinceById st) x (enabled st) (markers st) (linkBrgyToCity st)
    (linkCityToProv st) (layerBrgy st) (layerCity st) (layerProv st) (layerLinks
    st) (icons st) (tree st) (lastId st).

Definition set_enabled x (st : state) : state :=
  mkState (barangays st) (cities st) (provinces st) (cityById st)
    (provinceById st) (barangaysByCity st) x (markers st) (linkBrgyToCity st)
    (linkCityToProv st) (layerBrgy st) (layerCity st) (layerProv st) (layerLinks
    st) (icons st) (tree st) (lastId st).

Definition set_markers x (st : state) : state :=
  mkState (barangays st) (cities st) (provinces st) (cityById st)
    (provinceById st) (barangaysByCity st) (enabled st) x (linkBrgyToCity st)
    (linkCityToProv st) (layerBrgy st) (layerCity st) (layerProv st) (layerLinks
    st) (icons st) (tree st) (lastId st).

Definition set_linkBrgyToCity x (st : state) : state :=
  mkState (barangays st) (cities st) (provinces st) (cityById st)
    (provinceById st) (barangaysByCity st) (enabled st) (markers st) x
    (linkCityToProv st) (layerBrgy st) (layerCity st) (layerProv st) (layerLinks
    st) (icons st) (tree st) (lastId st).

Definition set_linkCityToProv x (st : state) : state :=
  mkState (barangays st) (cities st) (provinces st) (cityById st)
    (provinceById st) (barangaysByCity st) (enabled st) (markers st)
    (linkBrgyToCity st) x (layerBrgy st) (layerCity st) (layerProv st)
    (layerLinks st) (icons st) (tree st) (lastId st).

Definition set_layerBrgy x (st : state) : state :=
  mkState (barangays st) (cities st) (provinces st) (cityById st)
    (provinceById st) (barangaysByCity st) (enabled st) (markers st)
    (linkBrgyToCity st) (linkCityToProv st) x (layerCity st) (layerProv st)
    (layerLinks st) (icons st) (tree st) (lastId st).

Definition set_layerCity x (st : state) : state :=
  mkState (barangays st) (cities st) (provinces st) (cityById st)
    (provinceById st) (barangaysByCity st) (enabled st) (markers st)
    (linkBrgyToCity st) (linkCityToProv st) (layerBrgy st) x (layerProv st)
    (layerLinks st) (icons st) (tree st) (lastId st).

Definition set_layerProv x (st : state) : state :=
  mkState (barangays st) (cities st) (provinces st) (cityById st)
    (provinceById st) (barangaysByCity st) (enabled st) (markers st)
    (linkBrgyToCity st) (linkCityToProv st) (layerBrgy st) (layerCity st) x
    (layerLinks st) (icons st) (tree st) (lastId st).

Definition set_layerLinks x (st : state) : state :=
  mkState (barangays st) (cities st) (provinces st) (cityById st)
    (provinceById st) (barangaysByCity st) (enabled st) (markers st)
    (linkBrgyToCity st) (linkCityToProv st) (layerBrgy st) (layerCity st)
    (layerProv st) x (icons st) (tree st) (lastId st).

Definition set_icons x (st : state) : state :=
  mkState (barangays st) (cities st) (provinces st) (cityById st)
    (provinceById st) (barangaysByCity st) (enabled st) (markers st)
    (linkBrgyToCity st) (linkCityToProv st) (layerBrgy st) (layerCity st)
    (layerProv st) (layerLinks st) x (tree st) (lastId st).

Definition set_tree x (st : state) : state :=
  mkState (barangays st) (cities st) (provinces st) (cityById st)
    (provinceById st) (barangaysByCity st) (enabled st) (markers st)
    (linkBrgyToCity st) (linkCityToProv st) (layerBrgy st) (layerCity st)
    (layerProv st) (layerLinks st) (icons st) x (lastId st).

Definition set_lastId x (st : state) : state :=
  mkState (barangays st) (cities st) (provinces st) (cityById st)
    (provinceById st) (barangaysByCity st) (enabled st) (markers st)
    (linkBrgyToCity st) (linkCityToProv st) (layerBrgy st) (layerCity st)
    (layerProv st) (layerLinks st) (icons st) (tree st) x.

Notation "st ▷ f" := (f st) (at level 45, left associativity, only parsing).

(** ** Enabled flags *)

(** [getEnabled]: [enabled[type].get(id) !== false] *)
Definition getEnabled (en : by_type bool) (ty : node_type) (id : option string) : bool :=
  match JsMap.get id (sel ty en) with
  | Some false => false
  | _ => true
  end.

(** [setEnabled]: [enabled[type].set(id, !!val)] *)
Definition setEnabled (ty : node_type) (id : option string) (val : bool)
    (en : by_type bool) : by_type bool :=
  upd ty (JsMap.set id val) en.

(** [setAllEnabled]:
    [enabled[type].forEach((_, id) => enabled[type].set(id, val))] *)
Definition setAllEnabled (ty : node_type) (val : bool) (en : by_type bool) : by_type bool :=
  upd ty (fun m => JsMap.forEach m (fun acc id _ => JsMap.set id val acc) m) en.

(** ** Marker styles *)

(** [updateMarkerStyles]: one loop per kind, [m.setIcon(on ? ... : ...)]. *)
Definition updateMarkerStyles (st : state) : state :=
  let ic := icons st in
  let ic := JsMap.forEach (province (markers st)) (fun ic provId m =>
      let on := getEnabled (enabled st) Province provId in
      <[m_stamp m := if on then provinceIconEnabled else disabledAwesome]> ic) ic in
  let ic := JsMap.forEach (city (markers st)) (fun ic cityId m =>
      let on := getEnabled (enabled st) City cityId in
      <[m_stamp m := if on then cityIconEnabled else disabledAwesome]> ic) ic in
  let ic := JsMap.forEach (barangay (markers st)) (fun ic brgyId m =>
      let on := getEnabled (enabled st) Barangay brgyId in
      <[m_stamp m := if on then brgyIconEnabled else brgyIconDisabled]> ic) ic in
  st ▷ set_icons ic.

(** ** Line visibility *)

(** [showLine]:
<<
  if (!line) return;
  const isOnMap = layerLinks.hasLayer(line);
  if (yes && !isOnMap) line.addTo(layerLinks);
  if (!yes && isOnMap) layerLinks.removeLayer(line);
>> *)
Definition showLine (line : option polyline) (yes : bool) (links : gset nat)
    : result (gset nat) :=
  if falsy_ref line then Ok links
  else
    ln ← deref line;
    let isOnMap := bool_decide (l_stamp ln ∈ links) in
    let links := if yes && negb isOnMap then {[l_stamp ln]} ∪ links else links in
    let links := if negb yes && isOnMap then links ∖ {[l_stamp ln]} else links in
    Ok links.

(** The callback of the first loop of [applyVisibilityRules]:
<<
  const b = barangays.find(x => x.brgy_id === brgyId);
  if (!b) return;
  const brgyOn = getEnabled("barangay", brgyId);
  const cityOn = b.city_id ? getEnabled("city", b.city_id) : true;
  const visible = brgyOn && cityOn;
  showLine(line, visible);
>> *)
Definition brgyLineRule (st : state) (links : gset nat) (brgyId : option string)
    (line : polyline) : result (gset nat) :=
  let b := List.find (fun x => bool_decide (BrgyRow.brgy_id x = brgyId)) (barangays st) in
  if falsy_ref b then Ok links
  else
    let brgyOn := getEnabled (enabled st) Barangay brgyId in
    b_city_id ← (b ← deref b; Ok (BrgyRow.city_id b));
    let cityOn := if truthy_id b_city_id then getEnabled (enabled st) City b_city_id else true in
    let visible := brgyOn && cityOn in
    showLine (Some line) visible links.

(** The callback of the second loop:
<<
  const c = cityById.get(cityId);
  if (!c) return;
  const cityOn = getEnabled("city", cityId);
  const provOn = c.province_id ? getEnabled("province", c.province_id) : true;
  const visible = cityOn && provOn;
  showLine(line, visible);
>> *)
Definition cityLineRule (st : state) (links : gset nat) (cityId : option string)
    (line : polyline) : result (gset nat) :=
  let c := JsMap.get cityId (cityById st) in
  if falsy_ref c then Ok links
  else
    let cityOn := getEnabled (enabled st) City cityId in
    c_province_id ← (c ← deref c; Ok (CityRow.province_id c));
    let provOn :=
      if truthy_id c_province_id then getEnabled (enabled st) Province c_province_id
      else true in
    let visible := cityOn && provOn in
    showLine (Some line) visible links.

(** [applyVisibilityRules] *)
Definition applyVisibilityRules (st : state) : result state :=
  links ← JsMap.forEachM (linkBrgyToCity st) (brgyLineRule st) (layerLinks st);
  links ← JsMap.forEachM (linkCityToProv st) (cityLineRule st) links;
  Ok (st ▷ set_layerLinks links).

(** ** Markers and links *)

(** [clearMapObjects] *)
Definition clearMapObjects (st : state) : state :=
  st ▷ set_layerBrgy ∅ ▷ set_layerCity ∅ ▷ set_layerProv ∅ ▷ set_layerLinks ∅
     ▷ set_markers {| province := JsMap.empty; city := JsMap.empty; barangay := JsMap.empty |}
     ▷ set_linkBrgyToCity JsMap.empty ▷ set_linkCityToProv JsMap.empty.

(** The marker loops of [addMarkersAndLinks]: a row with a [null]
    coordinate is skipped; otherwise a marker is made with the enabled
    icon of its kind, added to its layer and recorded under the row's id. *)
Definition addProvinceMarker (st : state) (p : ProvRow.t) : state :=
  match ProvRow.lat p, ProvRow.lon p with
  | Some la, Some lo =>
      let id := S (lastId st) in
      let m := {| m_stamp := id; m_latlng := (la, lo) |} in
      st ▷ set_lastId id
         ▷ set_icons (<[id := provinceIconEnabled]> (icons st))
         ▷ set_layerProv ({[id]} ∪ layerProv st)
         ▷ set_markers (upd Province (JsMap.set (ProvRow.province_id p) m) (markers st))
  | _, _ => st
  end.

Definition addCityMarker (st : state) (c : CityRow.t) : state :=
  match CityRow.lat c, CityRow.lon c with
  | Some la, Some lo =>
      let id := S (lastId st) in
      let m := {| m_stamp := id; m_latlng := (la, lo) |} in
      st ▷ set_lastId id
         ▷ set_icons (<[id := cityIconEnabled]> (icons st))
         ▷ set_layerCity ({[id]} ∪ layerCity st)
         ▷ set_markers (upd City (JsMap.set (CityRow.city_id c) m) (markers st))
  | _, _ => st
  end.

Definition addBarangayMarker (st : state) (b : BrgyRow.t) : state :=
  match BrgyRow.lat b, BrgyRow.lon b with
  | Some la, Some lo =>
      let id := S (lastId st) in
      let m := {| m_stamp := id; m_latlng := (la, lo) |} in
      st ▷ set_lastId id
         ▷ set_icons (<[id := brgyIconEnabled]> (icons st))
         ▷ set_layerBrgy ({[id]} ∪ layerBrgy st)
         ▷ set_markers (upd Barangay (JsMap.set (BrgyRow.brgy_id b) m) (markers st))
  | _, _ => st
  end.

(** The link loops: both ends need coordinates, the child needs a parent
    id, and the parent must be in the index of rows with coordinates. *)
Definition addBrgyLink (st : state) (b : BrgyRow.t) : state :=
  match BrgyRow.lat b, BrgyRow.lon b with
  | Some bla, Some blo =>
      if negb (truthy_id (BrgyRow.city_id b)) then st
      else
        match JsMap.get (BrgyRow.city_id b) (cityById st) with
        | Some c =>
            match CityRow.lat c, CityRow.lon c with
            | Some cla, Some clo =>
                let id := S (lastId st) in
                let line := {| l_stamp := id; l_latlngs := [(bla, blo); (cla, clo)];
                               l_color := "#2A81CB" |} in
                st ▷ set_lastId id
                   ▷ set_layerLinks ({[id]} ∪ layerLinks st)
                   ▷ set_linkBrgyToCity (JsMap.set (BrgyRow.brgy_id b) line (linkBrgyToCity st))
            | _, _ => st
            end
        | None => st
        end
  | _, _ => st
  end.

Definition addCityLink (st : state) (c : CityRow.t) : state :=
  match CityRow.lat c, CityRow.lon c with
  | Some cla, Some clo =>
      if negb (truthy_id (CityRow.province_id c)) then st
      else
        match JsMap.get (CityRow.province_id c) (provinceById st) with
        | Some p =>
            match ProvRow.lat p, ProvRow.lon p with
            | Some pla, Some plo =>
                let id := S (lastId st) in
                let line := {| l_stamp := id; l_latlngs := [(cla, clo); (pla, plo)];
                               l_color := "#CB2B3E" |} in
                st ▷ set_lastId id
                   ▷ set_layerLinks ({[id]} ∪ layerLinks st)
                   ▷ set_linkCityToProv (JsMap.set (CityRow.city_id c) line (linkCityToProv st))
            | _, _ => st
            end
        | None => st
        end
  | _, _ => st
  end.

(** [addMarkersAndLinks] *)
Definition addMarkersAndLinks (st : state) : result state :=
  let st := clearMapObjects st in
  let st := fold_left addProvinceMarker (provinces st) st in
  let st := fold_left addCityMarker (cities st) st in
  let st := fold_left addBarangayMarker (barangays st) st in
  let st := fold_left addBrgyLink (barangays st) st in
  let st := fold_left addCityLink (cities st) st in
  applyVisibilityRules (updateMarkerStyles st).

(** ** User events *)

(** What the user can do after loading: change one checkbox (the handler
    reads the new [cb.checked]), or press one of the two buttons. *)
Inductive event : Type :=
  | Change (ty : node_type) (id : string) (checked : bool)
  | CheckAll
  | UncheckAll.

(** The change handler of [buildNodeRow] and the two click handlers set in
    [main].  The buttons also set every checkbox of the tree, which is the
    browser's state and not kept here. *)
Definition handle (ev : event) (st : state) : result state :=
  match ev with
  | Change ty id checked =>
      let st := st ▷ set_enabled (setEnabled ty (Some id) checked (enabled st)) in
      st ← applyVisibilityRules st;
      Ok (updateMarkerStyles st)
  | CheckAll =>
      let st := st ▷ set_enabled (setAllEnabled Province true (enabled st)) in
      let st := st ▷ set_enabled (setAllEnabled City true (enabled st)) in
      let st := st ▷ set_enabled (setAllEnabled Barangay true (enabled st)) in
      st ← applyVisibilityRules st;
      Ok (updateMarkerStyles st)
  | UncheckAll =>
      let st := st ▷ set_enabled (setAllEnabled Province false (enabled st)) in
      let st := st ▷ set_enabled (setAllEnabled City false (enabled st)) in
      let st := st ▷ set_enabled (setAllEnabled Barangay false (enabled st)) in
      st ← applyVisibilityRules st;
      Ok (updateMarkerStyles st)
  end.

Fixpoint handleAll (evs : list event) (st : state) : result state :=
  match evs with
  | [] => Ok st
  | ev :: evs' => st' ← handle ev st; handleAll evs' st'
  end.

(** ** Loading *)

(** The index loops of [main]. *)
Definition indexCity (m : JsMap.t CityRow.t) (c : CityRow.t) : JsMap.t CityRow.t :=
  match CityRow.lat c, CityRow.lon c with
  | Some _, Some _ => JsMap.set (CityRow.city_id c) c m
  | _, _ => m
  end.

Definition indexProvince (m : JsMap.t ProvRow.t) (p : ProvRow.t) : JsMap.t ProvRow.t :=
  match ProvRow.lat p, ProvRow.lon p with
  | Some _, Some _ => JsMap.set (ProvRow.province_id p) p m
  | _, _ => m
  end.

(** [if (!m.has(k)) m.set(k, []); m.get(k).push(b);] *)
Definition groupBarangay (m : JsMap.t (list BrgyRow.t)) (b : BrgyRow.t)
    : JsMap.t (list BrgyRow.t) :=
  let k := BrgyRow.city_id b in
  let m := if JsMap.has k m then m else JsMap.set k [] m in
  JsMap.set k (default [] (JsMap.get k m) ++ [b]) m.

(** [Array.prototype.sort] with a comparator: a stable comparison sort. *)
Definition sort {A : Type} (cmp : A → A → Z) (l : list A) : list A :=
  @merge_sort A (fun x y => cmp x y ≤ 0) (fun x y => decide (cmp x y ≤ 0)) l.

(** A comparison of strings by code units, one possible [localeCompare]. *)
Definition codeUnitCompare (a b : string) : Z :=
  match String.compare a b with
  | Lt => -1
  | Eq => 0
  | Gt => 1
  end.

Section Program.

(** [String.prototype.localeCompare] is the host's collation. *)
Variable localeCompare : string → string → Z.

(** [buildNodeRow] *)
Definition buildNodeRow (st : state) (ty : node_type) (id : option string)
    (labelText : string) : node_row :=
  {| nr_type := ty;
     nr_id := id;
     nr_checked := getEnabled (enabled st) ty id;
     nr_label := labelText;
     nr_meta :=
       match ty with
       | Province =>
           let nCities :=
             length (List.filter (fun c => bool_decide (CityRow.province_id c = id))
                                 (cities st)) in
           pretty nCities +:+ " cities"
       | City =>
           let nB := length (default [] (JsMap.get id (barangaysByCity st))) in
           pretty nB +:+ " brgys"
       | Barangay => ""
       end |}.

(** [buildTree]: the three nested [forEach] callbacks, innermost first,
    each returning the list item it appends. *)
Definition brgyItem (st : state) (b : BrgyRow.t) : node_row :=
  buildNodeRow st Barangay (BrgyRow.brgy_id b)
    (or_str (BrgyRow.barangay b) "(Unnamed barangay)").

Definition cityItem (st : state) (c : CityRow.t) : node_row * list node_row :=
  let cityId := CityRow.city_id c in
  let cityRow :=
    buildNodeRow st City cityId (or_str (CityRow.city c) "(Unnamed city)") in
  let bList :=
    sort (fun a b => localeCompare (or_str (BrgyRow.barangay a) "")
                                   (or_str (BrgyRow.barangay b) ""))
         (default [] (JsMap.get cityId (barangaysByCity st))) in
  (cityRow, brgyItem st <$> bList).

Definition provItem (st : state) (p : ProvRow.t)
    : node_row * list (node_row * list node_row) :=
  let provId := ProvRow.province_id p in
  let provRow :=
    buildNodeRow st Province provId
      (or_str (ProvRow.province p) "(Unnamed province)") in
  let citiesInProv :=
    sort (fun a b => localeCompare (or_str (CityRow.city a) "")
                                   (or_str (CityRow.city b) ""))
         (List.filter (fun c => bool_decide (CityRow.province_id c = provId))
                      (cities st)) in
  (provRow, cityItem st <$> citiesInProv).

(** [buildTree]: the list items put under the tree element. *)
Definition buildTree (st : state) : state :=
  let provList :=
    sort (fun a b => localeCompare (or_str (ProvRow.province a) "")
                                   (or_str (ProvRow.province b) ""))
         (provinces st) in
  st ▷ set_tree (provItem st <$> provList).

(** [main], from the three parsed files on; the view fitting and the
    status line that follow touch nothing the model keeps. *)
Definition main (d : dataset) : result state :=
  let barangaysAll := List.filter keepBarangay (normBarangay <$> barangaysRaw d) in
  let citiesAll := List.filter keepCity (normCity <$> citiesRaw d) in
  let provincesAll := List.filter keepProvince (normProvince <$> provincesRaw d) in
  let st := initial ▷ set_barangays barangaysAll ▷ set_cities citiesAll
                    ▷ set_provinces provincesAll in
  let st := st ▷ set_cityById (fold_left indexCity citiesAll JsMap.empty) in
  let st := st ▷ set_provinceById (fold_left indexProvince provincesAll JsMap.empty) in
  let st := st ▷ set_barangaysByCity (fold_left groupBarangay barangaysAll JsMap.empty) in
  let en := enabled st in
  let en := fold_left (fun en p => upd Province (JsMap.set (ProvRow.province_id p) true) en)
                      provincesAll en in
  let en := fold_left (fun en c => upd City (JsMap.set (CityRow.city_id c) true) en)
                      citiesAll en in
  let en := fold_left (fun en b => upd Barangay (JsMap.set (BrgyRow.brgy_id b) true) en)
                      barangaysAll en in
  let st := st ▷ set_enabled en in
  let st := buildTree st in
  addMarkersAndLinks st.

(** The script's life: load, then handle the user's events in turn. *)
Definition run (d : dataset) (evs : list event) : result state :=
  st ← main d; handleAll evs st.

End Program.

(** ** A sample dataset

    One province, two cities (the second without coordinates) and four
    barangays: [B3] has no coordinates, [B4] has an empty latitude cell. *)
Definition sampleProvince : raw_row :=
  {[ "province" := "Cebu"; "province_id" := "P1"; "lat" := "10.3169"; "lon" := "123.89" ]}.
Definition sampleCity1 : raw_row :=
  {[ "city" := " Cebu City "; "city_id" := "C1"; "lat" := "10.31"; "lon" := "123.9";
     "province" := "Cebu"; "province_id" := "P1" ]}.
Definition sampleCity2 : raw_row :=
  {[ "city" := "Mandaue"; "city_id" := "C2"; "lat" := "n/a"; "lon" := "n/a";
     "province" := "Cebu"; "province_id" := "P1" ]}.
Definition sampleBrgy1 : raw_row :=
  {[ "brgy_id" := "B1"; "barangay" := "Lahug"; "lat" := "10.33"; "lon" := "123.9";
     "city" := "Cebu City"; "city_id" := "C1" ]}.
Definition sampleBrgy2 : raw_row :=
  {[ "brgy_id" := "B2"; "barangay" := "Apas"; "lat" := "10.34"; "lon" := "123.91";
     "city" := "Cebu City"; "city_id" := "C1" ]}.
Definition sampleBrgy3 : raw_row :=
  {[ "brgy_id" := "B3"; "barangay" := "Banilad"; "lat" := "n/a"; "lon" := "n/a";
     "city" := "Cebu City"; "city_id" := "C1" ]}.
Definition sampleBrgy4 : raw_row :=
  {[ "brgy_id" := "B4"; "barangay" := "Busay"; "lat" := ""; "lon" := "123.88";
     "city" := "Cebu City"; "city_id" := "C1" ]}.

Definition sample : dataset :=
  {| barangaysRaw := [sampleBrgy1; sampleBrgy2; sampleBrgy3; sampleBrgy4];
     citiesRaw := [sampleCity1; sampleCity2];
     provincesRaw := [sampleProvince] |}.

(** A state, not one the script reaches, with a line kept for a barangay
    that has no record. *)
Definition strayLine : polyline :=
  {| l_stamp := 1%nat; l_latlngs := []; l_color := "#2A81CB" |}.

Definition strayState : state :=
  initial ▷ set_linkBrgyToCity [(Some "B9", strayLine)] ▷ set_layerLinks {[1%nat]}.

(** ** Vocabulary of the properties *)

(** A line is visible when the links layer holds it. *)
Definition visible (st : state) (line : polyline) : Prop :=
  l_stamp line ∈ layerLinks st.

(** What the two loops of [applyVisibilityRules] decide for the line kept
    under an id: [None] when the record is missing and the line is left
    alone. *)
Definition brgyVisible (st : state) (brgyId : option string) : option bool :=
  match List.find (fun x => bool_decide (BrgyRow.brgy_id x = brgyId)) (barangays st) with
  | Some b =>
      Some (getEnabled (enabled st) Barangay brgyId
            && (if truthy_id (BrgyRow.city_id b)
                then getEnabled (enabled st) City (BrgyRow.city_id b) else true))
  | None => None
  end.

Definition cityVisible (st : state) (cityId : option string) : option bool :=
  match JsMap.get cityId (cityById st) with
  | Some c =>
      Some (getEnabled (enabled st) City cityId
            && (if truthy_id (CityRow.province_id c)
                then getEnabled (enabled st) Province (CityRow.province_id c) else true))
  | None => None
  end.

(** The layer after [showLine] when it does not return early. *)
Definition shown (line : polyline) (yes : option bool) (links : gset nat) : gset nat :=
  match yes with
  | Some true => {[l_stamp line]} ∪ links
  | Some false => links ∖ {[l_stamp line]}
  | None => links
  end.

(** The entry of a map of lines that holds the line stamped [h]. *)
Definition findStamp (h : nat) (m : JsMap.t polyline) : option (option string * polyline) :=
  List.find (fun kv => bool_decide (l_stamp kv.2 = h)) m.

(** Whether the layer holds [h] after a loop deciding by [dec] over [m],
    when [before] tells whether it did before the loop. *)
Definition expect (dec : option string → option bool) (m : JsMap.t polyline)
    (before : Prop) (h : nat) : Prop :=
  match findStamp h m with
  | Some (k, _) =>
      match dec k with
      | Some yes => yes = true
      | None => before
      end
  | None => before
  end.

Definition expected (st : state) (before : Prop) (h : nat) : Prop :=
  expect (cityVisible st) (linkCityToProv st)
    (expect (brgyVisible st) (linkBrgyToCity st) before h) h.

(** The stamps of the markers and lines the maps hold. *)
Definition stamps_of (st : state) : list nat :=
  (m_stamp <$> JsMap.values (province (markers st)))
  ++ (m_stamp <$> JsMap.values (city (markers st)))
  ++ (m_stamp <$> JsMap.values (barangay (markers st)))
  ++ (l_stamp <$> JsMap.values (linkBrgyToCity st))
  ++ (l_stamp <$> JsMap.values (linkCityToProv st)).

(** Each of them was given once, by the counter. *)
Definition stamps_ok (st : state) : Prop :=
  stamps_of st ⊆+ seq 1 (lastId st).

(** What the event handlers leave alone. *)
Definition static (st : state) :=
  (barangays st, cities st, provinces st, cityById st, provinceById st,
   barangaysByCity st, markers st, linkBrgyToCity st, linkCityToProv st,
   layerBrgy st, layerCity st, layerProv st, tree st, lastId st).

(** Both enabled-flag tables read the same everywhere. *)
Definition same_flags (en1 en2 : by_type bool) : Prop :=
  ∀ ty id, getEnabled en1 ty id = getEnabled en2 ty id.

(** What the marker and link loops leave alone. *)
Definition data (st : state) :=
  (barangays st, cities st, provinces st, cityById st, provinceById st,
   barangaysByCity st, enabled st, tree st).

(** The icon [updateMarkerStyles] gives a marker of a kind. *)
Definition iconFor (ty : node_type) (on : bool) : icon :=
  match ty with
  | Province => if on then provinceIconEnabled else disabledAwesome
  | City => if on then cityIconEnabled else disabledAwesome
  | Barangay => if on then brgyIconEnabled else brgyIconDisabled
  end.

(** Every line is kept under the id of a row that can be looked up. *)
Definition links_ok (st : state) : Prop :=
  (∀ k line, (k, line) ∈ linkBrgyToCity st →
     ∃ b, b ∈ barangays st ∧ BrgyRow.brgy_id b = k)
  ∧ (∀ k line, (k, line) ∈ linkCityToProv st → is_Some (JsMap.get k (cityById st))).

(** Rows are as normalisation and the filters leave them. *)
Definition rows_ok (st : state) : Prop :=
  (∀ b, b ∈ barangays st → keepBarangay b = true)
  ∧ (∀ k c, (k, c) ∈ cityById st →
       CityRow.province_id c = None ∨ truthy_id (CityRow.province_id c) = true).

(** No flag is kept under [null]. *)
Definition flags_ok (en : by_type bool) : Prop :=
  ∀ ty, None ∉ JsMap.keys (sel ty en).

(** Every marker the maps hold shows the icon of its node's flag. *)
Definition icons_ok (st : state) : Prop :=
  ∀ ty id m, (id, m) ∈ sel ty (markers st) →
    icons st !! m_stamp m = Some (iconFor ty (getEnabled (enabled st) ty id)).

(** The links layer is what the rules make of the lines drawn at load
    time ([base]). *)
Definition synced (base : gset nat) (st : state) : Prop :=
  ∀ h, h ∈ layerLinks st ↔ expected st (h ∈ base) h.

Definition inv (st : state) : Prop :=
  stamps_ok st ∧ links_ok st ∧ rows_ok st ∧ flags_ok (enabled st) ∧ icons_ok st.

(** The flags after an event. *)
Definition flagsAfter (ev : event) (en : by_type bool) : by_type bool :=
  match ev with
  | Change ty id checked => setEnabled ty (Some id) checked en
  | CheckAll =>
      en ▷ setAllEnabled Province true ▷ setAllEnabled City true
         ▷ setAllEnabled Barangay true
  | UncheckAll =>
      en ▷ setAllEnabled Province false ▷ setAllEnabled City false
         ▷ setAllEnabled Barangay false
  end.

(** ** Vocabulary of normalisation *)

Fixpoint all_ws (s : string) : bool :=
  match s with
  | EmptyString => true
  | String a s' => is_ws a && all_ws s'
  end.

Definition starts_ws (s : string) : bool :=
  match s with
  | EmptyString => false
  | String a _ => is_ws a
  end.

Fixpoint ends_ws (s : string) : bool :=
  match s with
  | EmptyString => false
  | String a EmptyString => is_ws a
  | String _ s' => ends_ws s'
  end.

(** [t] is [s] without its leading and trailing white space. *)
Definition trim_of (s t : string) : Prop :=
  ∃ pre post, s = pre +:+ t +:+ post
    ∧ all_ws pre = true ∧ all_ws post = true
    ∧ starts_ws t = false ∧ ends_ws t = false.

(** An identifier cell becomes its trimmed text, or [null] when nothing
    is left of it. *)
Definition id_normalised (raw : option string) (out : option string) : Prop :=
  match out with
  | Some s => s ≠ "" ∧ trim_of (default "" raw) s
  | None => trim_of (default "" raw) ""
  end.

Definition name_normalised (raw : option string) (out : string) : Prop :=
  trim_of (default "" raw) out.

(** A coordinate cell that does not read as a number becomes [null]; a
    coordinate that is kept is the number read. *)
Definition coord_normalised (raw : option string) (out : option number) : Prop :=
  (Number raw = NaN → out = None) ∧ (∀ n, out = Some n → Number raw = n).

(** A coordinate that is a number and is zero. *)
Definition is_zero_coord (x : option number) : bool :=
  match x with
  | Some n => is_zero n
  | None => false
  end.

(** The nodes that have a row in the tree. *)
Definition tree_ids (t : list (node_row * list (node_row * list node_row)))
    : list (node_type * option string) :=
  t ≫= fun '(p, cs) =>
    (nr_type p, nr_id p)
    :: (cs ≫= fun '(c, bs) =>
          (nr_type c, nr_id c) :: ((fun b => (nr_type b, nr_id b)) <$> bs)).

(** Every marker and every line was drawn from rows with coordinates. *)
Definition drawn_ok (st : state) : Prop :=
  (∀ id m, (id, m) ∈ province (markers st) →
     ∃ p, p ∈ provinces st ∧ ProvRow.province_id p = id
       ∧ ProvRow.lat p = Some (m_latlng m).1 ∧ ProvRow.lon p = Some (m_latlng m).2)
  ∧ (∀ id m, (id, m) ∈ city (markers st) →
       ∃ c, c ∈ cities st ∧ CityRow.city_id c = id
         ∧ CityRow.lat c = Some (m_latlng m).1 ∧ CityRow.lon c = Some (m_latlng m).2)
  ∧ (∀ id m, (id, m) ∈ barangay (markers st) →
       ∃ b, b ∈ barangays st ∧ BrgyRow.brgy_id b = id
         ∧ BrgyRow.lat b = Some (m_latlng m).1 ∧ BrgyRow.lon b = Some (m_latlng m).2)
  ∧ (∀ k line, (k, line) ∈ linkBrgyToCity st →
       ∃ b c bla blo cla clo,
         b ∈ barangays st ∧ BrgyRow.brgy_id b = k
         ∧ JsMap.get (BrgyRow.city_id b) (cityById st) = Some c
         ∧ BrgyRow.lat b = Some bla ∧ BrgyRow.lon b = Some blo
         ∧ CityRow.lat c = Some cla ∧ CityRow.lon c = Some clo
         ∧ l_latlngs line = [(bla, blo); (cla, clo)])
  ∧ (∀ k line, (k, line) ∈ linkCityToProv st →
       ∃ c p cla clo pla plo,
         c ∈ cities st ∧ CityRow.city_id c = k
         ∧ JsMap.get (CityRow.province_id c) (provinceById st) = Some p
         ∧ CityRow.lat c = Some cla ∧ CityRow.lon c = Some clo
         ∧ ProvRow.lat p = Some pla ∧ ProvRow.lon p = Some plo
         ∧ l_latlngs line = [(cla, clo); (pla, plo)]).

(** [h] is the stamp of a line one of the two maps holds. *)
Definition tracked (st : state) (h : nat) : Prop :=
  h ∈ l_stamp <$> JsMap.values (linkBrgyToCity st)
  ∨ h ∈ l_stamp <$> JsMap.values (linkCityToProv st).

(** Identifiers are keys: no two kept barangays, and no two kept cities,
    share one. *)
Definition unique_ids (st : state) : Prop :=
  NoDup (BrgyRow.brgy_id <$> barangays st) ∧ NoDup (CityRow.city_id <$> cities st).

(** ** More of the script: the status line and the map view *)

(** The flags [main] sets before it builds the tree: one [set(id, true)]
    per kept row. *)
Definition flagsAtLoad (ps : list ProvRow.t) (cs : list CityRow.t)
    (bs : list BrgyRow.t) : by_type bool :=
  let en := {| province := JsMap.empty; city := JsMap.empty; barangay := JsMap.empty |} in
  let en := fold_left (fun en p => upd Province (JsMap.set (ProvRow.province_id p) true) en)
                      ps en in
  let en := fold_left (fun en c => upd City (JsMap.set (CityRow.city_id c) true) en)
                      cs en in
  fold_left (fun en b => upd Barangay (JsMap.set (BrgyRow.brgy_id b) true) en) bs en.

(** Every kept row has a flag. *)
Definition rows_flagged (st : state) : Prop :=
  (∀ p, p ∈ provinces st → ProvRow.province_id p ∈ JsMap.keys (province (enabled st)))
  ∧ (∀ c, c ∈ cities st → CityRow.city_id c ∈ JsMap.keys (city (enabled st)))
  ∧ (∀ b, b ∈ barangays st → BrgyRow.brgy_id b ∈ JsMap.keys (barangay (enabled st))).

(** The rows of the tree, parents before children. *)
Definition tree_rows (t : list (node_row * list (node_row * list node_row)))
    : list node_row :=
  t ≫= fun '(p, cs) => p :: (cs ≫= fun '(c, bs) => c :: bs).


(** [x != null] *)
Definition notNull {A : Type} (x : option A) : bool :=
  match x with Some _ => true | None => false end.

(** [r.lat != null && r.lon != null], per kind of row. *)
Definition provLocated (p : ProvRow.t) : bool :=
  notNull (ProvRow.lat p) && notNull (ProvRow.lon p).
Definition cityLocated (c : CityRow.t) : bool :=
  notNull (CityRow.lat c) && notNull (CityRow.lon c).
Definition brgyLocated (b : BrgyRow.t) : bool :=
  notNull (BrgyRow.lat b) && notNull (BrgyRow.lon b).

(** The ids of the kept rows of a kind that have both coordinates, in
    file order and with repetitions. *)
Definition located_ids (ty : node_type) (st : state) : list (option string) :=
  match ty with
  | Province => ProvRow.province_id <$> List.filter provLocated (provinces st)
  | City => CityRow.city_id <$> List.filter cityLocated (cities st)
  | Barangay => BrgyRow.brgy_id <$> List.filter brgyLocated (barangays st)
  end.

(** The layer group the markers of a kind are added to. *)
Definition layerOf (ty : node_type) (st : state) : gset nat :=
  match ty with
  | Province => layerProv st
  | City => layerCity st
  | Barangay => layerBrgy st
  end.

(** The guards of the two link loops of [addMarkersAndLinks], given the
    index they look the parent up in. *)
Definition brgyLinked (idx : JsMap.t CityRow.t) (b : BrgyRow.t) : bool :=
  brgyLocated b && truthy_id (BrgyRow.city_id b)
  && match JsMap.get (BrgyRow.city_id b) idx with
     | Some c => cityLocated c
     | None => false
     end.

Definition cityLinked (idx : JsMap.t ProvRow.t) (c : CityRow.t) : bool :=
  cityLocated c && truthy_id (CityRow.province_id c)
  && match JsMap.get (CityRow.province_id c) idx with
     | Some p => provLocated p
     | None => false
     end.

(** The id and the coordinates of a row that has both coordinates. *)
Definition provEntry (p : ProvRow.t) : option (option string * (number * number)) :=
  match ProvRow.lat p, ProvRow.lon p with
  | Some la, Some lo => Some (ProvRow.province_id p, (la, lo))
  | _, _ => None
  end.
Definition cityEntry (c : CityRow.t) : option (option string * (number * number)) :=
  match CityRow.lat c, CityRow.lon c with
  | Some la, Some lo => Some (CityRow.city_id c, (la, lo))
  | _, _ => None
  end.
Definition brgyEntry (b : BrgyRow.t) : option (option string * (number * number)) :=
  match BrgyRow.lat b, BrgyRow.lon b with
  | Some la, Some lo => Some (BrgyRow.brgy_id b, (la, lo))
  | _, _ => None
  end.

(** The kept rows of a kind that have both coordinates, in file order:
    their ids and coordinates. *)
Definition located (ty : node_type) (st : state)
    : list (option string * (number * number)) :=
  match ty with
  | Province => omap provEntry (provinces st)
  | City => omap cityEntry (cities st)
  | Barangay => omap brgyEntry (barangays st)
  end.

(** The coordinates of the last row of a list of located rows that has
    the id. *)
Definition lastLocated (id : option string)
    (l : list (option string * (number * number))) : option (number * number) :=
  snd <$> List.find (fun e => bool_decide (e.1 = id)) (rev l).

(** What is on the map and in the maps of markers and lines, in terms of
    the kept rows. *)
Definition onmap (st : state) : Prop :=
  (∀ ty id, id ∈ JsMap.keys (sel ty (markers st)) ↔ id ∈ located_ids ty st)
  ∧ (∀ ty, NoDup (JsMap.keys (sel ty (markers st))))
  ∧ (∀ ty id m, (id, m) ∈ sel ty (markers st) → m_stamp m ∈ layerOf ty st)
  ∧ (∀ ty, size (layerOf ty st) = length (located_ids ty st))
  ∧ (∀ k, k ∈ JsMap.keys (linkBrgyToCity st)
          ↔ k ∈ BrgyRow.brgy_id <$> List.filter (brgyLinked (cityById st)) (barangays st))
  ∧ (∀ k, k ∈ JsMap.keys (linkCityToProv st)
          ↔ k ∈ CityRow.city_id <$> List.filter (cityLinked (provinceById st)) (cities st))
  ∧ (∀ ty id, m_latlng <$> JsMap.get id (sel ty (markers st))
              = lastLocated id (located ty st)).

(** *** The map view

    The calls the script makes on the Leaflet map to move the view. *)
Inductive map_call : Type :=
  | SetView (center : number * number) (zoom : Z)
  | FitBounds (ll : list (number * number)) (padding : Z * Z)
  | OpenPopup (stamp : nat).

(** [const ZOOM = { province: 10, city: 12, barangay: 15 }] *)
Definition ZOOM (ty : node_type) : Z :=
  match ty with
  | Province => 10
  | City => 12
  | Barangay => 15
  end.

(** [zoomTo]:
<<
  const m = markers[type].get(id);
  if (!m) return;
  const ll = m.getLatLng();
  const z = ZOOM[type] ?? map.getZoom();
  map.setView(ll, z, { animate: true });
  try { m.openPopup(); } catch (_) {}
>>
    [type] is one of the three kinds at every call, so [ZOOM[type]] is
    never [undefined]. *)
Definition zoomTo (st : state) (ty : node_type) (id : option string) : list map_call :=
  match JsMap.get id (sel ty (markers st)) with
  | None => []
  | Some m => [SetView (m_latlng m) (ZOOM ty); OpenPopup (m_stamp m)]
  end.

(** [fitBoundsToData]:
<<
  const ll = [];
  markers.barangay.forEach(m => ll.push(m.getLatLng()));
  markers.city.forEach(m => ll.push(m.getLatLng()));
  markers.province.forEach(m => ll.push(m.getLatLng()));
  if (ll.length) map.fitBounds(ll, { padding: [40, 40] });
  else map.setView([10.3169, 123.89], 10);
>> *)
Definition fitBoundsToData (st : state) : map_call :=
  let ll := (m_latlng <$> JsMap.values (barangay (markers st)))
            ++ (m_latlng <$> JsMap.values (city (markers st)))
            ++ (m_latlng <$> JsMap.values (province (markers st))) in
  if (0 <? length ll)%nat then FitBounds ll (40, 40)
  else SetView (Finite false 103169 (-4), Finite false 12389 (-2)) 10.

(** *** The status line *)







(** ** A dataset in which an id is used twice

    Two barangay rows share the id [B1]. *)
Definition dupBrgy1 : raw_row :=
  {[ "brgy_id" := "B1"; "barangay" := "Lahug"; "lat" := "10.33"; "lon" := "123.9";
     "city" := "Cebu City"; "city_id" := "C1" ]}.
Definition dupBrgy2 : raw_row :=
  {[ "brgy_id" := "B1"; "barangay" := "Apas"; "lat" := "10.34"; "lon" := "123.91";
     "city" := "Cebu City"; "city_id" := "C1" ]}.

Definition dupSample : dataset :=
  {| barangaysRaw := [dupBrgy1; dupBrgy2];
     citiesRaw := [sampleCity1];
     provincesRaw := [sampleProvince] |}.

(** Every marker on a layer was stamped by the counter and shows the
    enabled icon of its kind. *)
Definition fresh_icons (s : state) : Prop :=
  ∀ ty h, h ∈ layerOf ty s →
    (h ≤ lastId s)%nat ∧ icons s !! h = Some (iconFor ty true).
(** * Properties *)

Example toNum_ex1 : toNum (Some "") = Some (Finite false 0 0).
Proof. reflexivity. Qed.
Example toNum_ex2 : toNum (Some " 10.3169 ") = Some (Finite false 103169 (-4)).
Proof. reflexivity. Qed.
Example toNum_ex3 : toNum (Some "abc") = None.
Proof. reflexivity. Qed.
Example toNum_ex4 : toNum None = None.
Proof. reflexivity. Qed.
Example toNum_ex5 : toNum (Some "-Infinity") = None.
Proof. reflexivity. Qed.
Example toNum_ex6 : toNum (Some "0x1F") = Some (Finite false 31 0).
Proof. reflexivity. Qed.
Example toNum_ex7 : toNum (Some "1e400") = None.
Proof. vm_compute. reflexivity. Qed.
Example toNum_ex8 : toNum (Some "-.5e-2") = Some (Finite true 5 (-3)).
Proof. reflexivity. Qed.
Example toNum_ex9 : toNum (Some "1e-400") = Some (Finite false 0 0).
Proof. vm_compute. reflexivity. Qed.
Example toNum_ex10 : toNum (Some "12,5") = None.
Proof. reflexivity. Qed.
Example toNum_ex11 : toNum (Some "1.") = Some (Finite false 1 0).
Proof. reflexivity. Qed.
Example toNum_ex12 : toNum (Some ".") = None.
Proof. reflexivity. Qed.
Example toNum_ex13 : toNum (Some "123.89") = Some (Finite false 12389 (-2)).
Proof. reflexivity. Qed.
Example normalizeId_ex1 : normalizeId (Some "  C1 ") = Some "C1".
Proof. reflexivity. Qed.
Example normalizeId_ex2 : normalizeId (Some "   ") = None.
Proof. reflexivity. Qed.
Example normalizeId_ex3 : normalizeId None = None.
Proof. reflexivity. Qed.


(** ** The [Map] model *)

Module JsMapFacts.
Import JsMap.

Section facts.
Context {V : Type}.
Implicit Types (m : JsMap.t V) (k : option string) (v : V).

Lemma get_set_eq k v m : get k (set k v m) = Some v.
Proof.
  unfold get. induction m as [|[k' v'] m IH]; csimpl.
  - by rewrite bool_decide_eq_true_2.
  - destruct (decide (k' = k)) as [->|Hne].
    + rewrite bool_decide_eq_true_2 by done. csimpl.
      by rewrite bool_decide_eq_true_2.
    + rewrite (bool_decide_eq_false_2 _ Hne). csimpl.
      by rewrite (bool_decide_eq_false_2 _ Hne).
Qed.

Lemma get_set_ne k k' v m : k ≠ k' → get k' (set k v m) = get k' m.
Proof.
  intros Hne. unfold get. induction m as [|[k0 v0] m IH]; csimpl.
  - by rewrite (bool_decide_eq_false_2 _ Hne).
  - destruct (decide (k0 = k)) as [->|Hne0].
    + rewrite bool_decide_eq_true_2 by done. csimpl.
      by rewrite !(bool_decide_eq_false_2 _ Hne).
    + rewrite (bool_decide_eq_false_2 _ Hne0). csimpl.
      destruct (bool_decide (k0 = k')); [done | exact IH].
Qed.

Lemma get_set k k' v m :
  get k' (set k v m) = if decide (k = k') then Some v else get k' m.
Proof.
  destruct (decide (k = k')) as [->|Hne];
    [apply get_set_eq | by apply get_set_ne].
Qed.

Lemma get_elem_of k v m : get k m = Some v → (k, v) ∈ m.
Proof.
  unfold get. destruct (List.find _ m) as [[k' v']|] eqn:Hf; csimpl; [|done].
  intros [= ->]. apply find_some in Hf as [Hin Hk].
  apply bool_decide_eq_true_1 in Hk. csimpl in Hk. subst k'.
  by apply list_elem_of_In.
Qed.

Lemma get_None_keys k m : get k m = None ↔ k ∉ keys m.
Proof.
  unfold get, keys. induction m as [|[k' v'] m IH]; csimpl.
  - split; [intros _; apply not_elem_of_nil | done].
  - destruct (decide (k' = k)) as [->|Hne].
    + rewrite bool_decide_eq_true_2 by done. csimpl.
      split; [done | intros []; left].
    + rewrite (bool_decide_eq_false_2 _ Hne). rewrite IH.
      rewrite not_elem_of_cons. naive_solver.
Qed.

Lemma elem_of_get k v m : NoDup (keys m) → (k, v) ∈ m → get k m = Some v.
Proof.
  unfold get, keys. induction m as [|[k' v'] m IH]; csimpl.
  - by intros _ ?%elem_of_nil.
  - intros [Hk Hnd]%NoDup_cons [[= <- <-]|Hin]%elem_of_cons.
    + by rewrite bool_decide_eq_true_2.
    + destruct (decide (k' = k)) as [->|Hne].
      * exfalso. apply Hk. apply list_elem_of_fmap. by exists (k, v).
      * rewrite (bool_decide_eq_false_2 _ Hne). by apply IH.
Qed.

Lemma keys_set k v m :
  keys (set k v m) = if has k m then keys m else keys m ++ [k].
Proof.
  unfold has, get, keys. induction m as [|[k' v'] m IH]; csimpl; [done|].
  destruct (decide (k' = k)) as [->|Hne].
  - by rewrite bool_decide_eq_true_2.
  - rewrite (bool_decide_eq_false_2 _ Hne). csimpl. rewrite IH.
    by destruct (List.find _ m).
Qed.

Lemma has_true k m : has k m = true ↔ k ∈ keys m.
Proof.
  unfold has. destruct (get k m) eqn:Hg.
  - split; [intros _ | done].
    apply get_elem_of in Hg. apply list_elem_of_fmap. by eexists (_, _).
  - apply get_None_keys in Hg. split; [done | by intros ?].
Qed.

Lemma NoDup_keys_set k v m : NoDup (keys m) → NoDup (keys (set k v m)).
Proof.
  intros Hnd. rewrite keys_set. destruct (has k m) eqn:Hh; [done|].
  apply NoDup_app. split_and!; [done | | apply NoDup_singleton].
  intros x Hx ->%list_elem_of_singleton.
  apply has_true in Hx. congruence.
Qed.

Lemma elem_of_keys_set k k' v m : k' ∈ keys (set k v m) ↔ k' = k ∨ k' ∈ keys m.
Proof.
  rewrite keys_set. destruct (has k m) eqn:Hh.
  - apply has_true in Hh. naive_solver.
  - rewrite elem_of_app, list_elem_of_singleton. naive_solver.
Qed.

(** What a [set] puts in the map is the new value, in place of at most one
    old value. *)
Lemma values_set_submseteq {B : Type} (f : V → B) k v m :
  f <$> values (set k v m) ⊆+ f v :: (f <$> values m).
Proof.
  unfold values. induction m as [|[k' v'] m IH]; csimpl; [done|].
  destruct (bool_decide (k' = k)); csimpl.
  - apply submseteq_skip. by apply submseteq_cons.
  - etrans; [apply submseteq_skip, IH|]. by rewrite Permutation_swap.
Qed.

Lemma elem_of_set k v m (e : option string * V) :
  e ∈ set k v m → e = (k, v) ∨ e ∈ m.
Proof.
  induction m as [|[k' v'] m IH]; csimpl.
  - intros ->%list_elem_of_singleton. by left.
  - destruct (bool_decide (k' = k)).
    + intros [->|?]%elem_of_cons; [by left | right; by apply elem_of_cons; right].
    + intros [->|?]%elem_of_cons; [right; apply elem_of_cons; by left|].
      destruct IH as [->|?]; [done | by left | right; apply elem_of_cons; by right].
Qed.

Lemma set_fresh k v m : k ∉ keys m → set k v m = m ++ [(k, v)].
Proof.
  unfold keys. induction m as [|[k' v'] m IH]; csimpl; [done|].
  intros [Hne Hk]%not_elem_of_cons.
  rewrite bool_decide_eq_false_2 by done. by rewrite IH.
Qed.

End facts.
End JsMapFacts.

(** ** [applyVisibilityRules] never throws, and what it computes *)

Lemma showLine_shown line yes links :
  showLine (Some line) yes links = Ok (shown line (Some yes) links).
Proof.
  unfold showLine, shown. simpl. f_equal.
  destruct yes; simpl; case_bool_decide; simpl; set_solver.
Qed.

Lemma brgyLineRule_shown st links brgyId line :
  brgyLineRule st links brgyId line = Ok (shown line (brgyVisible st brgyId) links).
Proof.
  unfold brgyLineRule, brgyVisible.
  destruct (List.find _ (barangays st)) as [b|]; simpl; [|done].
  apply showLine_shown.
Qed.

Lemma cityLineRule_shown st links cityId line :
  cityLineRule st links cityId line = Ok (shown line (cityVisible st cityId) links).
Proof.
  unfold cityLineRule, cityVisible.
  destruct (JsMap.get cityId (cityById st)) as [c|]; simpl; [|done].
  apply showLine_shown.
Qed.

Lemma forEachM_shown (dec : option string → option bool)
    (rule : gset nat → option string → polyline → result (gset nat)) m :
  (∀ links k line, rule links k line = Ok (shown line (dec k) links)) →
  ∀ links,
    JsMap.forEachM m rule links
    = Ok (fold_left (fun acc kv => shown kv.2 (dec kv.1) acc) m links).
Proof.
  intros Hrule. induction m as [|[k line] m IH]; intros links; simpl; [done|].
  rewrite Hrule. simpl. apply IH.
Qed.

(** The layer after both loops, as a pure fold. *)
Lemma applyVisibilityRules_Ok st :
  applyVisibilityRules st
  = Ok (st ▷ set_layerLinks
          (fold_left (fun acc kv => shown kv.2 (cityVisible st kv.1) acc)
             (linkCityToProv st)
             (fold_left (fun acc kv => shown kv.2 (brgyVisible st kv.1) acc)
                (linkBrgyToCity st) (layerLinks st)))).
Proof.
  unfold applyVisibilityRules.
  rewrite (forEachM_shown (brgyVisible st)) by apply brgyLineRule_shown. simpl.
  rewrite (forEachM_shown (cityVisible st)) by apply cityLineRule_shown. done.
Qed.

Lemma findStamp_None h (m : JsMap.t polyline) :
  findStamp h m = None ↔ h ∉ l_stamp <$> JsMap.values m.
Proof.
  unfold findStamp, JsMap.values. induction m as [|[k l] m IH]; csimpl.
  - split; [intros _; apply not_elem_of_nil | done].
  - case_bool_decide as Hh; simpl in Hh.
    + split; [done | intros []; subst; left].
    + rewrite IH, not_elem_of_cons. naive_solver.
Qed.

Lemma findStamp_Some h (m : JsMap.t polyline) k line :
  findStamp h m = Some (k, line) → (k, line) ∈ m ∧ l_stamp line = h.
Proof.
  unfold findStamp. intros [Hin Hh]%find_some.
  apply bool_decide_eq_true_1 in Hh. split; [by apply list_elem_of_In | done].
Qed.

Lemma findStamp_elem_of (m : JsMap.t polyline) k line :
  NoDup (l_stamp <$> JsMap.values m) → (k, line) ∈ m →
  findStamp (l_stamp line) m = Some (k, line).
Proof.
  unfold findStamp, JsMap.values. induction m as [|[k' l'] m IH]; csimpl.
  - by intros _ ?%elem_of_nil.
  - intros [Hl Hnd]%NoDup_cons [[= <- <-]|Hin]%elem_of_cons.
    + by rewrite bool_decide_eq_true_2.
    + case_bool_decide as Hh; simpl in Hh; [|by apply IH].
      exfalso. apply Hl. rewrite Hh.
      apply list_elem_of_fmap. exists line. split; [done|].
      apply list_elem_of_fmap. by exists (k, line).
Qed.

(** One loop: a stamp the map holds once ends as the loop decides, any
    other stays as it was. *)
Lemma fold_shown_elem_of (dec : option string → option bool) m :
  NoDup (l_stamp <$> JsMap.values m) →
  ∀ links h,
    h ∈ fold_left (fun acc kv => shown kv.2 (dec kv.1) acc) m links
    ↔ expect dec m (h ∈ links) h.
Proof.
  unfold expect, findStamp, JsMap.values.
  induction m as [|[k line] m IH]; csimpl; [done|].
  intros [Hl Hnd]%NoDup_cons links h. rewrite (IH Hnd). clear IH.
  case_bool_decide as Hh; simpl in Hh.
  - subst h. apply findStamp_None in Hl. unfold findStamp in Hl. rewrite Hl.
    unfold shown. destruct (dec k) as [[]|]; set_solver.
  - assert (h ∈ shown line (dec k) links ↔ h ∈ links) as Heq.
    { unfold shown. destruct (dec k) as [[]|]; set_solver. }
    destruct (List.find _ m) as [[k' l']|]; [destruct (dec k')|]; done.
Qed.

Lemma NoDup_app_l {A : Type} (l k : list A) : NoDup (l ++ k) → NoDup l.
Proof. by intros (? & _ & _)%NoDup_app. Qed.

Lemma NoDup_app_r {A : Type} (l k : list A) : NoDup (l ++ k) → NoDup k.
Proof. by intros (_ & _ & ?)%NoDup_app. Qed.

Lemma stamps_ok_NoDup st : stamps_ok st → NoDup (stamps_of st).
Proof.
  unfold stamps_ok. intros (k & Hk)%submseteq_Permutation.
  assert (NoDup (stamps_of st ++ k)) as Hnd.
  { rewrite <- Hk. apply NoDup_ListNoDup, List.seq_NoDup. }
  by apply NoDup_app_l in Hnd.
Qed.

Lemma stamps_ok_lines st :
  stamps_ok st →
  NoDup (l_stamp <$> JsMap.values (linkBrgyToCity st))
  ∧ NoDup (l_stamp <$> JsMap.values (linkCityToProv st))
  ∧ (∀ h, h ∈ l_stamp <$> JsMap.values (linkBrgyToCity st) →
          h ∉ l_stamp <$> JsMap.values (linkCityToProv st)).
Proof.
  intros Hnd%stamps_ok_NoDup. unfold stamps_of in Hnd.
  do 3 apply NoDup_app_r in Hnd.
  apply NoDup_app in Hnd as (? & ? & ?). done.
Qed.

Lemma expect_iff dec m (P Q : Prop) h :
  (P ↔ Q) → expect dec m P h ↔ expect dec m Q h.
Proof.
  intros HPQ. unfold expect.
  destruct (findStamp h m) as [[k l]|]; [destruct (dec k)|]; done.
Qed.

(** What [applyVisibilityRules] leaves in the links layer. *)
Lemma applyVisibilityRules_spec st :
  stamps_ok st →
  ∃ st', applyVisibilityRules st = Ok st'
    ∧ st' = st ▷ set_layerLinks (layerLinks st')
    ∧ ∀ h, h ∈ layerLinks st' ↔ expected st (h ∈ layerLinks st) h.
Proof.
  intros (Hb & Hc & _)%stamps_ok_lines.
  eexists. split; [apply applyVisibilityRules_Ok|]. split; [by destruct st|].
  intros h. simpl. unfold expected.
  rewrite (fold_shown_elem_of _ _ Hc).
  apply expect_iff, (fold_shown_elem_of _ _ Hb).
Qed.

(** ** Stamps are given once *)

Lemma stamps_ok_step st st' :
  stamps_ok st → lastId st' = S (lastId st) →
  stamps_of st' ⊆+ S (lastId st) :: stamps_of st → stamps_ok st'.
Proof.
  unfold stamps_ok. intros Hok -> Hsub. etrans; [exact Hsub|].
  rewrite seq_S. simpl. rewrite <- Permutation_cons_append.
  by apply submseteq_skip.
Qed.

Lemma stamps_prefix (pre l l' : list nat) a :
  l' ⊆+ a :: l → pre ++ l' ⊆+ a :: pre ++ l.
Proof.
  intros Hl. etrans; [apply submseteq_skips_l, Hl|].
  by rewrite Permutation_middle.
Qed.

Ltac stamps_tac :=
  unfold stamps_of; simpl; repeat apply stamps_prefix;
  first [ apply (JsMapFacts.values_set_submseteq m_stamp)
        | apply (JsMapFacts.values_set_submseteq l_stamp)
        | apply (submseteq_skips_r _ _ (_ :: _)), (JsMapFacts.values_set_submseteq m_stamp)
        | apply (submseteq_skips_r _ _ (_ :: _)), (JsMapFacts.values_set_submseteq l_stamp) ].

Lemma addProvinceMarker_stamps st p :
  stamps_ok st → stamps_ok (addProvinceMarker st p).
Proof.
  intros Hok. unfold addProvinceMarker.
  destruct (ProvRow.lat p), (ProvRow.lon p); try done.
  apply (stamps_ok_step st); [done..|]. stamps_tac.
Qed.

Lemma addCityMarker_stamps st c :
  stamps_ok st → stamps_ok (addCityMarker st c).
Proof.
  intros Hok. unfold addCityMarker.
  destruct (CityRow.lat c), (CityRow.lon c); try done.
  apply (stamps_ok_step st); [done..|]. stamps_tac.
Qed.

Lemma addBarangayMarker_stamps st b :
  stamps_ok st → stamps_ok (addBarangayMarker st b).
Proof.
  intros Hok. unfold addBarangayMarker.
  destruct (BrgyRow.lat b), (BrgyRow.lon b); try done.
  apply (stamps_ok_step st); [done..|]. stamps_tac.
Qed.

Lemma addBrgyLink_stamps st b :
  stamps_ok st → stamps_ok (addBrgyLink st b).
Proof.
  intros Hok. unfold addBrgyLink.
  destruct (BrgyRow.lat b), (BrgyRow.lon b); try done.
  destruct (negb _); [done|].
  destruct (JsMap.get _ _) as [c|]; [|done].
  destruct (CityRow.lat c), (CityRow.lon c); try done.
  apply (stamps_ok_step st); [done..|]. stamps_tac.
Qed.

Lemma addCityLink_stamps st c :
  stamps_ok st → stamps_ok (addCityLink st c).
Proof.
  intros Hok. unfold addCityLink.
  destruct (CityRow.lat c), (CityRow.lon c); try done.
  destruct (negb _); [done|].
  destruct (JsMap.get _ _) as [p|]; [|done].
  destruct (ProvRow.lat p), (ProvRow.lon p); try done.
  apply (stamps_ok_step st); [done..|]. stamps_tac.
Qed.

(** A loop keeps what each of its rounds keeps. *)
Lemma fold_left_preserves {S A : Type} (P : S → Prop) (f : S → A → S) l :
  (∀ s a, P s → P (f s a)) → ∀ s, P s → P (fold_left f l s).
Proof. intros Hf. induction l as [|a l IH]; simpl; auto. Qed.

Lemma addProvinceMarker_data st p : data (addProvinceMarker st p) = data st.
Proof. unfold addProvinceMarker. by destruct (ProvRow.lat p), (ProvRow.lon p). Qed.

Lemma addCityMarker_data st c : data (addCityMarker st c) = data st.
Proof. unfold addCityMarker. by destruct (CityRow.lat c), (CityRow.lon c). Qed.

Lemma addBarangayMarker_data st b : data (addBarangayMarker st b) = data st.
Proof. unfold addBarangayMarker. by destruct (BrgyRow.lat b), (BrgyRow.lon b). Qed.

Lemma addBrgyLink_data st b : data (addBrgyLink st b) = data st.
Proof.
  unfold addBrgyLink. destruct (BrgyRow.lat b), (BrgyRow.lon b); try done.
  destruct (negb _); [done|]. destruct (JsMap.get _ _) as [c|]; [|done].
  by destruct (CityRow.lat c), (CityRow.lon c).
Qed.

Lemma addCityLink_data st c : data (addCityLink st c) = data st.
Proof.
  unfold addCityLink. destruct (CityRow.lat c), (CityRow.lon c); try done.
  destruct (negb _); [done|]. destruct (JsMap.get _ _) as [p|]; [|done].
  by destruct (ProvRow.lat p), (ProvRow.lon p).
Qed.

Lemma fold_data {A : Type} (f : state → A → state) l st0 :
  (∀ st a, data (f st a) = data st) → ∀ st, data st = data st0 →
  data (fold_left f l st) = data st0.
Proof.
  intros Hf. apply (fold_left_preserves (fun st => data st = data st0)).
  intros st a <-. apply Hf.
Qed.

(** ** Marker icons after [updateMarkerStyles] *)

Lemma forEach_setIcon (g : option string → icon) (m : JsMap.t marker) :
  NoDup (m_stamp <$> JsMap.values m) →
  ∀ ic : gmap nat icon,
    (∀ k mk, (k, mk) ∈ m →
       JsMap.forEach m (fun ic k mk => <[m_stamp mk := g k]> ic) ic !! m_stamp mk
       = Some (g k))
    ∧ (∀ s, s ∉ m_stamp <$> JsMap.values m →
         JsMap.forEach m (fun ic k mk => <[m_stamp mk := g k]> ic) ic !! s = ic !! s).
Proof.
  unfold JsMap.forEach, JsMap.values.
  induction m as [|[k0 mk0] m IH]; csimpl; intros Hnd ic.
  - split; [by intros ?? ?%elem_of_nil | done].
  - apply NoDup_cons in Hnd as [Hfresh Hnd].
    destruct (IH Hnd (<[m_stamp mk0 := g k0]> ic)) as [IHin IHout]. split.
    + intros k mk [[= -> ->]|Hin]%elem_of_cons; [|by apply IHin].
      rewrite (IHout _ Hfresh). apply lookup_insert_eq.
    + intros s [Hs Hsm]%not_elem_of_cons.
      rewrite (IHout _ Hsm). by apply lookup_insert_ne.
Qed.

Lemma elem_of_stamps {V : Type} (f : V → nat) (m : JsMap.t V) k v :
  (k, v) ∈ m → f v ∈ f <$> JsMap.values m.
Proof.
  intros Hin. apply list_elem_of_fmap. exists v. split; [done|].
  apply list_elem_of_fmap. by exists (k, v).
Qed.

Lemma updateMarkerStyles_icons st : stamps_ok st → icons_ok (updateMarkerStyles st).
Proof.
  intros Hnd%stamps_ok_NoDup. unfold stamps_of in Hnd.
  apply NoDup_app in Hnd as (Hp & Hp' & Hnd).
  apply NoDup_app in Hnd as (Hc & Hc' & Hnd).
  apply NoDup_app in Hnd as (Hb & _ & _).
  unfold icons_ok, updateMarkerStyles. simpl. intros ty id m Hin.
  pose proof (elem_of_stamps m_stamp _ _ _ Hin) as Hs.
  destruct ty; simpl in Hin, Hs |- *.
  - specialize (Hp' _ Hs). rewrite !elem_of_app in Hp'.
    rewrite (proj2 (forEach_setIcon _ _ Hb _)) by tauto.
    rewrite (proj2 (forEach_setIcon _ _ Hc _)) by tauto.
    exact (proj1 (forEach_setIcon
      (fun k => if getEnabled (enabled st) Province k
                then provinceIconEnabled else disabledAwesome) _ Hp _) _ _ Hin).
  - specialize (Hc' _ Hs). rewrite !elem_of_app in Hc'.
    rewrite (proj2 (forEach_setIcon _ _ Hb _)) by tauto.
    exact (proj1 (forEach_setIcon
      (fun k => if getEnabled (enabled st) City k
                then cityIconEnabled else disabledAwesome) _ Hc _) _ _ Hin).
  - exact (proj1 (forEach_setIcon
      (fun k => if getEnabled (enabled st) Barangay k
                then brgyIconEnabled else brgyIconDisabled) _ Hb _) _ _ Hin).
Qed.

(** ** The link maps *)

Lemma addBrgyLink_elem_of st b k line :
  (k, line) ∈ linkBrgyToCity (addBrgyLink st b) →
  (k, line) ∈ linkBrgyToCity st ∨ BrgyRow.brgy_id b = k.
Proof.
  unfold addBrgyLink. destruct (BrgyRow.lat b), (BrgyRow.lon b); try tauto.
  destruct (negb _); [tauto|]. destruct (JsMap.get _ _) as [c|]; [|tauto].
  destruct (CityRow.lat c), (CityRow.lon c); try tauto. simpl.
  intros [[= -> _]|?]%JsMapFacts.elem_of_set; tauto.
Qed.

Lemma addBrgyLink_fold_elem_of l : ∀ st k line,
  (k, line) ∈ linkBrgyToCity (fold_left addBrgyLink l st) →
  (k, line) ∈ linkBrgyToCity st ∨ ∃ b, b ∈ l ∧ BrgyRow.brgy_id b = k.
Proof.
  induction l as [|b l IH]; simpl; intros st k line Hin; [by left|].
  apply IH in Hin as [Hin|(b' & ? & ?)].
  - apply addBrgyLink_elem_of in Hin as [?|?]; [by left|].
    right. exists b. split; [left | done].
  - right. exists b'. split; [by right | done].
Qed.

Lemma addCityLink_elem_of st c k line :
  (k, line) ∈ linkCityToProv (addCityLink st c) →
  (k, line) ∈ linkCityToProv st
  ∨ (CityRow.city_id c = k ∧ is_Some (CityRow.lat c) ∧ is_Some (CityRow.lon c)).
Proof.
  unfold addCityLink. destruct (CityRow.lat c), (CityRow.lon c); try tauto.
  destruct (negb _); [tauto|]. destruct (JsMap.get _ _) as [p|]; [|tauto].
  destruct (ProvRow.lat p), (ProvRow.lon p); try tauto. simpl.
  intros [[= -> _]|?]%JsMapFacts.elem_of_set; [right | by left].
  split_and!; eauto.
Qed.

Lemma addCityLink_fold_elem_of l : ∀ st k line,
  (k, line) ∈ linkCityToProv (fold_left addCityLink l st) →
  (k, line) ∈ linkCityToProv st
  ∨ ∃ c, c ∈ l ∧ CityRow.city_id c = k
         ∧ is_Some (CityRow.lat c) ∧ is_Some (CityRow.lon c).
Proof.
  induction l as [|c l IH]; simpl; intros st k line Hin; [by left|].
  apply IH in Hin as [Hin|(c' & ? & ?)].
  - apply addCityLink_elem_of in Hin as [?|?]; [by left|].
    right. exists c. split; [left | done].
  - right. exists c'. split; [by right | done].
Qed.

Lemma addCityLink_brgy_links st c :
  linkBrgyToCity (addCityLink st c) = linkBrgyToCity st.
Proof.
  unfold addCityLink. destruct (CityRow.lat c), (CityRow.lon c); try done.
  destruct (negb _); [done|]. destruct (JsMap.get _ _) as [p|]; [|done].
  by destruct (ProvRow.lat p), (ProvRow.lon p).
Qed.

Lemma addBrgyLink_city_links st b :
  linkCityToProv (addBrgyLink st b) = linkCityToProv st.
Proof.
  unfold addBrgyLink. destruct (BrgyRow.lat b), (BrgyRow.lon b); try done.
  destruct (negb _); [done|]. destruct (JsMap.get _ _) as [c|]; [|done].
  by destruct (CityRow.lat c), (CityRow.lon c).
Qed.

Lemma addProvinceMarker_links st p :
  linkBrgyToCity (addProvinceMarker st p) = linkBrgyToCity st
  ∧ linkCityToProv (addProvinceMarker st p) = linkCityToProv st.
Proof. unfold addProvinceMarker. by destruct (ProvRow.lat p), (ProvRow.lon p). Qed.

Lemma addCityMarker_links st c :
  linkBrgyToCity (addCityMarker st c) = linkBrgyToCity st
  ∧ linkCityToProv (addCityMarker st c) = linkCityToProv st.
Proof. unfold addCityMarker. by destruct (CityRow.lat c), (CityRow.lon c). Qed.

Lemma addBarangayMarker_links st b :
  linkBrgyToCity (addBarangayMarker st b) = linkBrgyToCity st
  ∧ linkCityToProv (addBarangayMarker st b) = linkCityToProv st.
Proof. unfold addBarangayMarker. by destruct (BrgyRow.lat b), (BrgyRow.lon b). Qed.

(** ** The indexes built by [main] *)

Lemma indexCity_is_Some m c k :
  is_Some (JsMap.get k m) → is_Some (JsMap.get k (indexCity m c)).
Proof.
  unfold indexCity. destruct (CityRow.lat c), (CityRow.lon c); try done.
  rewrite JsMapFacts.get_set. by case_decide.
Qed.

Lemma indexCity_fold_is_Some l : ∀ m c,
  c ∈ l → is_Some (CityRow.lat c) → is_Some (CityRow.lon c) →
  is_Some (JsMap.get (CityRow.city_id c) (fold_left indexCity l m)).
Proof.
  induction l as [|c0 l IH]; simpl; intros m c Hin Hla Hlo;
    [by apply elem_of_nil in Hin|].
  apply elem_of_cons in Hin as [->|Hin]; [|by apply IH].
  apply (fold_left_preserves (fun m => is_Some (JsMap.get (CityRow.city_id c0) m))).
  - intros. by apply indexCity_is_Some.
  - unfold indexCity. destruct Hla as [? ->], Hlo as [? ->].
    by rewrite JsMapFacts.get_set_eq.
Qed.

Lemma indexCity_fold_elem_of l : ∀ m k c,
  (k, c) ∈ fold_left indexCity l m → (k, c) ∈ m ∨ c ∈ l.
Proof.
  induction l as [|c0 l IH]; simpl; intros m k c Hin; [by left|].
  apply IH in Hin as [Hin|?]; [|right; by right].
  unfold indexCity in Hin.
  destruct (CityRow.lat c0), (CityRow.lon c0); try by left.
  apply JsMapFacts.elem_of_set in Hin as [[= _ ->]|?]; [right; left | by left].
Qed.

(** ** What [expected] reads *)

Lemma expected_congr st st' :
  barangays st = barangays st' → cityById st = cityById st' →
  linkBrgyToCity st = linkBrgyToCity st' → linkCityToProv st = linkCityToProv st' →
  enabled st = enabled st' →
  expected st = expected st'.
Proof.
  intros Hb Hc Hlb Hlc He.
  unfold expected, brgyVisible, cityVisible. by rewrite Hb, Hc, Hlb, Hlc, He.
Qed.

Lemma static_fields st st' :
  static st = static st' →
  barangays st = barangays st' ∧ cityById st = cityById st'
  ∧ linkBrgyToCity st = linkBrgyToCity st' ∧ linkCityToProv st = linkCityToProv st'
  ∧ markers st = markers st' ∧ lastId st = lastId st'.
Proof. unfold static. intros [= ]. by split_and!. Qed.

Lemma expected_iff st (P Q : Prop) h :
  (P ↔ Q) → expected st P h ↔ expected st Q h.
Proof. intros HPQ. unfold expected. by do 2 apply expect_iff. Qed.

(** Lines whose record is missing stay missing whatever the flags, so two
    rounds of the rules amount to the last one. *)
Lemma expected_idem st st' (P : Prop) h :
  static st = static st' →
  expected st (expected st' P h) h ↔ expected st P h.
Proof.
  intros (Hb & Hc & Hlb & Hlc & _)%static_fields.
  unfold expected, expect, brgyVisible, cityVisible.
  rewrite <- Hb, <- Hc, <- Hlb, <- Hlc.
  destruct (findStamp h (linkCityToProv st)) as [[kc lc]|];
    [destruct (JsMap.get kc (cityById st)); [done|]|];
    (destruct (findStamp h (linkBrgyToCity st)) as [[kb lb]|];
      [destruct (List.find _ (barangays st)); done | done]).
Qed.

Lemma expected_flags st st' (P : Prop) h :
  static st = static st' → same_flags (enabled st) (enabled st') →
  expected st P h ↔ expected st' P h.
Proof.
  intros (Hb & Hc & Hlb & Hlc & _)%static_fields Hfl.
  unfold expected, expect, brgyVisible, cityVisible.
  rewrite <- Hb, <- Hc, <- Hlb, <- Hlc.
  destruct (findStamp h (linkCityToProv st)) as [[kc lc]|].
  - destruct (JsMap.get kc (cityById st)) as [c|].
    + rewrite (Hfl City kc).
      destruct (truthy_id (CityRow.province_id c)); [|done].
      by rewrite (Hfl Province).
    + destruct (findStamp h (linkBrgyToCity st)) as [[kb lb]|]; [|done].
      destruct (List.find _ (barangays st)) as [b|]; [|done].
      rewrite (Hfl Barangay kb).
      destruct (truthy_id (BrgyRow.city_id b)); [|done].
      by rewrite (Hfl City).
  - destruct (findStamp h (linkBrgyToCity st)) as [[kb lb]|]; [|done].
    destruct (List.find _ (barangays st)) as [b|]; [|done].
    rewrite (Hfl Barangay kb).
    destruct (truthy_id (BrgyRow.city_id b)); [|done].
    by rewrite (Hfl City).
Qed.

(** ** Flags *)

Lemma sel_upd {V : Type} ty ty' (f : JsMap.t V → JsMap.t V) o :
  sel ty' (upd ty f o) = if decide (ty = ty') then f (sel ty o) else sel ty' o.
Proof. by destruct ty, ty'. Qed.

Lemma getEnabled_setEnabled ty id val en ty' id' :
  getEnabled (setEnabled ty id val en) ty' id'
  = if decide (ty = ty' ∧ id = id') then val else getEnabled en ty' id'.
Proof.
  unfold getEnabled, setEnabled. rewrite sel_upd.
  destruct (decide (ty = ty')) as [->|Hty].
  - rewrite JsMapFacts.get_set. destruct (decide (id = id')) as [->|Hid].
    + rewrite decide_True by done. by destruct val.
    + by rewrite decide_False by tauto.
  - by rewrite decide_False by tauto.
Qed.

Lemma flags_ok_upd ty (f : JsMap.t bool → JsMap.t bool) en :
  flags_ok en → (∀ m, None ∉ JsMap.keys m → None ∉ JsMap.keys (f m)) →
  flags_ok (upd ty f en).
Proof.
  intros Hok Hf ty'. rewrite sel_upd. case_decide; [apply Hf|]; apply Hok.
Qed.

Lemma set_keys_not_None (k : option string) (v : bool) m :
  k ≠ None → None ∉ JsMap.keys m → None ∉ JsMap.keys (JsMap.set k v m).
Proof. intros Hk Hm. rewrite JsMapFacts.elem_of_keys_set. naive_solver. Qed.

Lemma flags_ok_setEnabled ty id val en :
  flags_ok en → flags_ok (setEnabled ty (Some id) val en).
Proof. intros Hok. apply flags_ok_upd; [done|]. intros m. by apply set_keys_not_None. Qed.

Lemma flags_ok_setAllEnabled ty val en :
  flags_ok en → flags_ok (setAllEnabled ty val en).
Proof.
  intros Hok. apply flags_ok_upd; [done|]. intros m Hm. unfold JsMap.forEach.
  assert (∀ l acc, (∀ kv, kv ∈ l → kv.1 ≠ None) → None ∉ JsMap.keys acc →
    None ∉ JsMap.keys
      (fold_left (fun acc (kv : option string * bool) => JsMap.set kv.1 val acc) l acc))
    as Hfold.
  { induction l as [|kv l IH]; simpl; intros acc Hl Hacc; [done|].
    apply IH; [intros; apply Hl; by right|].
    apply set_keys_not_None; [apply Hl; left | done]. }
  apply Hfold; [|done]. intros [k v] Hin; simpl; intros ->. apply Hm.
  apply list_elem_of_fmap. by exists (None, v).
Qed.

Lemma flags_ok_flagsAfter ev en : flags_ok en → flags_ok (flagsAfter ev en).
Proof.
  intros Hok. destruct ev; unfold flagsAfter.
  - by apply flags_ok_setEnabled.
  - by do 3 apply flags_ok_setAllEnabled.
  - by do 3 apply flags_ok_setAllEnabled.
Qed.

(** ** One event *)

Lemma handle_spec ev st base :
  inv st → synced base st →
  ∃ st', handle ev st = Ok st'
    ∧ static st' = static st
    ∧ enabled st' = flagsAfter ev (enabled st)
    ∧ inv st' ∧ synced base st'.
Proof.
  intros (Hst & Hli & Hro & Hfl & Hic) Hsy.
  set (st1 := st ▷ set_enabled (flagsAfter ev (enabled st))).
  assert (handle ev st = st2 ← applyVisibilityRules st1; Ok (updateMarkerStyles st2))
    as -> by (by destruct ev).
  destruct (applyVisibilityRules_spec st1) as (st2 & Happ & Hst2 & Hmem); [done|].
  rewrite Happ. simpl. eexists. split; [done|].
  assert (static st2 = static st ∧ enabled st2 = flagsAfter ev (enabled st)
          ∧ icons st2 = icons st) as (Hs2 & He2 & Hi2) by (by rewrite Hst2).
  split; [exact Hs2|]. split; [exact He2|]. split.
  - assert (stamps_ok st2) as Hst2ok by (by rewrite Hst2).
    split_and!.
    + exact Hst2ok.
    + rewrite Hst2. exact Hli.
    + rewrite Hst2. exact Hro.
    + simpl. rewrite He2. by apply flags_ok_flagsAfter.
    + by apply updateMarkerStyles_icons.
  - intros h. simpl.
    rewrite (expected_congr (updateMarkerStyles st2) st1) by (by rewrite Hst2).
    rewrite Hmem. etrans; [apply expected_iff, (Hsy h)|].
    by apply expected_idem.
Qed.

(** ** With identifiers as keys, every line drawn is kept in a map *)

Lemma addBrgyLink_keys st b k :
  k ∈ JsMap.keys (linkBrgyToCity (addBrgyLink st b)) →
  k = BrgyRow.brgy_id b ∨ k ∈ JsMap.keys (linkBrgyToCity st).
Proof.
  unfold addBrgyLink. destruct (BrgyRow.lat b), (BrgyRow.lon b); try tauto.
  destruct (negb _); [tauto|]. destruct (JsMap.get _ _) as [c|]; [|tauto].
  destruct (CityRow.lat c), (CityRow.lon c); try tauto. simpl.
  by intros ?%JsMapFacts.elem_of_keys_set.
Qed.

Lemma addCityLink_keys st c k :
  k ∈ JsMap.keys (linkCityToProv (addCityLink st c)) →
  k = CityRow.city_id c ∨ k ∈ JsMap.keys (linkCityToProv st).
Proof.
  unfold addCityLink. destruct (CityRow.lat c), (CityRow.lon c); try tauto.
  destruct (negb _); [tauto|]. destruct (JsMap.get _ _) as [p|]; [|tauto].
  destruct (ProvRow.lat p), (ProvRow.lon p); try tauto. simpl.
  by intros ?%JsMapFacts.elem_of_keys_set.
Qed.

Lemma addBrgyLink_tracked st b :
  BrgyRow.brgy_id b ∉ JsMap.keys (linkBrgyToCity st) →
  (∀ h, h ∈ layerLinks st → tracked st h) →
  ∀ h, h ∈ layerLinks (addBrgyLink st b) → tracked (addBrgyLink st b) h.
Proof.
  intros Hfresh Htr. unfold addBrgyLink.
  destruct (BrgyRow.lat b), (BrgyRow.lon b); try done.
  destruct (negb _); [done|]. destruct (JsMap.get _ _) as [c|]; [|done].
  destruct (CityRow.lat c), (CityRow.lon c); try done.
  unfold tracked. simpl. intros h. rewrite (JsMapFacts.set_fresh _ _ _ Hfresh).
  unfold JsMap.values. rewrite !fmap_app, elem_of_app. csimpl.
  rewrite elem_of_union, elem_of_singleton, list_elem_of_singleton.
  intros [->|Hh]; [tauto|]. destruct (Htr h Hh); tauto.
Qed.

Lemma addCityLink_tracked st c :
  CityRow.city_id c ∉ JsMap.keys (linkCityToProv st) →
  (∀ h, h ∈ layerLinks st → tracked st h) →
  ∀ h, h ∈ layerLinks (addCityLink st c) → tracked (addCityLink st c) h.
Proof.
  intros Hfresh Htr. unfold addCityLink.
  destruct (CityRow.lat c), (CityRow.lon c); try done.
  destruct (negb _); [done|]. destruct (JsMap.get _ _) as [p|]; [|done].
  destruct (ProvRow.lat p), (ProvRow.lon p); try done.
  unfold tracked. simpl. intros h. rewrite (JsMapFacts.set_fresh _ _ _ Hfresh).
  unfold JsMap.values. rewrite !fmap_app, elem_of_app. csimpl.
  rewrite elem_of_union, elem_of_singleton, list_elem_of_singleton.
  intros [->|Hh]; [tauto|]. destruct (Htr h Hh); tauto.
Qed.

Lemma addBrgyLink_fold_tracked l : ∀ st,
  NoDup (BrgyRow.brgy_id <$> l) →
  (∀ b, b ∈ l → BrgyRow.brgy_id b ∉ JsMap.keys (linkBrgyToCity st)) →
  (∀ h, h ∈ layerLinks st → tracked st h) →
  ∀ h, h ∈ layerLinks (fold_left addBrgyLink l st) →
       tracked (fold_left addBrgyLink l st) h.
Proof.
  induction l as [|b l IH]; csimpl; intros st Hnd Hfresh Htr; [done|].
  apply NoDup_cons in Hnd as [Hb Hnd]. apply IH; [done| |].
  - intros b' Hb' [Hk|Hk]%addBrgyLink_keys.
    + apply Hb. rewrite <- Hk. by apply list_elem_of_fmap_2.
    + eapply Hfresh; [by right | done].
  - apply addBrgyLink_tracked; [apply Hfresh; left | done].
Qed.

Lemma addCityLink_fold_tracked l : ∀ st,
  NoDup (CityRow.city_id <$> l) →
  (∀ c, c ∈ l → CityRow.city_id c ∉ JsMap.keys (linkCityToProv st)) →
  (∀ h, h ∈ layerLinks st → tracked st h) →
  ∀ h, h ∈ layerLinks (fold_left addCityLink l st) →
       tracked (fold_left addCityLink l st) h.
Proof.
  induction l as [|c l IH]; csimpl; intros st Hnd Hfresh Htr; [done|].
  apply NoDup_cons in Hnd as [Hc Hnd]. apply IH; [done| |].
  - intros c' Hc' [Hk|Hk]%addCityLink_keys.
    + apply Hc. rewrite <- Hk. by apply list_elem_of_fmap_2.
    + eapply Hfresh; [by right | done].
  - apply addCityLink_tracked; [apply Hfresh; left | done].
Qed.

Lemma addProvinceMarker_layerLinks st p :
  layerLinks (addProvinceMarker st p) = layerLinks st.
Proof. unfold addProvinceMarker. by destruct (ProvRow.lat p), (ProvRow.lon p). Qed.

Lemma addCityMarker_layerLinks st c :
  layerLinks (addCityMarker st c) = layerLinks st.
Proof. unfold addCityMarker. by destruct (CityRow.lat c), (CityRow.lon c). Qed.

Lemma addBarangayMarker_layerLinks st b :
  layerLinks (addBarangayMarker st b) = layerLinks st.
Proof. unfold addBarangayMarker. by destruct (BrgyRow.lat b), (BrgyRow.lon b). Qed.

(** ** Drawing the markers and links *)

Lemma data_fields st st' :
  data st = data st' →
  barangays st = barangays st' ∧ cities st = cities st' ∧ provinces st = provinces st'
  ∧ cityById st = cityById st' ∧ provinceById st = provinceById st'
  ∧ barangaysByCity st = barangaysByCity st' ∧ enabled st = enabled st'
  ∧ tree st = tree st'.
Proof. unfold data. intros [= ]. by split_and!. Qed.

Lemma addMarkersAndLinks_spec st :
  (∀ c, c ∈ cities st → is_Some (CityRow.lat c) → is_Some (CityRow.lon c) →
        is_Some (JsMap.get (CityRow.city_id c) (cityById st))) →
  ∃ st' base, addMarkersAndLinks st = Ok st'
    ∧ data st' = data st ∧ stamps_ok st' ∧ links_ok st' ∧ icons_ok st'
    ∧ synced base st'
    ∧ (unique_ids st → ∀ h, h ∈ base → tracked st' h).
Proof.
  intros Hcity. unfold addMarkersAndLinks. lazy zeta.
  set (st0 := clearMapObjects st).
  set (st1 := fold_left addProvinceMarker (provinces st0) st0).
  set (st2 := fold_left addCityMarker (cities st1) st1).
  set (st3 := fold_left addBarangayMarker (barangays st2) st2).
  set (st4 := fold_left addBrgyLink (barangays st3) st3).
  set (st5 := fold_left addCityLink (cities st4) st4).
  assert (data st1 = data st) as Hd1
    by (apply fold_data; [apply addProvinceMarker_data | done]).
  assert (data st2 = data st) as Hd2
    by (apply fold_data; [apply addCityMarker_data | done]).
  assert (data st3 = data st) as Hd3
    by (apply fold_data; [apply addBarangayMarker_data | done]).
  assert (data st4 = data st) as Hd4
    by (apply fold_data; [apply addBrgyLink_data | done]).
  assert (data st5 = data st) as Hd5
    by (apply fold_data; [apply addCityLink_data | done]).
  assert (stamps_ok st5) as Hst5.
  { apply fold_left_preserves; [intros; by apply addCityLink_stamps|].
    apply fold_left_preserves; [intros; by apply addBrgyLink_stamps|].
    apply fold_left_preserves; [intros; by apply addBarangayMarker_stamps|].
    apply fold_left_preserves; [intros; by apply addCityMarker_stamps|].
    apply fold_left_preserves; [intros; by apply addProvinceMarker_stamps|].
    unfold stamps_ok, stamps_of. simpl. apply submseteq_nil_l. }
  assert (linkBrgyToCity st3 = [] ∧ linkCityToProv st3 = []) as [Hlb3 Hlc3].
  { apply (fold_left_preserves
      (fun s => linkBrgyToCity s = [] ∧ linkCityToProv s = [])).
    { intros s b Hs. by destruct (addBarangayMarker_links s b) as [-> ->]. }
    apply (fold_left_preserves
      (fun s => linkBrgyToCity s = [] ∧ linkCityToProv s = [])).
    { intros s c Hs. by destruct (addCityMarker_links s c) as [-> ->]. }
    apply (fold_left_preserves
      (fun s => linkBrgyToCity s = [] ∧ linkCityToProv s = [])).
    { intros s p Hs. by destruct (addProvinceMarker_links s p) as [-> ->]. }
    done. }
  assert (linkCityToProv st4 = []) as Hlc4.
  { apply (fold_left_preserves (fun s => linkCityToProv s = [])); [|done].
    intros s b Hs. by rewrite addBrgyLink_city_links. }
  assert (linkBrgyToCity st5 = linkBrgyToCity st4) as Hlb5.
  { apply (fold_left_preserves (fun s => linkBrgyToCity s = linkBrgyToCity st4));
      [|done].
    intros s c Hs. by rewrite addCityLink_brgy_links. }
  apply data_fields in Hd3 as (Hb3 & _).
  apply data_fields in Hd4 as (_ & Hc4 & _).
  pose proof (data_fields _ _ Hd5) as (Hb5 & _ & _ & Hcb5 & _).
  assert (links_ok st5) as Hli5.
  { split.
    - intros k line Hin. rewrite Hlb5 in Hin.
      apply addBrgyLink_fold_elem_of in Hin as [Hin|Hin].
      + rewrite Hlb3 in Hin. by apply elem_of_nil in Hin.
      + by rewrite Hb5, <- Hb3.
    - intros k line Hin.
      apply addCityLink_fold_elem_of in Hin as [Hin|(c & Hin & <- & Hla & Hlo)].
      + rewrite Hlc4 in Hin. by apply elem_of_nil in Hin.
      + rewrite Hcb5. apply Hcity; [by rewrite <- Hc4 | done..]. }
  assert (unique_ids st → ∀ h, h ∈ layerLinks st5 → tracked st5 h) as Htr5.
  { intros [Hnb Hnc].
    assert (layerLinks st3 = ∅) as Hl3.
    { apply (fold_left_preserves (fun s => layerLinks s = ∅)).
      { intros s b Hs. by rewrite addBarangayMarker_layerLinks. }
      apply (fold_left_preserves (fun s => layerLinks s = ∅)).
      { intros s c Hs. by rewrite addCityMarker_layerLinks. }
      apply (fold_left_preserves (fun s => layerLinks s = ∅)); [|done].
      intros s p Hs. by rewrite addProvinceMarker_layerLinks. }
    apply addCityLink_fold_tracked.
    - by rewrite Hc4.
    - intros c _. rewrite Hlc4. apply not_elem_of_nil.
    - apply addBrgyLink_fold_tracked.
      + by rewrite Hb3.
      + intros b _. rewrite Hlb3. apply not_elem_of_nil.
      + intros h. rewrite Hl3. by intros ?%not_elem_of_empty. }
  clearbody st5. clear st0 st1 st2 st3 st4 Hd1 Hd2 Hlb3 Hlc3 Hlc4 Hlb5 Hb3 Hc4 Hb5 Hcb5.
  pose proof (updateMarkerStyles_icons _ Hst5) as Hic6.
  destruct (applyVisibilityRules_spec (updateMarkerStyles st5))
    as (st7 & Happ & Hst7 & Hmem); [done|].
  exists st7, (layerLinks st5). split; [done|].
  rewrite Hst7. by split_and!.
Qed.

(** ** Where markers and lines come from *)

Lemma fold_elem_of {A E : Type} (f : state → A → state) (proj : state → list E)
    (Q : state → A → E → Prop) l :
  (∀ st a, data (f st a) = data st) →
  (∀ st a e, e ∈ proj (f st a) → e ∈ proj st ∨ Q st a e) →
  ∀ st e, e ∈ proj (fold_left f l st) →
    e ∈ proj st ∨ ∃ a st', a ∈ l ∧ data st' = data st ∧ Q st' a e.
Proof.
  intros Hdata Hstep. induction l as [|a l IH]; simpl; intros st e Hin; [by left|].
  apply IH in Hin as [Hin|(a' & st' & Ha' & Hd & HQ)].
  - apply Hstep in Hin as [?|HQ]; [by left|].
    right. exists a, st. split_and!; [left | done..].
  - right. exists a', st'. split_and!; [by right | | done].
    by rewrite Hd, Hdata.
Qed.

Lemma addProvinceMarker_elem_of st p id m :
  (id, m) ∈ province (markers (addProvinceMarker st p)) →
  (id, m) ∈ province (markers st)
  ∨ (ProvRow.province_id p = id
     ∧ ProvRow.lat p = Some (m_latlng m).1 ∧ ProvRow.lon p = Some (m_latlng m).2).
Proof.
  unfold addProvinceMarker. destruct (ProvRow.lat p), (ProvRow.lon p); try tauto.
  simpl. intros [[= -> ->]|?]%JsMapFacts.elem_of_set; [by right | by left].
Qed.

Lemma addCityMarker_elem_of st c id m :
  (id, m) ∈ city (markers (addCityMarker st c)) →
  (id, m) ∈ city (markers st)
  ∨ (CityRow.city_id c = id
     ∧ CityRow.lat c = Some (m_latlng m).1 ∧ CityRow.lon c = Some (m_latlng m).2).
Proof.
  unfold addCityMarker. destruct (CityRow.lat c), (CityRow.lon c); try tauto.
  simpl. intros [[= -> ->]|?]%JsMapFacts.elem_of_set; [by right | by left].
Qed.

Lemma addBarangayMarker_elem_of st b id m :
  (id, m) ∈ barangay (markers (addBarangayMarker st b)) →
  (id, m) ∈ barangay (markers st)
  ∨ (BrgyRow.brgy_id b = id
     ∧ BrgyRow.lat b = Some (m_latlng m).1 ∧ BrgyRow.lon b = Some (m_latlng m).2).
Proof.
  unfold addBarangayMarker. destruct (BrgyRow.lat b), (BrgyRow.lon b); try tauto.
  simpl. intros [[= -> ->]|?]%JsMapFacts.elem_of_set; [by right | by left].
Qed.

Lemma addBrgyLink_coords st b k line :
  (k, line) ∈ linkBrgyToCity (addBrgyLink st b) →
  (k, line) ∈ linkBrgyToCity st
  ∨ (∃ c bla blo cla clo,
       BrgyRow.brgy_id b = k
       ∧ JsMap.get (BrgyRow.city_id b) (cityById st) = Some c
       ∧ BrgyRow.lat b = Some bla ∧ BrgyRow.lon b = Some blo
       ∧ CityRow.lat c = Some cla ∧ CityRow.lon c = Some clo
       ∧ l_latlngs line = [(bla, blo); (cla, clo)]).
Proof.
  unfold addBrgyLink.
  destruct (BrgyRow.lat b) as [bla|], (BrgyRow.lon b) as [blo|]; try tauto.
  destruct (negb _); [tauto|].
  destruct (JsMap.get _ _) as [c|] eqn:Hc; [|tauto].
  destruct (CityRow.lat c) as [cla|] eqn:Hla, (CityRow.lon c) as [clo|] eqn:Hlo;
    try tauto.
  simpl. intros [[= -> ->]|?]%JsMapFacts.elem_of_set; [right | by left].
  by exists c, bla, blo, cla, clo.
Qed.

Lemma addCityLink_coords st c k line :
  (k, line) ∈ linkCityToProv (addCityLink st c) →
  (k, line) ∈ linkCityToProv st
  ∨ (∃ p cla clo pla plo,
       CityRow.city_id c = k
       ∧ JsMap.get (CityRow.province_id c) (provinceById st) = Some p
       ∧ CityRow.lat c = Some cla ∧ CityRow.lon c = Some clo
       ∧ ProvRow.lat p = Some pla ∧ ProvRow.lon p = Some plo
       ∧ l_latlngs line = [(cla, clo); (pla, plo)]).
Proof.
  unfold addCityLink.
  destruct (CityRow.lat c) as [cla|], (CityRow.lon c) as [clo|]; try tauto.
  destruct (negb _); [tauto|].
  destruct (JsMap.get _ _) as [p|] eqn:Hp; [|tauto].
  destruct (ProvRow.lat p) as [pla|] eqn:Hla, (ProvRow.lon p) as [plo|] eqn:Hlo;
    try tauto.
  simpl. intros [[= -> ->]|?]%JsMapFacts.elem_of_set; [right | by left].
  by exists p, cla, clo, pla, plo.
Qed.

Lemma addCityMarker_markers st c :
  province (markers (addCityMarker st c)) = province (markers st).
Proof. unfold addCityMarker. by destruct (CityRow.lat c), (CityRow.lon c). Qed.

Lemma addBarangayMarker_markers st b :
  province (markers (addBarangayMarker st b)) = province (markers st)
  ∧ city (markers (addBarangayMarker st b)) = city (markers st).
Proof. unfold addBarangayMarker. by destruct (BrgyRow.lat b), (BrgyRow.lon b). Qed.

Lemma addProvinceMarker_markers st p :
  city (markers (addProvinceMarker st p)) = city (markers st)
  ∧ barangay (markers (addProvinceMarker st p)) = barangay (markers st).
Proof. unfold addProvinceMarker. by destruct (ProvRow.lat p), (ProvRow.lon p). Qed.

Lemma addCityMarker_brgy_markers st c :
  barangay (markers (addCityMarker st c)) = barangay (markers st).
Proof. unfold addCityMarker. by destruct (CityRow.lat c), (CityRow.lon c). Qed.

Lemma addBrgyLink_markers st b : markers (addBrgyLink st b) = markers st.
Proof.
  unfold addBrgyLink. destruct (BrgyRow.lat b), (BrgyRow.lon b); try done.
  destruct (negb _); [done|]. destruct (JsMap.get _ _) as [c|]; [|done].
  by destruct (CityRow.lat c), (CityRow.lon c).
Qed.

Lemma addCityLink_markers st c : markers (addCityLink st c) = markers st.
Proof.
  unfold addCityLink. destruct (CityRow.lat c), (CityRow.lon c); try done.
  destruct (negb _); [done|]. destruct (JsMap.get _ _) as [p|]; [|done].
  by destruct (ProvRow.lat p), (ProvRow.lon p).
Qed.

Lemma addMarkersAndLinks_drawn st st' :
  addMarkersAndLinks st = Ok st' → drawn_ok st'.
Proof.
  unfold addMarkersAndLinks. lazy zeta.
  set (st0 := clearMapObjects st).
  set (st1 := fold_left addProvinceMarker (provinces st0) st0).
  set (st2 := fold_left addCityMarker (cities st1) st1).
  set (st3 := fold_left addBarangayMarker (barangays st2) st2).
  set (st4 := fold_left addBrgyLink (barangays st3) st3).
  set (st5 := fold_left addCityLink (cities st4) st4).
  rewrite applyVisibilityRules_Ok. intros [= <-].
  assert (data st1 = data st) as Hd1
    by (apply fold_data; [apply addProvinceMarker_data | done]).
  assert (data st2 = data st) as Hd2
    by (apply fold_data; [apply addCityMarker_data | done]).
  assert (data st3 = data st) as Hd3
    by (apply fold_data; [apply addBarangayMarker_data | done]).
  assert (data st4 = data st) as Hd4
    by (apply fold_data; [apply addBrgyLink_data | done]).
  assert (data st5 = data st) as Hd5
    by (apply fold_data; [apply addCityLink_data | done]).
  assert (markers st5 = markers st3) as Hm5.
  { transitivity (markers st4).
    - apply (fold_left_preserves (fun s => markers s = markers st4)); [|done].
      intros s c Hs. by rewrite addCityLink_markers.
    - apply (fold_left_preserves (fun s => markers s = markers st3)); [|done].
      intros s b Hs. by rewrite addBrgyLink_markers. }
  assert (province (markers st3) = province (markers st1)
          ∧ city (markers st3) = city (markers st2)) as [Hmp3 Hmc3].
  { split.
    - transitivity (province (markers st2)).
      + apply (fold_left_preserves
          (fun s => province (markers s) = province (markers st2))); [|done].
        intros s b Hs. by destruct (addBarangayMarker_markers s b) as [-> _].
      + apply (fold_left_preserves
          (fun s => province (markers s) = province (markers st1))); [|done].
        intros s c Hs. by rewrite addCityMarker_markers.
    - apply (fold_left_preserves
        (fun s => city (markers s) = city (markers st2))); [|done].
      intros s b Hs. by destruct (addBarangayMarker_markers s b) as [_ ->]. }
  assert (city (markers st1) = [] ∧ barangay (markers st1) = []) as [Hmc1 Hmb1].
  { apply (fold_left_preserves
      (fun s => city (markers s) = [] ∧ barangay (markers s) = [])); [|done].
    intros s p Hs. by destruct (addProvinceMarker_markers s p) as [-> ->]. }
  assert (barangay (markers st2) = []) as Hmb2.
  { apply (fold_left_preserves (fun s => barangay (markers s) = [])); [|done].
    intros s c Hs. by rewrite addCityMarker_brgy_markers. }
  assert (linkBrgyToCity st3 = [] ∧ linkCityToProv st3 = []) as [Hlb3 Hlc3].
  { apply (fold_left_preserves
      (fun s => linkBrgyToCity s = [] ∧ linkCityToProv s = [])).
    { intros s b Hs. by destruct (addBarangayMarker_links s b) as [-> ->]. }
    apply (fold_left_preserves
      (fun s => linkBrgyToCity s = [] ∧ linkCityToProv s = [])).
    { intros s c Hs. by destruct (addCityMarker_links s c) as [-> ->]. }
    apply (fold_left_preserves
      (fun s => linkBrgyToCity s = [] ∧ linkCityToProv s = [])).
    { intros s p Hs. by destruct (addProvinceMarker_links s p) as [-> ->]. }
    done. }
  assert (linkCityToProv st4 = []) as Hlc4.
  { apply (fold_left_preserves (fun s => linkCityToProv s = [])); [|done].
    intros s b Hs. by rewrite addBrgyLink_city_links. }
  assert (linkBrgyToCity st5 = linkBrgyToCity st4) as Hlb5.
  { apply (fold_left_preserves (fun s => linkBrgyToCity s = linkBrgyToCity st4));
      [|done].
    intros s c Hs. by rewrite addCityLink_brgy_links. }
  pose proof (data_fields _ _ Hd1) as (_ & Hc1 & _).
  pose proof (data_fields _ _ Hd2) as (Hb2 & _).
  pose proof (data_fields _ _ Hd3) as (Hb3 & _).
  pose proof (data_fields _ _ Hd4) as (_ & Hc4 & _).
  pose proof (data_fields _ _ Hd5) as (Hb5 & Hc5 & Hp5 & Hcb5 & Hpb5 & _).
  unfold drawn_ok. simpl. rewrite Hm5, Hmp3, Hmc3, Hlb5, Hb5, Hc5, Hp5, Hcb5, Hpb5.
  split_and!.
  - intros id m Hin.
    apply (fold_elem_of addProvinceMarker (fun s => province (markers s))
             (fun _ p e => ProvRow.province_id p = e.1
                ∧ ProvRow.lat p = Some (m_latlng e.2).1
                ∧ ProvRow.lon p = Some (m_latlng e.2).2))
      in Hin as [Hin|(p & _ & Hp & _ & HQ)].
    + by apply elem_of_nil in Hin.
    + exists p. by split.
    + apply addProvinceMarker_data.
    + intros s a [i' m']. apply addProvinceMarker_elem_of.
  - intros id m Hin.
    apply (fold_elem_of addCityMarker (fun s => city (markers s))
             (fun _ c e => CityRow.city_id c = e.1
                ∧ CityRow.lat c = Some (m_latlng e.2).1
                ∧ CityRow.lon c = Some (m_latlng e.2).2))
      in Hin as [Hin|(c & _ & Hc & _ & HQ)].
    + rewrite Hmc1 in Hin. by apply elem_of_nil in Hin.
    + exists c. rewrite <- Hc1 at 1. by split.
    + apply addCityMarker_data.
    + intros s a [i' m']. apply addCityMarker_elem_of.
  - intros id m Hin.
    apply (fold_elem_of addBarangayMarker (fun s => barangay (markers s))
             (fun _ b e => BrgyRow.brgy_id b = e.1
                ∧ BrgyRow.lat b = Some (m_latlng e.2).1
                ∧ BrgyRow.lon b = Some (m_latlng e.2).2))
      in Hin as [Hin|(b & _ & Hb & _ & HQ)].
    + rewrite Hmb2 in Hin. by apply elem_of_nil in Hin.
    + exists b. rewrite <- Hb2 at 1. by split.
    + apply addBarangayMarker_data.
    + intros s a [i' m']. apply addBarangayMarker_elem_of.
  - intros k line Hin.
    apply (fold_elem_of addBrgyLink linkBrgyToCity
             (fun s b e => ∃ c bla blo cla clo,
                BrgyRow.brgy_id b = e.1
                ∧ JsMap.get (BrgyRow.city_id b) (cityById s) = Some c
                ∧ BrgyRow.lat b = Some bla ∧ BrgyRow.lon b = Some blo
                ∧ CityRow.lat c = Some cla ∧ CityRow.lon c = Some clo
                ∧ l_latlngs e.2 = [(bla, blo); (cla, clo)]))
      in Hin as [Hin|(b & s & Hb & Hds & c & bla & blo & cla & clo & HQ)].
    + rewrite Hlb3 in Hin. by apply elem_of_nil in Hin.
    + exists b, c, bla, blo, cla, clo. rewrite <- Hb3 at 1.
      rewrite Hd3 in Hds. apply data_fields in Hds as (_ & _ & _ & <- & _).
      by split.
    + apply addBrgyLink_data.
    + intros s a [k' l']. apply addBrgyLink_coords.
  - intros k line Hin.
    apply (fold_elem_of addCityLink linkCityToProv
             (fun s c e => ∃ p cla clo pla plo,
                CityRow.city_id c = e.1
                ∧ JsMap.get (CityRow.province_id c) (provinceById s) = Some p
                ∧ CityRow.lat c = Some cla ∧ CityRow.lon c = Some clo
                ∧ ProvRow.lat p = Some pla ∧ ProvRow.lon p = Some plo
                ∧ l_latlngs e.2 = [(cla, clo); (pla, plo)]))
      in Hin as [Hin|(c & s & Hc & Hds & p & cla & clo & pla & plo & HQ)].
    + rewrite Hlc4 in Hin. by apply elem_of_nil in Hin.
    + exists c, p, cla, clo, pla, plo. rewrite <- Hc4 at 1.
      rewrite Hd4 in Hds. apply data_fields in Hds as (_ & _ & _ & _ & <- & _).
      by split.
    + apply addCityLink_data.
    + intros s a [k' l']. apply addCityLink_coords.
Qed.

(** ** Loading *)

Lemma normalizeId_cases x :
  normalizeId x = None ∨ truthy_id (normalizeId x) = true.
Proof.
  unfold normalizeId. destruct (0 <? String.length _)%nat eqn:Hlen; [|by left].
  right. exact Hlen.
Qed.

Lemma truthy_id_Some x : truthy_id x = true → x ≠ None.
Proof. by destruct x. Qed.

Lemma elem_of_filter_fmap {A B : Type} (f : A → B) (keep : B → bool) l y :
  y ∈ List.filter keep (f <$> l) ↔ keep y = true ∧ ∃ x, x ∈ l ∧ y = f x.
Proof.
  rewrite list_elem_of_In, filter_In, <- list_elem_of_In, list_elem_of_fmap.
  naive_solver.
Qed.

Lemma flags_ok_fold {A : Type} ty (idf : A → option string) l : ∀ en,
  flags_ok en → (∀ x, x ∈ l → idf x ≠ None) →
  flags_ok (fold_left (fun en x => upd ty (JsMap.set (idf x) true) en) l en).
Proof.
  induction l as [|x l IH]; simpl; intros en Hok Hl; [done|].
  apply IH; [|intros; apply Hl; by right].
  apply flags_ok_upd; [done|]. intros m. apply set_keys_not_None, Hl. left.
Qed.

Lemma sort_elem_of {A : Type} (cmp : A → A → Z) (l : list A) x :
  x ∈ sort cmp l ↔ x ∈ l.
Proof. unfold sort. by rewrite merge_sort_Permutation. Qed.

Lemma groupBarangay_get m b k :
  JsMap.get k (groupBarangay m b)
  = if decide (BrgyRow.city_id b = k)
    then Some (default [] (JsMap.get k m) ++ [b]) else JsMap.get k m.
Proof.
  unfold groupBarangay, JsMap.has.
  destruct (JsMap.get (BrgyRow.city_id b) m) as [bs|] eqn:Hget.
  - rewrite JsMapFacts.get_set.
    by destruct (decide (BrgyRow.city_id b = k)) as [<-|Hk].
  - rewrite JsMapFacts.get_set.
    destruct (decide (BrgyRow.city_id b = k)) as [<-|Hk].
    + by rewrite JsMapFacts.get_set_eq, Hget.
    + by rewrite JsMapFacts.get_set_ne.
Qed.

Lemma groupBarangay_fold_elem_of l : ∀ m b,
  b ∈ l →
  b ∈ default [] (JsMap.get (BrgyRow.city_id b) (fold_left groupBarangay l m)).
Proof.
  assert (∀ l m k x, x ∈ default [] (JsMap.get k m) →
            x ∈ default [] (JsMap.get k (fold_left groupBarangay l m))) as Hmono.
  { clear. induction l as [|b l IH]; simpl; intros m k x Hx; [done|].
    apply IH. rewrite groupBarangay_get. case_decide; [|done].
    simpl. apply elem_of_app. by left. }
  induction l as [|b0 l IH]; simpl; intros m b Hin; [by apply elem_of_nil in Hin|].
  apply elem_of_cons in Hin as [->|Hin]; [|by apply IH].
  apply Hmono. rewrite groupBarangay_get, decide_True by done. simpl.
  apply elem_of_app. right. left.
Qed.

Section Properties.

Variable localeCompare : string → string → Z.

Lemma buildTree_data st st' :
  provinces st = provinces st' → cities st = cities st' →
  barangaysByCity st = barangaysByCity st' → enabled st = enabled st' →
  tree (buildTree localeCompare st) = tree (buildTree localeCompare st').
Proof.
  intros Hp Hc Hb He.
  unfold buildTree, provItem, cityItem, brgyItem, buildNodeRow. simpl.
  by rewrite Hp, Hc, Hb, He.
Qed.

(** [main] returns, and what it returns. *)
Lemma main_spec d :
  ∃ st base, main localeCompare d = Ok st
    ∧ inv st ∧ synced base st
    ∧ barangays st = List.filter keepBarangay (normBarangay <$> barangaysRaw d)
    ∧ cities st = List.filter keepCity (normCity <$> citiesRaw d)
    ∧ provinces st = List.filter keepProvince (normProvince <$> provincesRaw d)
    ∧ cityById st = fold_left indexCity (cities st) JsMap.empty
    ∧ provinceById st = fold_left indexProvince (provinces st) JsMap.empty
    ∧ barangaysByCity st = fold_left groupBarangay (barangays st) JsMap.empty
    ∧ tree st = tree (buildTree localeCompare st)
    ∧ drawn_ok st
    ∧ (unique_ids st → ∀ h, h ∈ base → tracked st h).
Proof.
  unfold main. lazy zeta.
  set (bs := List.filter keepBarangay (normBarangay <$> barangaysRaw d)).
  set (cs := List.filter keepCity (normCity <$> citiesRaw d)).
  set (ps := List.filter keepProvince (normProvince <$> provincesRaw d)).
  match goal with |- context [addMarkersAndLinks ?p] => set (st1 := p) end.
  assert (barangays st1 = bs ∧ cities st1 = cs ∧ provinces st1 = ps
          ∧ cityById st1 = fold_left indexCity cs JsMap.empty
          ∧ provinceById st1 = fold_left indexProvince ps JsMap.empty
          ∧ barangaysByCity st1 = fold_left groupBarangay bs JsMap.empty)
    as (Hb1 & Hc1 & Hp1 & Hcb1 & Hpb1 & Hbc1) by done.
  assert (flags_ok (enabled st1)) as Hfl1.
  { apply (flags_ok_fold Barangay BrgyRow.brgy_id bs).
    - apply (flags_ok_fold City CityRow.city_id cs).
      + apply (flags_ok_fold Province ProvRow.province_id ps).
        * intros ty. destruct ty; apply not_elem_of_nil.
        * intros p [Hk _]%elem_of_filter_fmap. by apply truthy_id_Some.
      + intros c [Hk _]%elem_of_filter_fmap. by apply truthy_id_Some.
    - intros b [Hk _]%elem_of_filter_fmap. apply truthy_id_Some.
      unfold keepBarangay in Hk. by repeat apply andb_prop in Hk as [Hk _]. }
  destruct (addMarkersAndLinks_spec st1)
    as (st & base & Hrun & Hd & Hst & Hli & Hic & Hsy & Htr).
  { rewrite Hc1, Hcb1. intros c Hin Hla Hlo. by apply indexCity_fold_is_Some. }
  exists st, base. split; [exact Hrun|].
  pose proof (addMarkersAndLinks_drawn _ _ Hrun) as Hdr.
  apply data_fields in Hd as (Hb & Hc & Hp & Hcb & Hpb & Hbc & He & Ht).
  rewrite Hb, Hc, Hp, Hcb, Hpb, Hbc, Hb1, Hc1, Hp1, Hcb1, Hpb1, Hbc1.
  split_and!; try done.
  - split_and!; try done.
    + split.
      * intros b. rewrite Hb, Hb1. by intros [Hk _]%elem_of_filter_fmap.
      * intros k c. rewrite Hcb, Hcb1.
        intros [Hin|Hin]%indexCity_fold_elem_of; [by apply elem_of_nil in Hin|].
        apply elem_of_filter_fmap in Hin as (_ & r & _ & ->).
        apply normalizeId_cases.
    + by rewrite He.
  - rewrite Ht. symmetry. unfold st1.
    apply buildTree_data; [exact Hp | exact Hc | exact Hbc | exact He].
  - intros [Hnb Hnc]. apply Htr. split; congruence.
Qed.

Lemma handleAll_cons ev evs st st1 :
  handle ev st = Ok st1 → handleAll (ev :: evs) st = handleAll evs st1.
Proof.
  intros Hh. change (handleAll (ev :: evs) st) with (handle ev st ≫= handleAll evs).
  by rewrite Hh.
Qed.

Lemma handleAll_spec evs : ∀ st base,
  inv st → synced base st →
  ∃ st', handleAll evs st = Ok st' ∧ static st' = static st
    ∧ inv st' ∧ synced base st'.
Proof.
  induction evs as [|ev evs IH]; simpl; intros st base Hinv Hsy.
  - by exists st.
  - destruct (handle_spec ev st base) as (st1 & -> & Hs1 & _ & Hinv1 & Hsy1);
      [done..|]. simpl.
    destruct (IH st1 base) as (st2 & -> & Hs2 & Hinv2 & Hsy2); [done..|].
    exists st2. split_and!; try done. congruence.
Qed.

(** Whatever the files hold and whatever the user does, the script never
    throws, and its state keeps the invariants. *)
Lemma run_spec d evs :
  ∃ st0 st base, main localeCompare d = Ok st0 ∧ run localeCompare d evs = Ok st
    ∧ handleAll evs st0 = Ok st
    ∧ static st = static st0 ∧ inv st ∧ synced base st ∧ synced base st0.
Proof.
  destruct (main_spec d) as (st0 & base & Hmain & Hinv & Hsy & _).
  destruct (handleAll_spec evs st0 base) as (st & Hrun & Hs & Hinv' & Hsy');
    [done..|].
  exists st0, st, base. unfold run. rewrite Hmain. simpl. by split_and!.
Qed.

(** ** Lines in a loaded state *)

Lemma find_is_Some {A : Type} (f : A → bool) l x :
  x ∈ l → f x = true → ∃ y, List.find f l = Some y.
Proof.
  intros Hin Hf. destruct (List.find f l) as [y|] eqn:Hfind; [by exists y|].
  apply list_elem_of_In in Hin. by rewrite (find_none _ _ Hfind _ Hin) in Hf.
Qed.

Lemma getEnabled_None en ty : flags_ok en → getEnabled en ty None = true.
Proof.
  intros Hok. unfold getEnabled.
  by rewrite (proj2 (JsMapFacts.get_None_keys None (sel ty en)) (Hok ty)).
Qed.

(** The line kept for a barangay is on the map exactly when the barangay
    and the city of its record are enabled. *)
Lemma brgy_line_synced st base k line :
  inv st → synced base st → (k, line) ∈ linkBrgyToCity st →
  ∃ b, List.find (fun x => bool_decide (BrgyRow.brgy_id x = k)) (barangays st) = Some b
    ∧ (l_stamp line ∈ layerLinks st
       ↔ getEnabled (enabled st) Barangay k = true
         ∧ getEnabled (enabled st) City (BrgyRow.city_id b) = true).
Proof.
  intros (Hst & [Hlb _] & [Hrb _] & _) Hsy Hin.
  destruct (Hlb _ _ Hin) as (b0 & Hb0 & Hid).
  destruct (find_is_Some (fun x => bool_decide (BrgyRow.brgy_id x = k))
              (barangays st) b0) as [b Hfind]; [done | by apply bool_decide_eq_true_2|].
  exists b. split; [done|].
  apply stamps_ok_lines in Hst as (Hnb & Hnc & Hdisj).
  rewrite (Hsy (l_stamp line)). unfold expected, expect.
  rewrite (proj2 (findStamp_None _ _)) by (eapply Hdisj, elem_of_stamps, Hin).
  rewrite (findStamp_elem_of _ _ _ Hnb Hin).
  unfold brgyVisible. rewrite Hfind.
  apply find_some in Hfind as [Hb _]. apply list_elem_of_In, Hrb in Hb.
  unfold keepBarangay in Hb. apply andb_prop in Hb as [Hb _].
  apply andb_prop in Hb as [Hb _]. apply andb_prop in Hb as [_ ->].
  apply andb_true_iff.
Qed.

(** The same for the line kept for a city. *)
Lemma city_line_synced st base k line :
  inv st → synced base st → (k, line) ∈ linkCityToProv st →
  ∃ c, JsMap.get k (cityById st) = Some c
    ∧ (l_stamp line ∈ layerLinks st
       ↔ getEnabled (enabled st) City k = true
         ∧ getEnabled (enabled st) Province (CityRow.province_id c) = true).
Proof.
  intros (Hst & [_ Hlc] & [_ Hrc] & Hfl & _) Hsy Hin.
  destruct (Hlc _ _ Hin) as [c Hget]. exists c. split; [done|].
  apply stamps_ok_lines in Hst as (Hnb & Hnc & Hdisj).
  rewrite (Hsy (l_stamp line)). unfold expected, expect.
  rewrite (findStamp_elem_of _ _ _ Hnc Hin).
  unfold cityVisible. rewrite Hget.
  destruct (Hrc k c (JsMapFacts.get_elem_of _ _ _ Hget)) as [Hnone| ->].
  - rewrite Hnone. simpl. rewrite getEnabled_None by done.
    rewrite andb_true_r. tauto.
  - apply andb_true_iff.
Qed.

(** ** The claims *)

(** C1. For every barangay that has a barangay-to-city line, whatever the
    files hold and whatever flags the user has set, the line is visible if
    and only if the barangay's flag and the flag of its record's city are
    both true.  The script also never throws on the way. *)
Theorem C1_brgy_line_visible_iff d evs :
  ∃ st, run localeCompare d evs = Ok st ∧
    ∀ brgyId line,
      JsMap.get brgyId (linkBrgyToCity st) = Some line →
      ∃ b,
        List.find (fun x => bool_decide (BrgyRow.brgy_id x = brgyId)) (barangays st)
        = Some b
        ∧ (visible st line
           ↔ getEnabled (enabled st) Barangay brgyId = true
             ∧ getEnabled (enabled st) City (BrgyRow.city_id b) = true).
Proof.
  destruct (run_spec d evs) as (st0 & st & base & _ & Hrun & _ & _ & Hinv & Hsy & _).
  exists st. split; [exact Hrun|]. intros brgyId line Hget.
  apply JsMapFacts.get_elem_of in Hget.
  exact (brgy_line_synced st base brgyId line Hinv Hsy Hget).
Qed.

(** C2. For every city that has a city-to-province line, the line is
    visible if and only if the city's flag and the flag of its record's
    province are both true. *)
Theorem C2_city_line_visible_iff d evs :
  ∃ st, run localeCompare d evs = Ok st ∧
    ∀ cityId line,
      JsMap.get cityId (linkCityToProv st) = Some line →
      ∃ c,
        JsMap.get cityId (cityById st) = Some c
        ∧ (visible st line
           ↔ getEnabled (enabled st) City cityId = true
             ∧ getEnabled (enabled st) Province (CityRow.province_id c) = true).
Proof.
  destruct (run_spec d evs) as (st0 & st & base & _ & Hrun & _ & _ & Hinv & Hsy & _).
  exists st. split; [exact Hrun|]. intros cityId line Hget.
  apply JsMapFacts.get_elem_of in Hget.
  exact (city_line_synced st base cityId line Hinv Hsy Hget).
Qed.

Lemma brgyVisible_province_flag st st' pid checked k :
  barangays st' = barangays st →
  enabled st' = setEnabled Province (Some pid) checked (enabled st) →
  brgyVisible st' k = brgyVisible st k.
Proof.
  intros Hb He. unfold brgyVisible. rewrite Hb, He.
  destruct (List.find _ (barangays st)) as [b|]; [|done].
  by rewrite !getEnabled_setEnabled, !decide_False by (by intros [[=] _]).
Qed.

(** C3. Changing a province's flag, whichever way, leaves every
    barangay-to-city line as visible as it was, also under the cities of
    that province; so does it any line that is not the city-to-province
    line of a city of that province. *)
Theorem C3_province_flag_frame d evs pid checked :
  ∃ st st', run localeCompare d evs = Ok st
    ∧ handle (Change Province pid checked) st = Ok st'
    ∧ (∀ brgyId line,
         JsMap.get brgyId (linkBrgyToCity st) = Some line →
         (visible st' line ↔ visible st line))
    ∧ (∀ h,
         (∀ cityId line, (cityId, line) ∈ linkCityToProv st → l_stamp line ≠ h) →
         (h ∈ layerLinks st' ↔ h ∈ layerLinks st))
    ∧ (∀ cityId line c,
         JsMap.get cityId (linkCityToProv st) = Some line →
         JsMap.get cityId (cityById st) = Some c →
         CityRow.province_id c ≠ Some pid →
         (visible st' line ↔ visible st line)).
Proof.
  destruct (run_spec d evs) as (st0 & st & base & _ & Hrun & _ & _ & Hinv & Hsy & _).
  destruct (handle_spec (Change Province pid checked) st base)
    as (st' & Hh & Hs & He & Hinv' & Hsy'); [done..|].
  exists st, st'. split; [exact Hrun|]. split; [exact Hh|].
  pose proof (static_fields _ _ Hs) as (Hb & Hcb & Hlb & Hlc & _).
  assert (∀ h,
    (∀ cityId line, (cityId, line) ∈ linkCityToProv st → l_stamp line ≠ h) →
    (h ∈ layerLinks st' ↔ h ∈ layerLinks st)) as Hframe.
  { intros h Hh'. rewrite (Hsy h), (Hsy' h). unfold expected, expect.
    rewrite Hlc, Hlb.
    assert (findStamp h (linkCityToProv st) = None) as ->.
    { apply findStamp_None. intros (l & -> & ([k l'] & -> & Hin)%list_elem_of_fmap)
        %list_elem_of_fmap. by eapply Hh'. }
    destruct (findStamp h (linkBrgyToCity st)) as [[k l]|]; [|done].
    by rewrite (brgyVisible_province_flag st st' pid checked). }
  split_and!.
  - intros brgyId line Hget%JsMapFacts.get_elem_of. apply Hframe.
    destruct Hinv as (Hst & _). apply stamps_ok_lines in Hst as (_ & _ & Hdisj).
    intros cityId line' Hin' Heq. eapply Hdisj; [by eapply elem_of_stamps|].
    rewrite <- Heq. by eapply elem_of_stamps.
  - exact Hframe.
  - intros cityId line c Hget%JsMapFacts.get_elem_of Hc Hne.
    destruct (city_line_synced st base cityId line) as (c1 & Hc1 & Hv1); [done..|].
    destruct (city_line_synced st' base cityId line) as (c2 & Hc2 & Hv2);
      [done | done | by rewrite Hlc|].
    rewrite Hcb, Hc in Hc2. rewrite Hc in Hc1.
    injection Hc1 as <-. injection Hc2 as <-.
    unfold visible. rewrite Hv1, Hv2, He. unfold flagsAfter.
    rewrite !getEnabled_setEnabled.
    rewrite decide_False by (by intros [[=] _]).
    rewrite decide_False by (intros [_ ?]; congruence). done.
Qed.

(** C5. Two sequences of events after the same load that end with the
    same flags end with the same lines on the map. *)
Theorem C5_visibility_depends_on_flags_only d evs1 evs2 :
  ∃ st1 st2, run localeCompare d evs1 = Ok st1 ∧ run localeCompare d evs2 = Ok st2
    ∧ (same_flags (enabled st1) (enabled st2) → layerLinks st1 = layerLinks st2).
Proof.
  destruct (main_spec d) as (st0 & base & Hmain & Hinv & Hsy & _).
  destruct (handleAll_spec evs1 st0 base) as (st1 & Hr1 & Hs1 & _ & Hsy1); [done..|].
  destruct (handleAll_spec evs2 st0 base) as (st2 & Hr2 & Hs2 & _ & Hsy2); [done..|].
  exists st1, st2. unfold run. rewrite Hmain. simpl.
  split; [exact Hr1|]. split; [exact Hr2|]. intros Hfl.
  apply set_eq. intros h. rewrite (Hsy1 h), (Hsy2 h).
  apply expected_flags; [congruence | done].
Qed.

(** C6. Unchecking an enabled node and checking it again puts every line
    back as it was. *)
Theorem C6_toggle_twice_restores d evs ty id :
  ∃ st st', run localeCompare d evs = Ok st
    ∧ handleAll [Change ty id false; Change ty id true] st = Ok st'
    ∧ (getEnabled (enabled st) ty (Some id) = true → layerLinks st' = layerLinks st).
Proof.
  destruct (run_spec d evs) as (st0 & st & base & _ & Hrun & _ & _ & Hinv & Hsy & _).
  destruct (handle_spec (Change ty id false) st base)
    as (st1 & Hh1 & Hs1 & He1 & Hinv1 & Hsy1); [done..|].
  destruct (handle_spec (Change ty id true) st1 base)
    as (st2 & Hh2 & Hs2 & He2 & Hinv2 & Hsy2); [done..|].
  exists st, st2. split; [exact Hrun|]. split.
  { by rewrite (handleAll_cons _ _ _ _ Hh1), (handleAll_cons _ _ _ _ Hh2). }
  intros Hon. apply set_eq. intros h. rewrite (Hsy2 h), (Hsy h).
  apply expected_flags; [congruence|].
  intros ty' id'. rewrite He2, He1. unfold flagsAfter.
  rewrite !getEnabled_setEnabled.
  case_decide as Heq; [|done]. destruct Heq as [<- <-]. by rewrite Hon.
Qed.

(** C7, as the script has it.  The icon of every marker is decided by the
    kind of its node and the node's own flag, nothing else: an enabled node
    shows the icon of its kind, a disabled province or city shows
    [disabledAwesome], a disabled barangay shows [brgyIconDisabled]. *)
Theorem C7_marker_icon_of_own_flag d evs :
  ∃ st, run localeCompare d evs = Ok st ∧
    ∀ ty id m,
      JsMap.get id (sel ty (markers st)) = Some m →
      icons st !! m_stamp m
      = Some (match ty, getEnabled (enabled st) ty id with
              | Province, true => provinceIconEnabled
              | City, true => cityIconEnabled
              | Barangay, true => brgyIconEnabled
              | Province, false | City, false => disabledAwesome
              | Barangay, false => brgyIconDisabled
              end).
Proof.
  destruct (run_spec d evs) as (st0 & st & base & _ & Hrun & _ & _ & Hinv & _).
  exists st. split; [exact Hrun|]. intros ty id m Hget%JsMapFacts.get_elem_of.
  destruct Hinv as (_ & _ & _ & _ & Hic). rewrite (Hic _ _ _ Hget).
  unfold iconFor. by destruct ty, (getEnabled (enabled st) _ id).
Qed.

(** ** Normalisation *)

Lemma trimStart_spec s :
  ∃ pre, s = pre +:+ trimStart s ∧ all_ws pre = true
    ∧ starts_ws (trimStart s) = false.
Proof.
  induction s as [|a s (pre & Hs & Hpre & Hst)]; simpl.
  - by exists "".
  - destruct (is_ws a) eqn:Ha.
    + exists (String a pre). simpl. rewrite Ha, Hpre.
      split_and!; [exact (f_equal (String a) Hs) | done..].
    + exists "". simpl. by rewrite Ha.
Qed.

Lemma trimEnd_spec s :
  ∃ post, s = trimEnd s +:+ post ∧ all_ws post = true
    ∧ ends_ws (trimEnd s) = false
    ∧ (starts_ws s = false → starts_ws (trimEnd s) = false).
Proof.
  induction s as [|a s (post & Hs & Hpost & Hend & _)]; simpl.
  - by exists "".
  - destruct (trimEnd s) as [|b t] eqn:Ht.
    + change (s = post) in Hs. subst post. destruct (is_ws a) eqn:Ha.
      * exists (String a s). simpl. by rewrite Ha, Hpost.
      * exists s. simpl. by rewrite Ha.
    + exists post. split_and!; [exact (f_equal (String a) Hs) | done..].
Qed.

Lemma trim_spec s : trim_of s (trim s).
Proof.
  destruct (trimStart_spec s) as (pre & Hs & Hpre & Hst).
  destruct (trimEnd_spec (trimStart s)) as (post & Ht & Hpost & Hend & Hst').
  exists pre, post. unfold trim. rewrite <- Ht. by split_and!; [|try apply Hst'..].
Qed.

Lemma normalizeId_spec x : id_normalised x (normalizeId x).
Proof.
  unfold id_normalised, normalizeId. pose proof (trim_spec (default "" x)) as Ht.
  destruct (trim (default "" x)) as [|a t] eqn:Heq; simpl; [done|]. by split.
Qed.

Lemma toNum_spec x : coord_normalised x (toNum x).
Proof.
  unfold coord_normalised, toNum. split.
  - by intros ->.
  - intros n. destruct (isFinite (Number x)); [by intros [= ->] | done].
Qed.

(** C8. Normalisation trims every identifier and name cell of every row
    of the three tables (an identifier with nothing left is [null]), and a
    coordinate cell that does not read as a number becomes [null]; the
    rows the script works on are rows normalised so. *)
Theorem C8_rows_normalised d :
  (∀ r : raw_row,
     let b := normBarangay r in
     let c := normCity r in
     let p := normProvince r in
     id_normalised (r !! "brgy_id") (BrgyRow.brgy_id b)
     ∧ id_normalised (r !! "city_id") (BrgyRow.city_id b)
     ∧ name_normalised (r !! "barangay") (BrgyRow.barangay b)
     ∧ name_normalised (r !! "city") (BrgyRow.city b)
     ∧ coord_normalised (r !! "lat") (BrgyRow.lat b)
     ∧ coord_normalised (r !! "lon") (BrgyRow.lon b)
     ∧ id_normalised (r !! "city_id") (CityRow.city_id c)
     ∧ id_normalised (r !! "province_id") (CityRow.province_id c)
     ∧ name_normalised (r !! "city") (CityRow.city c)
     ∧ name_normalised (r !! "province") (CityRow.province c)
     ∧ coord_normalised (r !! "lat") (CityRow.lat c)
     ∧ coord_normalised (r !! "lon") (CityRow.lon c)
     ∧ id_normalised (r !! "province_id") (ProvRow.province_id p)
     ∧ name_normalised (r !! "province") (ProvRow.province p)
     ∧ coord_normalised (r !! "lat") (ProvRow.lat p)
     ∧ coord_normalised (r !! "lon") (ProvRow.lon p))
  ∧ ∃ st, main localeCompare d = Ok st
      ∧ (∀ b, b ∈ barangays st → ∃ r, r ∈ barangaysRaw d ∧ b = normBarangay r)
      ∧ (∀ c, c ∈ cities st → ∃ r, r ∈ citiesRaw d ∧ c = normCity r)
      ∧ (∀ p, p ∈ provinces st → ∃ r, r ∈ provincesRaw d ∧ p = normProvince r).
Proof.
  split.
  - intros r. simpl.
    split_and!; first [apply normalizeId_spec | apply trim_spec | apply toNum_spec].
  - destruct (main_spec d) as (st & base & Hmain & _ & _ & Hb & Hc & Hp & _).
    exists st. split; [exact Hmain|]. rewrite Hb, Hc, Hp.
    split_and!; intros x (_ & r & Hr & ->)%elem_of_filter_fmap; by exists r.
Qed.

(** C9. [applyVisibilityRules] returns on every state, well formed or
    not: it never reads a property of a missing record.  A line whose
    barangay or city record is missing is passed over, and so is a missing
    line. *)
Theorem C9_applyVisibilityRules_total st :
  (∃ st', applyVisibilityRules st = Ok st')
  ∧ (∀ links brgyId line,
       List.find (fun x => bool_decide (BrgyRow.brgy_id x = brgyId)) (barangays st)
       = None →
       brgyLineRule st links brgyId line = Ok links)
  ∧ (∀ links cityId line,
       JsMap.get cityId (cityById st) = None →
       cityLineRule st links cityId line = Ok links)
  ∧ (∀ yes links, showLine None yes links = Ok links).
Proof.
  split_and!.
  - eexists. apply applyVisibilityRules_Ok.
  - intros links brgyId line Hfind. rewrite brgyLineRule_shown.
    unfold brgyVisible. by rewrite Hfind.
  - intros links cityId line Hget. rewrite cityLineRule_shown.
    unfold cityVisible. by rewrite Hget.
  - done.
Qed.

Lemma truthy_coord_zero x : is_zero_coord x = true → truthy_coord x = false.
Proof.
  destruct x as [[| |neg m e]|]; simpl; try done. by intros ->.
Qed.

Lemma filter_drop {A : Type} (keep : A → bool) pre x post :
  keep x = false →
  List.filter keep (pre ++ x :: post) = List.filter keep (pre ++ post).
Proof. intros Hx. rewrite !List.filter_app. simpl. by rewrite Hx. Qed.

(** C10. A barangay row whose latitude or longitude reads as zero (an
    empty cell does) fails the barangay filter, and the script then runs
    exactly as if the file did not have the row: same working set, tree,
    markers and links.  City and province rows with an id are kept whatever
    their coordinates. *)
Theorem C10_zero_coordinate_barangay_excluded (r : raw_row) :
  is_zero_coord (toNum (r !! "lat")) = true
  ∨ is_zero_coord (toNum (r !! "lon")) = true →
  keepBarangay (normBarangay r) = false
  ∧ (∀ pre post cs ps evs,
       run localeCompare
         {| barangaysRaw := pre ++ r :: post; citiesRaw := cs; provincesRaw := ps |} evs
       = run localeCompare
           {| barangaysRaw := pre ++ post; citiesRaw := cs; provincesRaw := ps |} evs)
  ∧ toNum (Some "") = Some (Finite false 0 0)
  ∧ (∀ d rc, rc ∈ citiesRaw d → keepCity (normCity rc) = true →
       ∃ st, main localeCompare d = Ok st ∧ normCity rc ∈ cities st)
  ∧ (∀ d rp, rp ∈ provincesRaw d → keepProvince (normProvince rp) = true →
       ∃ st, main localeCompare d = Ok st ∧ normProvince rp ∈ provinces st).
Proof.
  intros Hzero.
  assert (keepBarangay (normBarangay r) = false) as Hdrop.
  { unfold keepBarangay. simpl.
    destruct Hzero as [Hz|Hz]; apply truthy_coord_zero in Hz; rewrite Hz.
    - by rewrite andb_false_r.
    - by rewrite andb_false_r. }
  split_and!.
  - exact Hdrop.
  - intros pre post cs ps evs.
    assert (List.filter keepBarangay (normBarangay <$> pre ++ r :: post)
            = List.filter keepBarangay (normBarangay <$> pre ++ post)) as Heq.
    { rewrite !fmap_app, fmap_cons. by apply filter_drop. }
    unfold run, main. cbn [barangaysRaw citiesRaw provincesRaw]. by rewrite Heq.
  - reflexivity.
  - intros d rc Hin Hkeep.
    destruct (main_spec d) as (st & base & Hmain & _ & _ & _ & Hc & _).
    exists st. split; [exact Hmain|]. rewrite Hc. apply elem_of_filter_fmap. eauto.
  - intros d rp Hin Hkeep.
    destruct (main_spec d) as (st & base & Hmain & _ & _ & _ & _ & Hp & _).
    exists st. split; [exact Hmain|]. rewrite Hp. apply elem_of_filter_fmap. eauto.
Qed.

(** ** Rows kept whatever their coordinates *)

Lemma buildTree_ids st :
  (∀ p, p ∈ provinces st →
     (Province, ProvRow.province_id p) ∈ tree_ids (tree (buildTree localeCompare st)))
  ∧ (∀ c p, c ∈ cities st → p ∈ provinces st →
       CityRow.province_id c = ProvRow.province_id p →
       (City, CityRow.city_id c) ∈ tree_ids (tree (buildTree localeCompare st)))
  ∧ (∀ b c p, b ∈ default [] (JsMap.get (CityRow.city_id c) (barangaysByCity st)) →
       c ∈ cities st → p ∈ provinces st →
       CityRow.province_id c = ProvRow.province_id p →
       (Barangay, BrgyRow.brgy_id b) ∈ tree_ids (tree (buildTree localeCompare st))).
Proof.
  assert (∀ (x : node_type * option string)
            (items : list (node_row * list (node_row * list node_row))) p cs,
            (p, cs) ∈ items →
            x = (nr_type p, nr_id p)
            ∨ (∃ c bs, (c, bs) ∈ cs
                 ∧ (x = (nr_type c, nr_id c)
                    ∨ ∃ b, b ∈ bs ∧ x = (nr_type b, nr_id b))) →
            x ∈ tree_ids items) as Hids.
  { intros x items p cs Hin Hx. unfold tree_ids.
    apply list_elem_of_bind. exists (p, cs). split; [|done].
    apply elem_of_cons. destruct Hx as [->|(c & bs & Hc & Hx)]; [by left|right].
    apply list_elem_of_bind. exists (c, bs). split; [|done].
    apply elem_of_cons. destruct Hx as [->|(b & Hb & ->)]; [by left|right].
    by apply (list_elem_of_fmap_2 (fun b => (nr_type b, nr_id b))). }
  assert (∀ p, p ∈ provinces st →
            provItem localeCompare st p ∈ tree (buildTree localeCompare st)) as Hprov.
  { intros p Hp. apply (list_elem_of_fmap_2 (provItem localeCompare st)).
    by apply sort_elem_of. }
  assert (∀ c p, c ∈ cities st → CityRow.province_id c = ProvRow.province_id p →
            cityItem localeCompare st c ∈ (provItem localeCompare st p).2) as Hcity.
  { intros c p Hc Heq. apply (list_elem_of_fmap_2 (cityItem localeCompare st)).
    apply sort_elem_of, list_elem_of_In, filter_In.
    split; [by apply list_elem_of_In | by apply bool_decide_eq_true_2]. }
  assert (∀ b c, b ∈ default [] (JsMap.get (CityRow.city_id c) (barangaysByCity st)) →
            brgyItem st b ∈ (cityItem localeCompare st c).2) as Hbrgy.
  { intros b c Hb. apply (list_elem_of_fmap_2 (brgyItem st)). by apply sort_elem_of. }
  split_and!.
  - intros p Hp. apply (Hids _ _ _ _ (Hprov p Hp)). by left.
  - intros c p Hc Hp Heq. apply (Hids _ _ _ _ (Hprov p Hp)). right.
    exists (cityItem localeCompare st c).1, (cityItem localeCompare st c).2.
    split; [exact (Hcity c p Hc Heq) | by left].
  - intros b c p Hb Hc Hp Heq. apply (Hids _ _ _ _ (Hprov p Hp)). right.
    exists (cityItem localeCompare st c).1, (cityItem localeCompare st c).2.
    split; [exact (Hcity c p Hc Heq) | right].
    exists (brgyItem st b). split; [exact (Hbrgy b c Hb) | done].
Qed.

(** X25. What the claim about nodes without coordinates says, for what
    the script keeps: every kept province is in the tree, every kept city and
    barangay under a kept parent is, whatever the coordinates; and markers
    and lines are drawn from rows with coordinates only. *)
Lemma kept_nodes_tree_and_drawings d evs :
  ∃ st, run localeCompare d evs = Ok st
    ∧ (∀ r, r ∈ provincesRaw d → keepProvince (normProvince r) = true →
         normProvince r ∈ provinces st)
    ∧ (∀ r, r ∈ citiesRaw d → keepCity (normCity r) = true →
         normCity r ∈ cities st)
    ∧ (∀ p, p ∈ provinces st →
         (Province, ProvRow.province_id p) ∈ tree_ids (tree st))
    ∧ (∀ c p, c ∈ cities st → p ∈ provinces st →
         CityRow.province_id c = ProvRow.province_id p →
         (City, CityRow.city_id c) ∈ tree_ids (tree st))
    ∧ (∀ b c p, b ∈ barangays st → c ∈ cities st → p ∈ provinces st →
         BrgyRow.city_id b = CityRow.city_id c →
         CityRow.province_id c = ProvRow.province_id p →
         (Barangay, BrgyRow.brgy_id b) ∈ tree_ids (tree st))
    ∧ drawn_ok st.
Proof.
  destruct (main_spec d)
    as (st0 & base & Hmain & Hinv & Hsy & Hb & Hc & Hp & _ & _ & Hbc & Ht & Hdr & _).
  destruct (handleAll_spec evs st0 base) as (st & Hrun & Hs & _); [done..|].
  exists st. unfold run. rewrite Hmain. simpl. split; [exact Hrun|].
  destruct (buildTree_ids st0) as (Htp & Htc & Htb). rewrite <- Ht in Htp, Htc, Htb.
  unfold static in Hs. injection Hs as Hsb Hsc Hsp Hscb Hspb Hsbc Hsm Hslb Hslc _ _ _ Hst _.
  assert (drawn_ok st) as Hdr'.
  { unfold drawn_ok. by rewrite Hsb, Hsc, Hsp, Hscb, Hspb, Hsm, Hslb, Hslc. }
  rewrite Hsb, Hsc, Hsp, Hst. split_and!.
  - intros r Hr Hk. rewrite Hp. apply elem_of_filter_fmap. eauto.
  - intros r Hr Hk. rewrite Hc. apply elem_of_filter_fmap. eauto.
  - exact Htp.
  - exact Htc.
  - intros b c p Hbin Hcin Hpin Hbc' Hcp.
    apply (Htb b c p); [|exact Hcin | exact Hpin | exact Hcp].
    rewrite Hbc, <- Hbc'. by apply groupBarangay_fold_elem_of.
  - exact Hdr'.
Qed.

(** X24. With identifiers as keys, every line on the map is one of the
    lines the two maps hold, so it is shown or hidden by the two rules above. *)
Lemma every_line_tracked d evs :
  ∃ st, run localeCompare d evs = Ok st
    ∧ (unique_ids st → ∀ h, h ∈ layerLinks st → tracked st h).
Proof.
  destruct (main_spec d) as (st0 & base & Hmain & Hinv & Hsy & Hrest).
  do 8 destruct Hrest as [_ Hrest]. rename Hrest into Htr.
  destruct (handleAll_spec evs st0 base) as (st & Hrun & Hs & _ & Hsy'); [done..|].
  exists st. unfold run. rewrite Hmain. simpl. split; [exact Hrun|].
  unfold static in Hs. injection Hs as Hsb Hsc _ _ _ _ _ Hslb Hslc _ _ _ _ _.
  intros [Hnb Hnc] h Hh. apply (Hsy' h) in Hh. unfold expected, expect in Hh.
  destruct (findStamp h (linkCityToProv st)) as [[k l]|] eqn:Hfc.
  { apply findStamp_Some in Hfc as [Hin <-]. right. by eapply elem_of_stamps. }
  destruct (findStamp h (linkBrgyToCity st)) as [[k l]|] eqn:Hfb.
  { apply findStamp_Some in Hfb as [Hin <-]. left. by eapply elem_of_stamps. }
  unfold tracked. rewrite Hslb, Hslc. apply Htr; [|done].
  split; congruence.
Qed.

(** ** What is on the map *)

Lemma addProvinceMarker_step s p :
  if provLocated p then
    ∃ m, m_stamp m = S (lastId s)
      ∧ sel Province (markers (addProvinceMarker s p))
        = JsMap.set (ProvRow.province_id p) m (sel Province (markers s))
      ∧ layerOf Province (addProvinceMarker s p) = {[S (lastId s)]} ∪ layerOf Province s
      ∧ lastId (addProvinceMarker s p) = S (lastId s)
  else addProvinceMarker s p = s.
Proof.
  unfold addProvinceMarker, provLocated.
  destruct (ProvRow.lat p), (ProvRow.lon p); simpl; try done.
  by eexists {| m_stamp := _; m_latlng := _ |}.
Qed.

Lemma addCityMarker_step s c :
  if cityLocated c then
    ∃ m, m_stamp m = S (lastId s)
      ∧ sel City (markers (addCityMarker s c))
        = JsMap.set (CityRow.city_id c) m (sel City (markers s))
      ∧ layerOf City (addCityMarker s c) = {[S (lastId s)]} ∪ layerOf City s
      ∧ lastId (addCityMarker s c) = S (lastId s)
  else addCityMarker s c = s.
Proof.
  unfold addCityMarker, cityLocated.
  destruct (CityRow.lat c), (CityRow.lon c); simpl; try done.
  by eexists {| m_stamp := _; m_latlng := _ |}.
Qed.

Lemma addBarangayMarker_step s b :
  if brgyLocated b then
    ∃ m, m_stamp m = S (lastId s)
      ∧ sel Barangay (markers (addBarangayMarker s b))
        = JsMap.set (BrgyRow.brgy_id b) m (sel Barangay (markers s))
      ∧ layerOf Barangay (addBarangayMarker s b) = {[S (lastId s)]} ∪ layerOf Barangay s
      ∧ lastId (addBarangayMarker s b) = S (lastId s)
  else addBarangayMarker s b = s.
Proof.
  unfold addBarangayMarker, brgyLocated.
  destruct (BrgyRow.lat b), (BrgyRow.lon b); simpl; try done.
  by eexists {| m_stamp := _; m_latlng := _ |}.
Qed.

Lemma addProvinceMarker_other s p ty :
  ty ≠ Province →
  sel ty (markers (addProvinceMarker s p)) = sel ty (markers s)
  ∧ layerOf ty (addProvinceMarker s p) = layerOf ty s.
Proof.
  intros Hty. unfold addProvinceMarker.
  by destruct ty, (ProvRow.lat p), (ProvRow.lon p).
Qed.

Lemma addCityMarker_other s c ty :
  ty ≠ City →
  sel ty (markers (addCityMarker s c)) = sel ty (markers s)
  ∧ layerOf ty (addCityMarker s c) = layerOf ty s.
Proof.
  intros Hty. unfold addCityMarker.
  by destruct ty, (CityRow.lat c), (CityRow.lon c).
Qed.

Lemma addBarangayMarker_other s b ty :
  ty ≠ Barangay →
  sel ty (markers (addBarangayMarker s b)) = sel ty (markers s)
  ∧ layerOf ty (addBarangayMarker s b) = layerOf ty s.
Proof.
  intros Hty. unfold addBarangayMarker.
  by destruct ty, (BrgyRow.lat b), (BrgyRow.lon b).
Qed.

Lemma addBrgyLink_other s b ty :
  sel ty (markers (addBrgyLink s b)) = sel ty (markers s)
  ∧ layerOf ty (addBrgyLink s b) = layerOf ty s.
Proof.
  unfold addBrgyLink. destruct (BrgyRow.lat b), (BrgyRow.lon b); try done.
  destruct (negb _); [done|]. destruct (JsMap.get _ _) as [c|]; [|done].
  by destruct ty, (CityRow.lat c), (CityRow.lon c).
Qed.

Lemma addCityLink_other s c ty :
  sel ty (markers (addCityLink s c)) = sel ty (markers s)
  ∧ layerOf ty (addCityLink s c) = layerOf ty s.
Proof.
  unfold addCityLink. destruct (CityRow.lat c), (CityRow.lon c); try done.
  destruct (negb _); [done|]. destruct (JsMap.get _ _) as [p|]; [|done].
  by destruct ty, (ProvRow.lat p), (ProvRow.lon p).
Qed.

Lemma fold_other {A : Type} ty (f : state → A → state) l :
  (∀ s a, sel ty (markers (f s a)) = sel ty (markers s)
          ∧ layerOf ty (f s a) = layerOf ty s) →
  ∀ s, sel ty (markers (fold_left f l s)) = sel ty (markers s)
       ∧ layerOf ty (fold_left f l s) = layerOf ty s.
Proof.
  intros Hstep. induction l as [|a l IH]; simpl; intros s; [done|].
  destruct (IH (f s a)) as [-> ->]. apply Hstep.
Qed.

(** One marker loop: which ids get a marker, that the markers kept are on
    the layer, and how many markers the layer holds. *)
Lemma fold_markers {A : Type} ty (f : state → A → state) (key : A → option string)
    (cond : A → bool) :
  (∀ s a,
     if cond a then
       ∃ m, m_stamp m = S (lastId s)
         ∧ sel ty (markers (f s a)) = JsMap.set (key a) m (sel ty (markers s))
         ∧ layerOf ty (f s a) = {[S (lastId s)]} ∪ layerOf ty s
         ∧ lastId (f s a) = S (lastId s)
     else f s a = s) →
  ∀ l s,
    (∀ h, h ∈ layerOf ty s → (h ≤ lastId s)%nat) →
    (∀ id m, (id, m) ∈ sel ty (markers s) → m_stamp m ∈ layerOf ty s) →
    (∀ k, k ∈ JsMap.keys (sel ty (markers (fold_left f l s)))
          ↔ k ∈ JsMap.keys (sel ty (markers s)) ∨ k ∈ key <$> List.filter cond l)
    ∧ (NoDup (JsMap.keys (sel ty (markers s))) →
       NoDup (JsMap.keys (sel ty (markers (fold_left f l s)))))
    ∧ (∀ id m, (id, m) ∈ sel ty (markers (fold_left f l s)) →
         m_stamp m ∈ layerOf ty (fold_left f l s))
    ∧ size (layerOf ty (fold_left f l s))
      = (size (layerOf ty s) + length (List.filter cond l))%nat
    ∧ (∀ h, h ∈ layerOf ty (fold_left f l s) → (h ≤ lastId (fold_left f l s))%nat).
Proof.
  intros Hstep. induction l as [|a l IH]; intros s Hb HJ; simpl.
  - split_and!; [|done|done|lia|done].
    intros k. split; [by left|]. by intros [?|?%elem_of_nil].
  - specialize (Hstep s a). destruct (cond a) eqn:Hc.
    + destruct Hstep as (m & Hm & Hset & Hlay & Hlast).
      destruct (IH (f s a)) as (IHk & IHn & IHJ & IHsz & IHb).
      { intros h. rewrite Hlay, Hlast.
        intros [->%elem_of_singleton|Hh%Hb]%elem_of_union; lia. }
      { intros id m'. rewrite Hset, Hlay.
        intros [[= -> ->]|Hin]%JsMapFacts.elem_of_set.
        - rewrite Hm. apply elem_of_union_l. by apply elem_of_singleton.
        - apply elem_of_union_r. by apply HJ in Hin. }
      split_and!.
      * intros k. rewrite IHk, Hset, JsMapFacts.elem_of_keys_set, fmap_cons, elem_of_cons.
        tauto.
      * intros Hnd. apply IHn. rewrite Hset. by apply JsMapFacts.NoDup_keys_set.
      * exact IHJ.
      * rewrite IHsz, Hlay, size_union, size_singleton; [simpl; lia|].
        apply disjoint_singleton_l. intros Hin%Hb. lia.
      * exact IHb.
    + rewrite Hstep. exact (IH s Hb HJ).
Qed.

(** One link loop: which ids get a line. *)
Lemma fold_register {A V X : Type} (f : state → A → state) (proj : state → JsMap.t V)
    (idx : state → X) (key : A → option string) (cond : X → A → bool) :
  (∀ s a, idx (f s a) = idx s) →
  (∀ s a, if cond (idx s) a then ∃ v, proj (f s a) = JsMap.set (key a) v (proj s)
          else proj (f s a) = proj s) →
  ∀ l s k,
    k ∈ JsMap.keys (proj (fold_left f l s))
    ↔ k ∈ JsMap.keys (proj s) ∨ k ∈ key <$> List.filter (cond (idx s)) l.
Proof.
  intros Hidx Hstep. induction l as [|a l IH]; intros s k; simpl.
  - split; [by left|]. by intros [?|?%elem_of_nil].
  - rewrite IH, Hidx. specialize (Hstep s a). destruct (cond (idx s) a).
    + destruct Hstep as [v ->].
      rewrite JsMapFacts.elem_of_keys_set, fmap_cons, elem_of_cons. tauto.
    + by rewrite Hstep.
Qed.

Lemma addBrgyLink_step s b :
  if brgyLinked (cityById s) b
  then ∃ line, linkBrgyToCity (addBrgyLink s b)
               = JsMap.set (BrgyRow.brgy_id b) line (linkBrgyToCity s)
  else linkBrgyToCity (addBrgyLink s b) = linkBrgyToCity s.
Proof.
  unfold addBrgyLink, brgyLinked, brgyLocated, cityLocated.
  destruct (BrgyRow.lat b), (BrgyRow.lon b); simpl; try done.
  destruct (truthy_id _); simpl; [|done].
  destruct (JsMap.get _ _) as [c|]; [|done].
  destruct (CityRow.lat c), (CityRow.lon c); simpl; try done. by eexists.
Qed.

Lemma addCityLink_step s c :
  if cityLinked (provinceById s) c
  then ∃ line, linkCityToProv (addCityLink s c)
               = JsMap.set (CityRow.city_id c) line (linkCityToProv s)
  else linkCityToProv (addCityLink s c) = linkCityToProv s.
Proof.
  unfold addCityLink, cityLinked, cityLocated, provLocated.
  destruct (CityRow.lat c), (CityRow.lon c); simpl; try done.
  destruct (truthy_id _); simpl; [|done].
  destruct (JsMap.get _ _) as [p|]; [|done].
  destruct (ProvRow.lat p), (ProvRow.lon p); simpl; try done. by eexists.
Qed.

Lemma addProvinceMarker_entry s p :
  match provEntry p with
  | Some (k, ll) =>
      ∃ m, m_latlng m = ll
        ∧ sel Province (markers (addProvinceMarker s p))
          = JsMap.set k m (sel Province (markers s))
  | None => addProvinceMarker s p = s
  end.
Proof.
  unfold addProvinceMarker, provEntry.
  destruct (ProvRow.lat p), (ProvRow.lon p); simpl; try done.
  by eexists {| m_stamp := _; m_latlng := _ |}.
Qed.

Lemma addCityMarker_entry s c :
  match cityEntry c with
  | Some (k, ll) =>
      ∃ m, m_latlng m = ll
        ∧ sel City (markers (addCityMarker s c)) = JsMap.set k m (sel City (markers s))
  | None => addCityMarker s c = s
  end.
Proof.
  unfold addCityMarker, cityEntry.
  destruct (CityRow.lat c), (CityRow.lon c); simpl; try done.
  by eexists {| m_stamp := _; m_latlng := _ |}.
Qed.

Lemma addBarangayMarker_entry s b :
  match brgyEntry b with
  | Some (k, ll) =>
      ∃ m, m_latlng m = ll
        ∧ sel Barangay (markers (addBarangayMarker s b))
          = JsMap.set k m (sel Barangay (markers s))
  | None => addBarangayMarker s b = s
  end.
Proof.
  unfold addBarangayMarker, brgyEntry.
  destruct (BrgyRow.lat b), (BrgyRow.lon b); simpl; try done.
  by eexists {| m_stamp := _; m_latlng := _ |}.
Qed.

Lemma find_app_first {A : Type} (P : A → bool) l1 l2 :
  List.find P (l1 ++ l2)
  = match List.find P l1 with Some x => Some x | None => List.find P l2 end.
Proof. induction l1 as [|a l1 IH]; simpl; [done|]. by destruct (P a). Qed.

(** One marker loop: the marker kept under an id stands where the last
    row with that id and both coordinates says. *)
Lemma fold_latlng {A : Type} ty (f : state → A → state)
    (ent : A → option (option string * (number * number))) :
  (∀ s a,
     match ent a with
     | Some (k, ll) =>
         ∃ m, m_latlng m = ll
           ∧ sel ty (markers (f s a)) = JsMap.set k m (sel ty (markers s))
     | None => f s a = s
     end) →
  ∀ l s id,
    m_latlng <$> JsMap.get id (sel ty (markers (fold_left f l s)))
    = match lastLocated id (omap ent l) with
      | Some ll => Some ll
      | None => m_latlng <$> JsMap.get id (sel ty (markers s))
      end.
Proof.
  intros Hstep. unfold lastLocated.
  induction l as [|a l IH]; intros s id; csimpl.
  { by destruct (JsMap.get id _). }
  rewrite IH. specialize (Hstep s a). destruct (ent a) as [[k ll]|]; csimpl.
  - rewrite find_app_first. destruct (List.find _ (rev (omap ent l))); [done|].
    destruct Hstep as (m & Hm & ->). csimpl. rewrite JsMapFacts.get_set.
    case_bool_decide as Hk; csimpl in Hk.
    + subst k. rewrite decide_True by done. csimpl. by rewrite Hm.
    + by rewrite decide_False.
  - by rewrite Hstep.
Qed.

Lemma addMarkersAndLinks_onmap st st' :
  addMarkersAndLinks st = Ok st' → onmap st'.
Proof.
  unfold addMarkersAndLinks. lazy zeta.
  set (st0 := clearMapObjects st).
  set (st1 := fold_left addProvinceMarker (provinces st0) st0).
  set (st2 := fold_left addCityMarker (cities st1) st1).
  set (st3 := fold_left addBarangayMarker (barangays st2) st2).
  set (st4 := fold_left addBrgyLink (barangays st3) st3).
  set (st5 := fold_left addCityLink (cities st4) st4).
  rewrite applyVisibilityRules_Ok. intros [= <-].
  assert (data st1 = data st) as Hd1
    by (apply fold_data; [apply addProvinceMarker_data | done]).
  assert (data st2 = data st) as Hd2
    by (apply fold_data; [apply addCityMarker_data | done]).
  assert (data st3 = data st) as Hd3
    by (apply fold_data; [apply addBarangayMarker_data | done]).
  assert (data st4 = data st) as Hd4
    by (apply fold_data; [apply addBrgyLink_data | done]).
  assert (data st5 = data st) as Hd5
    by (apply fold_data; [apply addCityLink_data | done]).
  assert (∀ ty, sel ty (markers st5) = sel ty (markers st3)
                ∧ layerOf ty st5 = layerOf ty st3) as H53.
  { intros ty. unfold st5.
    destruct (fold_other ty addCityLink (cities st4)
                (fun s c => addCityLink_other s c ty) st4) as [-> ->].
    apply (fold_other ty addBrgyLink (barangays st3)
             (fun s b => addBrgyLink_other s b ty) st3). }
  assert (∀ ty, ty ≠ Barangay →
            sel ty (markers st3) = sel ty (markers st2)
            ∧ layerOf ty st3 = layerOf ty st2) as H32.
  { intros ty Hty.
    apply (fold_other ty addBarangayMarker (barangays st2)
             (fun s b => addBarangayMarker_other s b ty Hty) st2). }
  assert (∀ ty, ty ≠ City →
            sel ty (markers st2) = sel ty (markers st1)
            ∧ layerOf ty st2 = layerOf ty st1) as H21.
  { intros ty Hty.
    apply (fold_other ty addCityMarker (cities st1)
             (fun s c => addCityMarker_other s c ty Hty) st1). }
  assert (∀ ty, ty ≠ Province →
            sel ty (markers st1) = sel ty (markers st0)
            ∧ layerOf ty st1 = layerOf ty st0) as H10.
  { intros ty Hty.
    apply (fold_other ty addProvinceMarker (provinces st0)
             (fun s p => addProvinceMarker_other s p ty Hty) st0). }
  assert (∀ ty, sel ty (markers st0) = [] ∧ layerOf ty st0 = ∅) as H0
    by (by intros []).
  pose proof (data_fields _ _ Hd1) as (_ & Hc1 & _).
  pose proof (data_fields _ _ Hd2) as (Hb2 & _).
  pose proof (data_fields _ _ Hd3) as (Hb3 & _ & _ & Hcb3 & _).
  pose proof (data_fields _ _ Hd4) as (_ & Hc4 & _ & _ & Hpb4 & _).
  pose proof (data_fields _ _ Hd5) as (Hb5 & Hc5 & Hp5 & Hcb5 & Hpb5 & _).
  destruct (fold_markers Province addProvinceMarker ProvRow.province_id provLocated
              addProvinceMarker_step (provinces st0) st0)
    as (Hpk & Hpn & HpJ & Hpz & _).
  { intros h. destruct (H0 Province) as [_ ->]. by intros ?%not_elem_of_empty. }
  { intros id m. destruct (H0 Province) as [-> _]. by intros ?%elem_of_nil. }
  destruct (fold_markers City addCityMarker CityRow.city_id cityLocated
              addCityMarker_step (cities st1) st1)
    as (Hck & Hcn & HcJ & Hcz & _).
  { intros h. destruct (H10 City) as [_ ->]; [done|].
    destruct (H0 City) as [_ ->]. by intros ?%not_elem_of_empty. }
  { intros id m. destruct (H10 City) as [-> _]; [done|].
    destruct (H0 City) as [-> _]. by intros ?%elem_of_nil. }
  destruct (fold_markers Barangay addBarangayMarker BrgyRow.brgy_id brgyLocated
              addBarangayMarker_step (barangays st2) st2)
    as (Hbk & Hbn & HbJ & Hbz & _).
  { intros h. destruct (H21 Barangay) as [_ ->]; [done|].
    destruct (H10 Barangay) as [_ ->]; [done|].
    destruct (H0 Barangay) as [_ ->]. by intros ?%not_elem_of_empty. }
  { intros id m. destruct (H21 Barangay) as [-> _]; [done|].
    destruct (H10 Barangay) as [-> _]; [done|].
    destruct (H0 Barangay) as [-> _]. by intros ?%elem_of_nil. }
  fold st1 in Hpk, Hpn, HpJ, Hpz. fold st2 in Hck, Hcn, HcJ, Hcz.
  fold st3 in Hbk, Hbn, HbJ, Hbz.
  assert (linkBrgyToCity st3 = [] ∧ linkCityToProv st3 = []) as [Hlb3 Hlc3].
  { apply (fold_left_preserves
      (fun s => linkBrgyToCity s = [] ∧ linkCityToProv s = [])).
    { intros s b Hs. by destruct (addBarangayMarker_links s b) as [-> ->]. }
    apply (fold_left_preserves
      (fun s => linkBrgyToCity s = [] ∧ linkCityToProv s = [])).
    { intros s c Hs. by destruct (addCityMarker_links s c) as [-> ->]. }
    apply (fold_left_preserves
      (fun s => linkBrgyToCity s = [] ∧ linkCityToProv s = [])).
    { intros s p Hs. by destruct (addProvinceMarker_links s p) as [-> ->]. }
    done. }
  assert (linkCityToProv st4 = []) as Hlc4.
  { apply (fold_left_preserves (fun s => linkCityToProv s = [])); [|done].
    intros s b Hs. by rewrite addBrgyLink_city_links. }
  assert (linkBrgyToCity st5 = linkBrgyToCity st4) as Hlb5.
  { apply (fold_left_preserves (fun s => linkBrgyToCity s = linkBrgyToCity st4));
      [|done].
    intros s c Hs. by rewrite addCityLink_brgy_links. }
  pose proof (fold_register addBrgyLink linkBrgyToCity cityById BrgyRow.brgy_id
                brgyLinked) as Hlb.
  specialize (Hlb (fun s b => proj1 (proj2 (proj2 (proj2
                 (data_fields _ _ (addBrgyLink_data s b))))))
                addBrgyLink_step (barangays st3) st3).
  fold st4 in Hlb.
  pose proof (fold_register addCityLink linkCityToProv provinceById CityRow.city_id
                cityLinked) as Hlc.
  specialize (Hlc (fun s c => proj1 (proj2 (proj2 (proj2 (proj2
                 (data_fields _ _ (addCityLink_data s c)))))))
                addCityLink_step (cities st4) st4).
  fold st5 in Hlc.
  unfold onmap. simpl.
  change (markers (updateMarkerStyles st5)) with (markers st5).
  split_and!.
  - intros ty id. destruct (H53 ty) as [-> _]. destruct ty; simpl.
    + destruct (H32 Province) as [Hm _]; [done|]. simpl in Hm. rewrite Hm.
      destruct (H21 Province) as [Hm' _]; [done|]. simpl in Hm'. rewrite Hm'.
      rewrite (Hpk id). destruct (H0 Province) as [-> _]. rewrite Hp5.
      split; [by intros [?%elem_of_nil|?] | by right].
    + destruct (H32 City) as [Hm _]; [done|]. simpl in Hm. rewrite Hm.
      rewrite (Hck id). destruct (H10 City) as [-> _]; [done|].
      destruct (H0 City) as [-> _]. rewrite Hc5, Hc1.
      split; [by intros [?%elem_of_nil|?] | by right].
    + rewrite (Hbk id). destruct (H21 Barangay) as [-> _]; [done|].
      destruct (H10 Barangay) as [-> _]; [done|].
      destruct (H0 Barangay) as [-> _]. rewrite Hb5, Hb2.
      split; [by intros [?%elem_of_nil|?] | by right].
  - intros ty. destruct (H53 ty) as [-> _]. destruct ty.
    + destruct (H32 Province) as [-> _]; [done|].
      destruct (H21 Province) as [-> _]; [done|].
      apply Hpn. destruct (H0 Province) as [-> _]. apply NoDup_nil_2.
    + destruct (H32 City) as [-> _]; [done|].
      apply Hcn. destruct (H10 City) as [-> _]; [done|].
      destruct (H0 City) as [-> _]. apply NoDup_nil_2.
    + apply Hbn. destruct (H21 Barangay) as [-> _]; [done|].
      destruct (H10 Barangay) as [-> _]; [done|].
      destruct (H0 Barangay) as [-> _]. apply NoDup_nil_2.
  - intros ty id m.
    change (layerOf ty (set_layerLinks ?x (updateMarkerStyles st5)))
      with (layerOf ty st5).
    destruct (H53 ty) as [-> ->]. destruct ty.
    + destruct (H32 Province) as [-> ->]; [done|].
      destruct (H21 Province) as [-> ->]; [done|]. apply HpJ.
    + destruct (H32 City) as [-> ->]; [done|]. apply HcJ.
    + apply HbJ.
  - intros ty.
    change (layerOf ty (set_layerLinks ?x (updateMarkerStyles st5)))
      with (layerOf ty st5).
    change (located_ids ty (set_layerLinks ?x (updateMarkerStyles st5)))
      with (located_ids ty st5).
    destruct (H53 ty) as [_ ->]. destruct ty.
    + destruct (H32 Province) as [_ ->]; [done|].
      destruct (H21 Province) as [_ ->]; [done|].
      rewrite Hpz. destruct (H0 Province) as [_ ->].
      rewrite size_empty. unfold located_ids. rewrite Hp5, length_fmap. done.
    + destruct (H32 City) as [_ ->]; [done|].
      rewrite Hcz. destruct (H10 City) as [_ ->]; [done|].
      destruct (H0 City) as [_ ->].
      rewrite size_empty. unfold located_ids. rewrite Hc5, Hc1, length_fmap. done.
    + rewrite Hbz. destruct (H21 Barangay) as [_ ->]; [done|].
      destruct (H10 Barangay) as [_ ->]; [done|].
      destruct (H0 Barangay) as [_ ->].
      rewrite size_empty. unfold located_ids. rewrite Hb5, Hb2, length_fmap. done.
  - intros k. rewrite Hlb5, (Hlb k), Hlb3, Hb5, Hcb5, Hb3, Hcb3.
    split; [by intros [?%elem_of_nil|?] | by right].
  - intros k. rewrite (Hlc k), Hlc4, Hc5, Hpb5, Hc4, Hpb4.
    split; [by intros [?%elem_of_nil|?] | by right].
  - intros ty id.
    change (located ty (set_layerLinks ?x (updateMarkerStyles st5)))
      with (located ty st5).
    destruct (H53 ty) as [-> _]. destruct ty.
    + destruct (H32 Province) as [-> _]; [done|].
      destruct (H21 Province) as [-> _]; [done|].
      unfold st1. rewrite (fold_latlng Province addProvinceMarker provEntry
                             addProvinceMarker_entry).
      destruct (H0 Province) as [-> _]. unfold located. rewrite Hp5.
      by destruct (lastLocated id _).
    + destruct (H32 City) as [-> _]; [done|].
      unfold st2. rewrite (fold_latlng City addCityMarker cityEntry
                             addCityMarker_entry).
      destruct (H10 City) as [-> _]; [done|]. destruct (H0 City) as [-> _].
      unfold located. rewrite Hc5, Hc1. by destruct (lastLocated id _).
    + unfold st3. rewrite (fold_latlng Barangay addBarangayMarker brgyEntry
                             addBarangayMarker_entry).
      destruct (H21 Barangay) as [-> _]; [done|].
      destruct (H10 Barangay) as [-> _]; [done|]. destruct (H0 Barangay) as [-> _].
      unfold located. rewrite Hb5, Hb2. by destruct (lastLocated id _).
Qed.

(** * More properties of the script *)

(** ** Flags *)

Lemma fold_upd {V A : Type} ty (f : A → JsMap.t V → JsMap.t V) l : ∀ o ty',
  sel ty' (fold_left (fun o x => upd ty (f x) o) l o)
  = if decide (ty = ty') then fold_left (fun m x => f x m) l (sel ty o) else sel ty' o.
Proof.
  induction l as [|x l IH]; simpl; intros o ty'; [by case_decide; subst|].
  rewrite IH. case_decide; [|by rewrite sel_upd, decide_False].
  by rewrite sel_upd, decide_True.
Qed.

Lemma fold_set_keys {A : Type} (idf : A → option string) (v : bool) l : ∀ m k,
  k ∈ JsMap.keys (fold_left (fun m x => JsMap.set (idf x) v m) l m)
  ↔ k ∈ JsMap.keys m ∨ ∃ x, x ∈ l ∧ idf x = k.
Proof.
  induction l as [|x l IH]; simpl; intros m k.
  - split; [by left|]. intros [?|(x & ?%elem_of_nil & _)]; done.
  - rewrite IH, JsMapFacts.elem_of_keys_set. split.
    + intros [[->|?]|(y & ? & ?)]; [right; exists x; split; [left|done] | by left |].
      right. exists y. split; [by right | done].
    + intros [?|(y & [->|?]%elem_of_cons & Hy)]; [by left; right | by left; left |].
      right. by exists y.
Qed.

Lemma set_values (k : option string) (v : bool) m (P : bool → Prop) :
  P v → (∀ k' v', (k', v') ∈ m → P v') →
  ∀ k' v', (k', v') ∈ JsMap.set k v m → P v'.
Proof.
  intros Hv Hm k' v' [[= -> ->]|?]%JsMapFacts.elem_of_set; [done | by eapply Hm].
Qed.

Lemma fold_set_values {A : Type} (idf : A → option string) (v : bool)
    (P : bool → Prop) l :
  P v → ∀ m, (∀ k' v', (k', v') ∈ m → P v') →
  ∀ k' v', (k', v') ∈ fold_left (fun m x => JsMap.set (idf x) v m) l m → P v'.
Proof.
  intros Hv. induction l as [|x l IH]; simpl; intros m Hm; [done|].
  apply IH. by apply set_values.
Qed.

Lemma getEnabled_values en ty id :
  (∀ k v, (k, v) ∈ sel ty en → v = true) → getEnabled en ty id = true.
Proof.
  intros Hall. unfold getEnabled.
  destruct (JsMap.get id (sel ty en)) as [[]|] eqn:Hget; try done.
  apply JsMapFacts.get_elem_of in Hget. by apply Hall in Hget.
Qed.

Lemma flagsAtLoad_values ps cs bs ty k v :
  (k, v) ∈ sel ty (flagsAtLoad ps cs bs) → v = true.
Proof.
  unfold flagsAtLoad. rewrite !fold_upd. simpl.
  destruct ty; simpl;
    apply (fold_set_values _ true (fun v => v = true)); try done;
    by intros ?? ?%elem_of_nil.
Qed.

Lemma flagsAtLoad_keys ps cs bs :
  (∀ p, p ∈ ps → ProvRow.province_id p ∈ JsMap.keys (province (flagsAtLoad ps cs bs)))
  ∧ (∀ c, c ∈ cs → CityRow.city_id c ∈ JsMap.keys (city (flagsAtLoad ps cs bs)))
  ∧ (∀ b, b ∈ bs → BrgyRow.brgy_id b ∈ JsMap.keys (barangay (flagsAtLoad ps cs bs))).
Proof.
  unfold flagsAtLoad. split_and!.
  - intros p Hp.
    change (province ?o) with (sel Province o). rewrite !fold_upd. simpl.
    apply fold_set_keys. right. by exists p.
  - intros c Hc.
    change (city ?o) with (sel City o). rewrite !fold_upd. simpl.
    apply fold_set_keys. right. by exists c.
  - intros b Hb.
    change (barangay ?o) with (sel Barangay o). rewrite !fold_upd. simpl.
    apply fold_set_keys. right. by exists b.
Qed.

(** [setAllEnabled] sets the flag of every id that has one and adds none. *)
Lemma setAll_fold (val : bool) (l : list (option string * bool)) : ∀ m k,
  (∀ kv, kv ∈ l → kv.1 ∈ JsMap.keys m) →
  JsMap.keys (fold_left (fun acc kv => JsMap.set kv.1 val acc) l m) = JsMap.keys m
  ∧ JsMap.get k (fold_left (fun acc kv => JsMap.set kv.1 val acc) l m)
    = if decide (k ∈ l.*1) then Some val else JsMap.get k m.
Proof.
  induction l as [|[k0 v0] l IH]; csimpl; intros m k Hl.
  - by split.
  - assert (JsMap.keys (JsMap.set k0 val m) = JsMap.keys m) as Hkeys.
    { rewrite JsMapFacts.keys_set.
      by rewrite (proj2 (JsMapFacts.has_true k0 m)) by (apply (Hl (k0, v0)); left). }
    destruct (IH (JsMap.set k0 val m) k) as [IHk IHg].
    { intros kv Hkv. rewrite Hkeys. apply Hl. by right. }
    rewrite IHk, IHg, Hkeys. split; [done|].
    rewrite JsMapFacts.get_set.
    destruct (decide (k ∈ l.*1)) as [Hin|Hnin].
    + rewrite decide_True; [done | by right].
    + destruct (decide (k0 = k)) as [->|Hne].
      * rewrite decide_True; [done | left].
      * rewrite decide_False; [done|]. by intros [?|?]%elem_of_cons.
Qed.

Lemma setAllEnabled_get ty val en ty' k :
  JsMap.get k (sel ty' (setAllEnabled ty val en))
  = if decide (ty = ty' ∧ k ∈ JsMap.keys (sel ty en)) then Some val
    else JsMap.get k (sel ty' en).
Proof.
  unfold setAllEnabled. rewrite sel_upd.
  destruct (decide (ty = ty')) as [<-|Hne]; [|by rewrite decide_False by tauto].
  unfold JsMap.forEach.
  destruct (setAll_fold val (sel ty en) (sel ty en) k) as [_ ->].
  { intros [k' v'] Hin. apply list_elem_of_fmap. by exists (k', v'). }
  unfold JsMap.keys. destruct (decide (k ∈ (sel ty en).*1)).
  - by rewrite decide_True.
  - by rewrite decide_False by tauto.
Qed.

Lemma setAllEnabled_keys ty val en ty' :
  JsMap.keys (sel ty' (setAllEnabled ty val en)) = JsMap.keys (sel ty' en).
Proof.
  unfold setAllEnabled. rewrite sel_upd.
  destruct (decide (ty = ty')) as [<-|Hne]; [|done].
  unfold JsMap.forEach.
  destruct (setAll_fold val (sel ty en) (sel ty en) None) as [-> _]; [|done].
  intros [k' v'] Hin. apply list_elem_of_fmap. by exists (k', v').
Qed.

Lemma getEnabled_setAllEnabled ty val en ty' k :
  getEnabled (setAllEnabled ty val en) ty' k
  = if decide (ty = ty' ∧ k ∈ JsMap.keys (sel ty en)) then val
    else getEnabled en ty' k.
Proof.
  unfold getEnabled. rewrite setAllEnabled_get.
  case_decide; [by destruct val | done].
Qed.

Lemma flagsAfter_keys ev en ty k :
  k ∈ JsMap.keys (sel ty en) → k ∈ JsMap.keys (sel ty (flagsAfter ev en)).
Proof.
  intros Hk. destruct ev as [ty0 id checked| |]; unfold flagsAfter.
  - unfold setEnabled. rewrite sel_upd. case_decide as Hty; [|done]. subst ty0.
    apply JsMapFacts.elem_of_keys_set. by right.
  - by rewrite !setAllEnabled_keys.
  - by rewrite !setAllEnabled_keys.
Qed.

(** ** Reachable states, with what the properties below need *)

Lemma main_flags d :
  ∃ st, main localeCompare d = Ok st
    ∧ enabled st = flagsAtLoad (provinces st) (cities st) (barangays st).
Proof.
  unfold main. lazy zeta.
  set (bs := List.filter keepBarangay (normBarangay <$> barangaysRaw d)).
  set (cs := List.filter keepCity (normCity <$> citiesRaw d)).
  set (ps := List.filter keepProvince (normProvince <$> provincesRaw d)).
  match goal with |- context [addMarkersAndLinks ?p] => set (st1 := p) end.
  assert (barangays st1 = bs ∧ cities st1 = cs ∧ provinces st1 = ps
          ∧ cityById st1 = fold_left indexCity cs JsMap.empty
          ∧ enabled st1 = flagsAtLoad ps cs bs)
    as (Hb1 & Hc1 & Hp1 & Hcb1 & He1) by done.
  destruct (addMarkersAndLinks_spec st1) as (st & base & Hrun & Hd & _).
  { rewrite Hc1, Hcb1. intros c Hin Hla Hlo. by apply indexCity_fold_is_Some. }
  exists st. split; [exact Hrun|].
  apply data_fields in Hd as (Hb & Hc & Hp & _ & _ & _ & He & _).
  by rewrite He, Hb, Hc, Hp, He1, Hb1, Hc1, Hp1.
Qed.

Lemma handle_rows_flagged ev st st' :
  handle ev st = Ok st' → static st' = static st →
  enabled st' = flagsAfter ev (enabled st) →
  rows_flagged st → rows_flagged st'.
Proof.
  intros _ Hs He (Hp & Hc & Hb). unfold static in Hs.
  injection Hs as Hsb Hsc Hsp _ _ _ _ _ _ _ _ _ _ _.
  unfold rows_flagged. rewrite Hsb, Hsc, Hsp, He. split_and!.
  - intros p Hin. by apply (flagsAfter_keys ev _ Province), Hp.
  - intros c Hin. by apply (flagsAfter_keys ev _ City), Hc.
  - intros b Hin. by apply (flagsAfter_keys ev _ Barangay), Hb.
Qed.

Lemma handleAll_rows_flagged evs : ∀ st st' base,
  inv st → synced base st → rows_flagged st →
  handleAll evs st = Ok st' → rows_flagged st'.
Proof.
  induction evs as [|ev evs IH]; intros st st' base Hinv Hsy Hrf.
  - simpl. by intros [= <-].
  - destruct (handle_spec ev st base) as (st1 & Hh & Hs1 & He1 & Hinv1 & Hsy1);
      [done..|].
    rewrite (handleAll_cons _ _ _ _ Hh). apply (IH st1 st' base); [done..|].
    by apply (handle_rows_flagged ev st).
Qed.

Lemma static_drawn_ok st st' : static st' = static st → drawn_ok st → drawn_ok st'.
Proof.
  unfold static. intros Hs Hdr.
  injection Hs as Hsb Hsc Hsp Hscb Hspb _ Hsm Hslb Hslc _ _ _ _ _.
  unfold drawn_ok. by rewrite Hsb, Hsc, Hsp, Hscb, Hspb, Hsm, Hslb, Hslc.
Qed.

Lemma main_onmap d : ∃ st, main localeCompare d = Ok st ∧ onmap st.
Proof.
  unfold main. lazy zeta.
  match goal with |- context [addMarkersAndLinks ?p] => set (st1 := p) end.
  destruct (addMarkersAndLinks_spec st1) as (st & base & Hrun & _).
  { intros c Hin Hla Hlo. by apply indexCity_fold_is_Some. }
  exists st. split; [exact Hrun|]. by apply (addMarkersAndLinks_onmap st1).
Qed.

Lemma static_onmap st st' : static st' = static st → onmap st → onmap st'.
Proof.
  unfold static. intros Hs Hom.
  injection Hs as Hsb Hsc Hsp Hscb Hspb _ Hsm Hslb Hslc Hlb Hlc Hlp _ _.
  unfold onmap, located_ids, located, layerOf.
  by rewrite Hsb, Hsc, Hsp, Hscb, Hspb, Hsm, Hslb, Hslc, Hlb, Hlc, Hlp.
Qed.

(** The handlers give an icon to the markers the maps hold and to nothing
    else. *)
Lemma updateMarkerStyles_frame st h :
  stamps_ok st →
  (∀ ty, h ∉ m_stamp <$> JsMap.values (sel ty (markers st))) →
  icons (updateMarkerStyles st) !! h = icons st !! h.
Proof.
  intros Hnd%stamps_ok_NoDup Hh. unfold stamps_of in Hnd.
  apply NoDup_app in Hnd as (Hp & _ & Hnd).
  apply NoDup_app in Hnd as (Hc & _ & Hnd).
  apply NoDup_app in Hnd as (Hb & _ & _).
  unfold updateMarkerStyles. simpl.
  rewrite (proj2 (forEach_setIcon _ _ Hb _)) by apply (Hh Barangay).
  rewrite (proj2 (forEach_setIcon _ _ Hc _)) by apply (Hh City).
  by rewrite (proj2 (forEach_setIcon _ _ Hp _)) by apply (Hh Province).
Qed.

Lemma handle_icons_frame ev st st' h :
  inv st → handle ev st = Ok st' →
  (∀ ty, h ∉ m_stamp <$> JsMap.values (sel ty (markers st))) →
  icons st' !! h = icons st !! h.
Proof.
  intros (Hst & _) Hh Hout.
  set (st1 := st ▷ set_enabled (flagsAfter ev (enabled st))).
  assert (handle ev st = st2 ← applyVisibilityRules st1; Ok (updateMarkerStyles st2))
    as Heq by (by destruct ev).
  rewrite Heq in Hh.
  destruct (applyVisibilityRules_spec st1) as (st2 & Happ & Hst2 & _); [done|].
  rewrite Happ in Hh. simpl in Hh. injection Hh as <-.
  rewrite updateMarkerStyles_frame; [by rewrite Hst2 | by rewrite Hst2 |].
  intros ty. rewrite Hst2. apply Hout.
Qed.

Lemma handleAll_icons_frame evs h : ∀ st st' base,
  inv st → synced base st → handleAll evs st = Ok st' →
  (∀ ty, h ∉ m_stamp <$> JsMap.values (sel ty (markers st))) →
  icons st' !! h = icons st !! h.
Proof.
  induction evs as [|ev evs IH]; intros st st' base Hinv Hsy.
  - simpl. by intros [= <-].
  - destruct (handle_spec ev st base) as (st1 & Hh & Hs1 & _ & Hinv1 & Hsy1);
      [done..|].
    rewrite (handleAll_cons _ _ _ _ Hh). intros Hrun Hout.
    rewrite (IH st1 st' base Hinv1 Hsy1 Hrun).
    + by apply (handle_icons_frame ev st).
    + intros ty. pose proof (static_fields _ _ Hs1) as (_ & _ & _ & _ & -> & _).
      apply Hout.
Qed.

(** The states the script reaches, and what holds in them. *)
Lemma run_extra d evs :
  ∃ st0 st base, main localeCompare d = Ok st0
    ∧ run localeCompare d evs = Ok st
    ∧ static st = static st0
    ∧ inv st ∧ synced base st ∧ synced base st0
    ∧ drawn_ok st ∧ rows_flagged st
    ∧ enabled st0 = flagsAtLoad (provinces st0) (cities st0) (barangays st0)
    ∧ onmap st ∧ inv st0
    ∧ (∀ h, (∀ ty, h ∉ m_stamp <$> JsMap.values (sel ty (markers st0))) →
            icons st !! h = icons st0 !! h)
    ∧ cityById st = fold_left indexCity (cities st) JsMap.empty
    ∧ provinceById st = fold_left indexProvince (provinces st) JsMap.empty
    ∧ barangaysByCity st = fold_left groupBarangay (barangays st) JsMap.empty
    ∧ tree st = tree (buildTree localeCompare st0)
    ∧ (∀ p, p ∈ provinces st → keepProvince p = true)
    ∧ (∀ c, c ∈ cities st → keepCity c = true)
    ∧ (∀ b, b ∈ barangays st → keepBarangay b = true).
Proof.
  destruct (main_spec d)
    as (st0 & base & Hmain & Hinv & Hsy & Hb & Hc & Hp & Hcb & Hpb & Hbc & Ht & Hdr & _).
  destruct (main_flags d) as (st0' & Hmain' & He0).
  rewrite Hmain in Hmain'. injection Hmain' as <-.
  destruct (main_onmap d) as (st0' & Hmain' & Hom).
  rewrite Hmain in Hmain'. injection Hmain' as <-.
  destruct (handleAll_spec evs st0 base) as (st & Hrun & Hs & Hinv' & Hsy'); [done..|].
  assert (rows_flagged st0) as Hrf0.
  { unfold rows_flagged. rewrite He0. apply flagsAtLoad_keys. }
  exists st0, st, base. unfold run. rewrite Hmain. simpl.
  pose proof Hs as Hs'. unfold static in Hs'.
  injection Hs' as Hsb Hsc Hsp Hscb Hspb Hsbc _ _ _ _ _ _ Hst _.
  rewrite Hsb, Hsc, Hsp, Hscb, Hspb, Hsbc, Hst.
  split_and!; try done.
  - by apply (static_drawn_ok st0).
  - by apply (handleAll_rows_flagged evs st0 st base).
  - by apply (static_onmap st0).
  - intros h Hout. by apply (handleAll_icons_frame evs h st0 st base).
  - intros p. rewrite Hp. by intros [? _]%elem_of_filter_fmap.
  - intros c. rewrite Hc. by intros [? _]%elem_of_filter_fmap.
  - intros b. rewrite Hb. by intros [? _]%elem_of_filter_fmap.
Qed.

Lemma getEnabled_not_key en ty id :
  id ∉ JsMap.keys (sel ty en) → getEnabled en ty id = true.
Proof.
  intros Hk. unfold getEnabled.
  by rewrite (proj2 (JsMapFacts.get_None_keys id (sel ty en)) Hk).
Qed.

(** X1. A flag that was set reads as set; setting one flag changes the
    reading of no other; a node with no flag reads as enabled. *)
Theorem X1_flag_write_read ty id val en :
  getEnabled (setEnabled ty id val en) ty id = val
  ∧ (∀ ty' id', (ty', id') ≠ (ty, id) →
       getEnabled (setEnabled ty id val en) ty' id' = getEnabled en ty' id')
  ∧ (∀ ty' id', id' ∉ JsMap.keys (sel ty' en) → getEnabled en ty' id' = true).
Proof.
  split_and!.
  - rewrite getEnabled_setEnabled. by rewrite decide_True.
  - intros ty' id' Hne. rewrite getEnabled_setEnabled.
    rewrite decide_False; [done|]. intros [-> ->]. by apply Hne.
  - intros ty' id'. apply getEnabled_not_key.
Qed.

(** X2. [setAllEnabled] of a kind gives the value to every node of the
    kind that has a flag and to no other: a node with no flag still reads
    as enabled, the other kinds read as before, and no flag is added. *)
Theorem X2_setAllEnabled_flags ty val en :
  (∀ id, id ∈ JsMap.keys (sel ty en) →
     getEnabled (setAllEnabled ty val en) ty id = val)
  ∧ (∀ id, id ∉ JsMap.keys (sel ty en) →
       getEnabled (setAllEnabled ty val en) ty id = true)
  ∧ (∀ ty' id, ty' ≠ ty →
       getEnabled (setAllEnabled ty val en) ty' id = getEnabled en ty' id)
  ∧ (∀ ty', JsMap.keys (sel ty' (setAllEnabled ty val en)) = JsMap.keys (sel ty' en)).
Proof.
  split_and!.
  - intros id Hid. rewrite getEnabled_setAllEnabled. by rewrite decide_True.
  - intros id Hid. rewrite getEnabled_setAllEnabled.
    rewrite decide_False by tauto. by apply getEnabled_not_key.
  - intros ty' id Hne. rewrite getEnabled_setAllEnabled.
    rewrite decide_False; [done|]. intros [-> _]. by apply Hne.
  - apply setAllEnabled_keys.
Qed.

Lemma getEnabled_all_set val en ty id :
  getEnabled
    (en ▷ setAllEnabled Province val ▷ setAllEnabled City val
        ▷ setAllEnabled Barangay val) ty id
  = if decide (id ∈ JsMap.keys (sel ty en)) then val else getEnabled en ty id.
Proof.
  rewrite !getEnabled_setAllEnabled, !setAllEnabled_keys.
  destruct (decide (id ∈ JsMap.keys (sel ty en))) as [Hin|Hnin].
  - destruct ty.
    + rewrite decide_False by (by intros [[=] _]).
      rewrite decide_False by (by intros [[=] _]). by rewrite decide_True.
    + rewrite decide_False by (by intros [[=] _]). by rewrite decide_True.
    + by rewrite decide_True.
  - by rewrite !decide_False by (intros [? ?]; subst; done).
Qed.

(** With every flag reading true, every kept line is on the map and every
    kept marker shows the icon of its kind. *)
Lemma all_enabled st base :
  inv st → synced base st →
  (∀ ty id, getEnabled (enabled st) ty id = true) →
  (∀ k line,
     JsMap.get k (linkBrgyToCity st) = Some line
     ∨ JsMap.get k (linkCityToProv st) = Some line → visible st line)
  ∧ (∀ ty id m, JsMap.get id (sel ty (markers st)) = Some m →
       icons st !! m_stamp m = Some (iconFor ty true)).
Proof.
  intros Hinv Hsy Hon. split.
  - intros k line [Hget%JsMapFacts.get_elem_of|Hget%JsMapFacts.get_elem_of].
    + destruct (brgy_line_synced st base k line) as (b & _ & Hv); [done..|].
      apply Hv. by rewrite !Hon.
    + destruct (city_line_synced st base k line) as (c & _ & Hv); [done..|].
      apply Hv. by rewrite !Hon.
  - intros ty id m Hget%JsMapFacts.get_elem_of.
    destruct Hinv as (_ & _ & _ & _ & Hic). by rewrite (Hic _ _ _ Hget), Hon.
Qed.

Lemma tree_rows_buildTree st r :
  r ∈ tree_rows (tree (buildTree localeCompare st)) →
  ∃ ty id labelText, r = buildNodeRow st ty id labelText.
Proof.
  unfold tree_rows.
  intros ([p cs] & Hr & (p0 & [= -> ->] & _)%list_elem_of_fmap)%list_elem_of_bind.
  apply elem_of_cons in Hr as [->|Hr]; [by eexists _, _, _|].
  apply list_elem_of_bind in Hr
    as ([c bs] & Hr & (c0 & [= -> ->] & _)%list_elem_of_fmap).
  apply elem_of_cons in Hr as [->|Hr]; [by eexists _, _, _|].
  apply list_elem_of_fmap in Hr as (b0 & -> & _). by eexists _, _, _.
Qed.

(** X3. When loading is done every flag reads true, every kept line is on
    the map, every kept marker shows the icon of its kind, and every
    checkbox of the tree was built checked. *)
Theorem X3_after_load d :
  ∃ st, main localeCompare d = Ok st
    ∧ (∀ ty id, getEnabled (enabled st) ty id = true)
    ∧ (∀ k line,
         JsMap.get k (linkBrgyToCity st) = Some line
         ∨ JsMap.get k (linkCityToProv st) = Some line → visible st line)
    ∧ (∀ ty id m, JsMap.get id (sel ty (markers st)) = Some m →
         icons st !! m_stamp m
         = Some (match ty with
                 | Province => provinceIconEnabled
                 | City => cityIconEnabled
                 | Barangay => brgyIconEnabled
                 end))
    ∧ (∀ r, r ∈ tree_rows (tree st) → nr_checked r = true).
Proof.
  destruct (main_spec d) as (st0 & base & Hmain & Hinv & Hsy & Hrest).
  destruct (main_flags d) as (st1 & Hmain1 & He0).
  rewrite Hmain in Hmain1. injection Hmain1 as <-.
  exists st0. split; [exact Hmain|].
  assert (∀ ty id, getEnabled (enabled st0) ty id = true) as Hon.
  { intros ty id. apply getEnabled_values. rewrite He0. intros k v.
    apply flagsAtLoad_values. }
  destruct (all_enabled st0 base Hinv Hsy Hon) as [Hlines Hicons].
  split_and!; [exact Hon | exact Hlines | |].
  - intros ty id m Hget. rewrite (Hicons ty id m Hget). by destruct ty.
  - do 6 destruct Hrest as [_ Hrest]. destruct Hrest as [Ht _].
    intros r Hr. rewrite Ht in Hr.
    apply tree_rows_buildTree in Hr as (ty & id & labelText & ->). apply Hon.
Qed.

(** X4. After "check all", whatever came before, every flag reads true,
    every kept line is on the map and every kept marker shows the icon of
    its kind. *)
Theorem X4_check_all d evs :
  ∃ st st', run localeCompare d evs = Ok st ∧ handle CheckAll st = Ok st'
    ∧ (∀ ty id, getEnabled (enabled st') ty id = true)
    ∧ (∀ k line,
         JsMap.get k (linkBrgyToCity st') = Some line
         ∨ JsMap.get k (linkCityToProv st') = Some line → visible st' line)
    ∧ (∀ ty id m, JsMap.get id (sel ty (markers st')) = Some m →
         icons st' !! m_stamp m
         = Some (match ty with
                 | Province => provinceIconEnabled
                 | City => cityIconEnabled
                 | Barangay => brgyIconEnabled
                 end)).
Proof.
  destruct (run_extra d evs) as (st0 & st & base & _ & Hrun & _ & Hinv & Hsy & _).
  destruct (handle_spec CheckAll st base) as (st' & Hh & _ & He & Hinv' & Hsy');
    [done..|].
  exists st, st'. split; [exact Hrun|]. split; [exact Hh|].
  assert (∀ ty id, getEnabled (enabled st') ty id = true) as Hon.
  { intros ty id. rewrite He. unfold flagsAfter. rewrite getEnabled_all_set.
    case_decide; [done | by apply getEnabled_not_key]. }
  destruct (all_enabled st' base Hinv' Hsy' Hon) as [Hlines Hicons].
  split_and!; [exact Hon | exact Hlines |].
  intros ty id m Hget. rewrite (Hicons ty id m Hget). by destruct ty.
Qed.

(** X5. After "uncheck all", whatever came before, every node that has a
    flag reads disabled, no kept line is on the map, and every kept marker
    shows the disabled icon of its kind. *)
Theorem X5_uncheck_all d evs :
  ∃ st st', run localeCompare d evs = Ok st ∧ handle UncheckAll st = Ok st'
    ∧ (∀ ty id, id ∈ JsMap.keys (sel ty (enabled st)) →
         getEnabled (enabled st') ty id = false)
    ∧ (∀ k line,
         JsMap.get k (linkBrgyToCity st') = Some line
         ∨ JsMap.get k (linkCityToProv st') = Some line → ¬ visible st' line)
    ∧ (∀ ty id m, JsMap.get id (sel ty (markers st')) = Some m →
         icons st' !! m_stamp m
         = Some (match ty with
                 | Province | City => disabledAwesome
                 | Barangay => brgyIconDisabled
                 end)).
Proof.
  destruct (run_extra d evs)
    as (st0 & st & base & _ & Hrun & _ & Hinv & Hsy & _ & Hdr & Hrf & _).
  destruct (handle_spec UncheckAll st base) as (st' & Hh & Hs & He & Hinv' & Hsy');
    [done..|].
  exists st, st'. split; [exact Hrun|]. split; [exact Hh|].
  assert (∀ ty id, id ∈ JsMap.keys (sel ty (enabled st)) →
            getEnabled (enabled st') ty id = false) as Hoff.
  { intros ty id Hid. rewrite He. unfold flagsAfter. rewrite getEnabled_all_set.
    by rewrite decide_True. }
  pose proof (static_drawn_ok st st' Hs Hdr) as Hdr'.
  destruct Hdr' as (Hmp & Hmc & Hmb & Hlb & Hlc).
  destruct Hrf as (Hfp & Hfc & Hfb).
  unfold static in Hs. injection Hs as Hsb Hsc Hsp _ _ _ _ _ _ _ _ _ _ _.
  rewrite Hsb, Hsc, Hsp in *.
  split_and!; [exact Hoff | |].
  - intros k line [Hget%JsMapFacts.get_elem_of|Hget%JsMapFacts.get_elem_of].
    + destruct (brgy_line_synced st' base k line) as (b & _ & Hv); [done..|].
      unfold visible. rewrite Hv. intros [Hon _].
      destruct (Hlb _ _ Hget) as (b0 & c0 & ? & ? & ? & ? & Hb0 & <- & _).
      by rewrite (Hoff Barangay _ (Hfb _ Hb0)) in Hon.
    + destruct (city_line_synced st' base k line) as (c & _ & Hv); [done..|].
      unfold visible. rewrite Hv. intros [Hon _].
      destruct (Hlc _ _ Hget) as (c0 & p0 & ? & ? & ? & ? & Hc0 & <- & _).
      by rewrite (Hoff City _ (Hfc _ Hc0)) in Hon.
  - intros ty id m Hget%JsMapFacts.get_elem_of.
    destruct Hinv' as (_ & _ & _ & _ & Hic). rewrite (Hic _ _ _ Hget).
    destruct ty; simpl in Hget.
    + destruct (Hmp _ _ Hget) as (p & Hp & <- & _).
      by rewrite (Hoff Province _ (Hfp _ Hp)).
    + destruct (Hmc _ _ Hget) as (c & Hc & <- & _).
      by rewrite (Hoff City _ (Hfc _ Hc)).
    + destruct (Hmb _ _ Hget) as (b & Hb & <- & _).
      by rewrite (Hoff Barangay _ (Hfb _ Hb)).
Qed.

Lemma flag_setEnabled_false ty id en : getEnabled (setEnabled ty id false en) ty id = false.
Proof. rewrite getEnabled_setEnabled. by rewrite decide_True. Qed.

(** X6. Unchecking a node hides every kept line that involves it: a
    barangay's own line; a city's own line and the line of every barangay
    whose record names the city; the line of every city whose record
    names the province. *)
Theorem X6_uncheck_hides_lines d evs ty id :
  ∃ st st', run localeCompare d evs = Ok st
    ∧ handle (Change ty id false) st = Ok st'
    ∧ (ty = Barangay → ∀ line,
         JsMap.get (Some id) (linkBrgyToCity st') = Some line → ¬ visible st' line)
    ∧ (ty = City → ∀ line,
         JsMap.get (Some id) (linkCityToProv st') = Some line → ¬ visible st' line)
    ∧ (ty = City → ∀ k line b,
         JsMap.get k (linkBrgyToCity st') = Some line →
         List.find (fun x => bool_decide (BrgyRow.brgy_id x = k)) (barangays st') = Some b →
         BrgyRow.city_id b = Some id → ¬ visible st' line)
    ∧ (ty = Province → ∀ k line c,
         JsMap.get k (linkCityToProv st') = Some line →
         JsMap.get k (cityById st') = Some c →
         CityRow.province_id c = Some id → ¬ visible st' line).
Proof.
  destruct (run_extra d evs) as (st0 & st & base & _ & Hrun & _ & Hinv & Hsy & _).
  destruct (handle_spec (Change ty id false) st base)
    as (st' & Hh & _ & He & Hinv' & Hsy'); [done..|].
  exists st, st'. split; [exact Hrun|]. split; [exact Hh|].
  unfold flagsAfter in He. unfold visible. split_and!.
  - intros -> line Hget%JsMapFacts.get_elem_of.
    destruct (brgy_line_synced st' base (Some id) line) as (b & _ & Hv); [done..|].
    rewrite Hv, He, flag_setEnabled_false. by intros [? _].
  - intros -> line Hget%JsMapFacts.get_elem_of.
    destruct (city_line_synced st' base (Some id) line) as (c & _ & Hv); [done..|].
    rewrite Hv, He, flag_setEnabled_false. by intros [? _].
  - intros -> k line b Hget%JsMapFacts.get_elem_of Hfind Hcity.
    destruct (brgy_line_synced st' base k line) as (b' & Hfind' & Hv); [done..|].
    rewrite Hfind in Hfind'. injection Hfind' as <-.
    rewrite Hv, Hcity, He, flag_setEnabled_false. by intros [_ ?].
  - intros -> k line c Hget%JsMapFacts.get_elem_of Hc Hprov.
    destruct (city_line_synced st' base k line) as (c' & Hc' & Hv); [done..|].
    rewrite Hc in Hc'. injection Hc' as <-.
    rewrite Hv, Hprov, He, flag_setEnabled_false. by intros [_ ?].
Qed.

Lemma untracked_synced st base h :
  synced base st → ¬ tracked st h → (h ∈ layerLinks st ↔ h ∈ base).
Proof.
  intros Hsy Hnt. rewrite (Hsy h). unfold expected, expect. unfold tracked in Hnt.
  rewrite (proj2 (findStamp_None h (linkCityToProv st))) by tauto.
  by rewrite (proj2 (findStamp_None h (linkBrgyToCity st))) by tauto.
Qed.

Lemma static_tracked st st' h : static st' = static st → tracked st' h ↔ tracked st h.
Proof.
  intros (_ & _ & Hlb & Hlc & _)%static_fields. unfold tracked. by rewrite Hlb, Hlc.
Qed.

(** X7. Changing a barangay's flag, whichever way, leaves the line of
    every other barangay, every city-to-province line, and every line that
    neither map holds, as visible as it was. *)
Theorem X7_barangay_flag_frame d evs id checked :
  ∃ st st', run localeCompare d evs = Ok st
    ∧ handle (Change Barangay id checked) st = Ok st'
    ∧ (∀ k line, k ≠ Some id →
         JsMap.get k (linkBrgyToCity st) = Some line →
         (visible st' line ↔ visible st line))
    ∧ (∀ k line,
         JsMap.get k (linkCityToProv st) = Some line →
         (visible st' line ↔ visible st line))
    ∧ (∀ h, ¬ tracked st h → (h ∈ layerLinks st' ↔ h ∈ layerLinks st)).
Proof.
  destruct (run_extra d evs) as (st0 & st & base & _ & Hrun & _ & Hinv & Hsy & _).
  destruct (handle_spec (Change Barangay id checked) st base)
    as (st' & Hh & Hs & He & Hinv' & Hsy'); [done..|].
  exists st, st'. split; [exact Hrun|]. split; [exact Hh|].
  pose proof (static_fields _ _ Hs) as (Hb & Hcb & Hlb & Hlc & _).
  unfold flagsAfter in He. unfold visible. split_and!.
  - intros k line Hne Hget%JsMapFacts.get_elem_of.
    destruct (brgy_line_synced st base k line) as (b1 & Hb1 & Hv1); [done..|].
    destruct (brgy_line_synced st' base k line) as (b2 & Hb2 & Hv2);
      [done | done | by rewrite Hlb|].
    rewrite Hb, Hb1 in Hb2. injection Hb2 as <-.
    rewrite Hv1, Hv2, He, !getEnabled_setEnabled.
    rewrite decide_False by (intros [_ ?]; congruence).
    by rewrite decide_False by (by intros [[=] _]).
  - intros k line Hget%JsMapFacts.get_elem_of.
    destruct (city_line_synced st base k line) as (c1 & Hc1 & Hv1); [done..|].
    destruct (city_line_synced st' base k line) as (c2 & Hc2 & Hv2);
      [done | done | by rewrite Hlc|].
    rewrite Hcb, Hc1 in Hc2. injection Hc2 as <-.
    rewrite Hv1, Hv2, He, !getEnabled_setEnabled.
    by rewrite !decide_False by (by intros [[=] _]).
  - intros h Hnt.
    rewrite (untracked_synced st base h Hsy Hnt).
    apply untracked_synced; [done|]. by rewrite (static_tracked st st' h Hs).
Qed.

(** X8. Changing a city's flag, whichever way, leaves the line of every
    other city, the line of every barangay whose record names another
    city, and every line that neither map holds, as visible as it was. *)
Theorem X8_city_flag_frame d evs id checked :
  ∃ st st', run localeCompare d evs = Ok st
    ∧ handle (Change City id checked) st = Ok st'
    ∧ (∀ k line, k ≠ Some id →
         JsMap.get k (linkCityToProv st) = Some line →
         (visible st' line ↔ visible st line))
    ∧ (∀ k line b,
         JsMap.get k (linkBrgyToCity st) = Some line →
         List.find (fun x => bool_decide (BrgyRow.brgy_id x = k)) (barangays st) = Some b →
         BrgyRow.city_id b ≠ Some id →
         (visible st' line ↔ visible st line))
    ∧ (∀ h, ¬ tracked st h → (h ∈ layerLinks st' ↔ h ∈ layerLinks st)).
Proof.
  destruct (run_extra d evs) as (st0 & st & base & _ & Hrun & _ & Hinv & Hsy & _).
  destruct (handle_spec (Change City id checked) st base)
    as (st' & Hh & Hs & He & Hinv' & Hsy'); [done..|].
  exists st, st'. split; [exact Hrun|]. split; [exact Hh|].
  pose proof (static_fields _ _ Hs) as (Hb & Hcb & Hlb & Hlc & _).
  unfold flagsAfter in He. unfold visible. split_and!.
  - intros k line Hne Hget%JsMapFacts.get_elem_of.
    destruct (city_line_synced st base k line) as (c1 & Hc1 & Hv1); [done..|].
    destruct (city_line_synced st' base k line) as (c2 & Hc2 & Hv2);
      [done | done | by rewrite Hlc|].
    rewrite Hcb, Hc1 in Hc2. injection Hc2 as <-.
    rewrite Hv1, Hv2, He, !getEnabled_setEnabled.
    rewrite decide_False by (intros [_ ?]; congruence).
    by rewrite decide_False by (by intros [[=] _]).
  - intros k line b Hget%JsMapFacts.get_elem_of Hfind Hne.
    destruct (brgy_line_synced st base k line) as (b1 & Hb1 & Hv1); [done..|].
    destruct (brgy_line_synced st' base k line) as (b2 & Hb2 & Hv2);
      [done | done | by rewrite Hlb|].
    rewrite Hb, Hb1 in Hb2. injection Hb2 as <-.
    rewrite Hfind in Hb1. injection Hb1 as <-.
    rewrite Hv1, Hv2, He, !getEnabled_setEnabled.
    rewrite decide_False by (by intros [[=] _]).
    by rewrite decide_False by (intros [_ ?]; congruence).
  - intros h Hnt.
    rewrite (untracked_synced st base h Hsy Hnt).
    apply untracked_synced; [done|]. by rewrite (static_tracked st st' h Hs).
Qed.

(** X9. A line that neither map holds (one drawn for a row whose id a
    later row took over) is never shown or hidden again: whatever the user
    does, it is on the map iff it was when loading was done. *)
Theorem X9_untracked_line_never_changes d evs :
  ∃ st0 st, main localeCompare d = Ok st0 ∧ run localeCompare d evs = Ok st
    ∧ ∀ h, ¬ tracked st0 h → (h ∈ layerLinks st ↔ h ∈ layerLinks st0).
Proof.
  destruct (run_extra d evs)
    as (st0 & st & base & Hmain & Hrun & Hs & _ & Hsy & Hsy0 & _).
  exists st0, st. split; [exact Hmain|]. split; [exact Hrun|]. intros h Hnt.
  rewrite (untracked_synced st0 base h Hsy0 Hnt).
  apply untracked_synced; [done|]. by rewrite (static_tracked st0 st h Hs).
Qed.

(** ** Markers, lines and indexes in terms of the rows *)

Lemma stamps_elem_of {V : Type} (f : V → nat) (m : JsMap.t V) h :
  h ∈ f <$> JsMap.values m → ∃ k v, (k, v) ∈ m ∧ f v = h.
Proof.
  intros (v & -> & ([k v'] & -> & Hin)%list_elem_of_fmap)%list_elem_of_fmap.
  by exists k, v'.
Qed.

Lemma marker_stamp_cases st h :
  (∃ ty id m, (id, m) ∈ sel ty (markers st) ∧ m_stamp m = h)
  ∨ (∀ ty, h ∉ m_stamp <$> JsMap.values (sel ty (markers st))).
Proof.
  destruct (decide (h ∈ m_stamp <$> JsMap.values (sel Province (markers st))))
    as [(k & v & ? & ?)%stamps_elem_of|Hp]; [left; by exists Province, k, v|].
  destruct (decide (h ∈ m_stamp <$> JsMap.values (sel City (markers st))))
    as [(k & v & ? & ?)%stamps_elem_of|Hc]; [left; by exists City, k, v|].
  destruct (decide (h ∈ m_stamp <$> JsMap.values (sel Barangay (markers st))))
    as [(k & v & ? & ?)%stamps_elem_of|Hb]; [left; by exists Barangay, k, v|].
  right. by intros [].
Qed.

Lemma is_Some_get_keys {V : Type} k (m : JsMap.t V) :
  is_Some (JsMap.get k m) ↔ k ∈ JsMap.keys m.
Proof.
  rewrite <- not_eq_None_Some, JsMapFacts.get_None_keys.
  destruct (decide (k ∈ JsMap.keys m)); tauto.
Qed.

Lemma filter_omap_fst {A : Type} (key : A → option string) (cond : A → bool)
    (ent : A → option (option string * (number * number))) l :
  (∀ a, if cond a then ∃ ll, ent a = Some (key a, ll) else ent a = None) →
  key <$> List.filter cond l = (omap ent l).*1.
Proof.
  intros Hent. induction l as [|a l IH]; csimpl; [done|].
  specialize (Hent a). destruct (cond a).
  - destruct Hent as [ll ->]. csimpl. by rewrite IH.
  - by rewrite Hent.
Qed.

Lemma located_ids_fst ty st : located_ids ty st = (located ty st).*1.
Proof.
  destruct ty; apply filter_omap_fst.
  - intros p. unfold provLocated, provEntry.
    destruct (ProvRow.lat p), (ProvRow.lon p); simpl; eauto.
  - intros c. unfold cityLocated, cityEntry.
    destruct (CityRow.lat c), (CityRow.lon c); simpl; eauto.
  - intros b. unfold brgyLocated, brgyEntry.
    destruct (BrgyRow.lat b), (BrgyRow.lon b); simpl; eauto.
Qed.

Lemma find_fst_None {B : Type} id (l : list (option string * B)) :
  List.find (fun e => bool_decide (e.1 = id)) l = None ↔ id ∉ l.*1.
Proof.
  induction l as [|[k v] l IH]; csimpl.
  - split; [intros _; apply not_elem_of_nil | done].
  - rewrite not_elem_of_cons. case_bool_decide as Hk; simpl in Hk.
    + split; [done | intros [? _]; by subst].
    + rewrite IH. split; [intros ?; split; [congruence | done] | tauto].
Qed.

Lemma elem_of_rev {A : Type} (l : list A) x : x ∈ rev l ↔ x ∈ l.
Proof. rewrite !list_elem_of_In. symmetry. apply in_rev. Qed.

Lemma lastLocated_None id l : lastLocated id l = None ↔ id ∉ l.*1.
Proof.
  unfold lastLocated. rewrite fmap_None, find_fst_None, !list_elem_of_fmap.
  by setoid_rewrite elem_of_rev.
Qed.

Lemma lastLocated_Some id l ll : lastLocated id l = Some ll → (id, ll) ∈ l.
Proof.
  unfold lastLocated. intros ([k ll'] & Hf & ->)%fmap_Some.
  apply find_some in Hf as [Hin Hk]. apply bool_decide_eq_true_1 in Hk.
  simpl in Hk. subst k. by apply elem_of_rev, list_elem_of_In.
Qed.

Lemma indexCity_fold_get l : ∀ m k,
  JsMap.get k (fold_left indexCity l m)
  = match List.find (fun c => bool_decide (CityRow.city_id c = k) && cityLocated c)
                    (rev l) with
    | Some c => Some c
    | None => JsMap.get k m
    end.
Proof.
  induction l as [|a l IH]; intros m k; csimpl; [done|].
  rewrite IH, find_app_first. destruct (List.find _ (rev l)); [done|]. csimpl.
  unfold indexCity, cityLocated.
  destruct (CityRow.lat a), (CityRow.lon a); simpl; rewrite ?andb_false_r; try done.
  rewrite andb_true_r, JsMapFacts.get_set.
  case_bool_decide; [by rewrite decide_True | by rewrite decide_False].
Qed.

Lemma indexProvince_fold_get l : ∀ m k,
  JsMap.get k (fold_left indexProvince l m)
  = match List.find (fun p => bool_decide (ProvRow.province_id p = k) && provLocated p)
                    (rev l) with
    | Some p => Some p
    | None => JsMap.get k m
    end.
Proof.
  induction l as [|a l IH]; intros m k; csimpl; [done|].
  rewrite IH, find_app_first. destruct (List.find _ (rev l)); [done|]. csimpl.
  unfold indexProvince, provLocated.
  destruct (ProvRow.lat a), (ProvRow.lon a); simpl; rewrite ?andb_false_r; try done.
  rewrite andb_true_r, JsMapFacts.get_set.
  case_bool_decide; [by rewrite decide_True | by rewrite decide_False].
Qed.

Lemma groupBarangay_fold_get l : ∀ m k,
  default [] (JsMap.get k (fold_left groupBarangay l m))
  = default [] (JsMap.get k m)
    ++ List.filter (fun b => bool_decide (BrgyRow.city_id b = k)) l.
Proof.
  induction l as [|a l IH]; intros m k; csimpl; [by rewrite app_nil_r|].
  rewrite IH, groupBarangay_get.
  case_bool_decide.
  - rewrite decide_True by done. csimpl. by rewrite <- app_assoc.
  - by rewrite decide_False.
Qed.

Lemma find_rev_Some {A : Type} (P : A → bool) l x :
  List.find P (rev l) = Some x → x ∈ l ∧ P x = true.
Proof.
  intros [Hin HP]%find_some. split; [|done].
  by apply elem_of_rev, list_elem_of_In.
Qed.

Lemma find_rev_is_Some {A : Type} (P : A → bool) l x :
  x ∈ l → P x = true → is_Some (List.find P (rev l)).
Proof.
  intros Hin HP. destruct (find_is_Some P (rev l) x) as [y Hy]; [|done|by exists y].
  by apply elem_of_rev.
Qed.

(** X10. The change handler gives the node's marker the icon of its kind
    and of the new state of the checkbox, and changes the icon of nothing
    else: not of another node's marker, and not of a marker that the map
    of markers no longer holds. *)
Theorem X10_change_marker_icons d evs ty id checked :
  ∃ st st', run localeCompare d evs = Ok st
    ∧ handle (Change ty id checked) st = Ok st'
    ∧ (∀ m, JsMap.get (Some id) (sel ty (markers st)) = Some m →
         icons st' !! m_stamp m = Some (iconFor ty checked))
    ∧ (∀ h, (∀ m, JsMap.get (Some id) (sel ty (markers st)) = Some m → m_stamp m ≠ h) →
         icons st' !! h = icons st !! h).
Proof.
  destruct (run_extra d evs)
    as (st0 & st & base & _ & Hrun & _ & Hinv & Hsy & _ & _ & _ & _ & Hom & _).
  destruct (handle_spec (Change ty id checked) st base)
    as (st' & Hh & Hs & He & Hinv' & Hsy'); [done..|].
  exists st, st'. split; [exact Hrun|]. split; [exact Hh|].
  pose proof (static_fields _ _ Hs) as (_ & _ & _ & _ & Hm & _).
  pose proof Hinv as (_ & _ & _ & _ & Hic).
  pose proof Hinv' as (_ & _ & _ & _ & Hic').
  unfold flagsAfter in He. split.
  - intros m Hget%JsMapFacts.get_elem_of. rewrite <- Hm in Hget.
    rewrite (Hic' _ _ _ Hget), He, getEnabled_setEnabled. by rewrite decide_True.
  - intros h Hh'. destruct (marker_stamp_cases st h)
      as [(ty' & id' & m' & Hin & <-)|Hout].
    + rewrite (Hic _ _ _ Hin). rewrite <- Hm in Hin. rewrite (Hic' _ _ _ Hin).
      rewrite He, getEnabled_setEnabled. rewrite decide_False; [done|].
      intros [<- <-]. apply (Hh' m'); [|done].
      destruct Hom as (_ & Hnd & _). rewrite Hm in Hin.
      by apply JsMapFacts.elem_of_get.
    + by apply (handle_icons_frame (Change ty id checked) st).
Qed.

(** X11. Markers stay where loading put them: no event adds or removes a
    marker, every marker the maps hold is on the layer of its kind, and the
    layer of a kind holds one marker for each kept row of the kind that has
    both coordinates. *)
Theorem X11_markers_stay_on_map d evs :
  ∃ st0 st, main localeCompare d = Ok st0 ∧ run localeCompare d evs = Ok st
    ∧ (∀ ty, sel ty (markers st) = sel ty (markers st0)
             ∧ layerOf ty st = layerOf ty st0)
    ∧ (∀ ty id m, JsMap.get id (sel ty (markers st)) = Some m →
         m_stamp m ∈ layerOf ty st)
    ∧ (∀ ty, size (layerOf ty st) = length (located ty st)).
Proof.
  destruct (run_extra d evs)
    as (st0 & st & base & Hmain & Hrun & Hs & _ & _ & _ & _ & _ & _ & Hom & _).
  exists st0, st. split; [exact Hmain|]. split; [exact Hrun|].
  destruct Hom as (_ & _ & HJ & Hsz & _).
  unfold static in Hs. injection Hs as _ _ _ _ _ _ Hm _ _ Hlb Hlc Hlp _ _.
  split_and!.
  - intros ty. rewrite Hm. by destruct ty.
  - intros ty id m Hget%JsMapFacts.get_elem_of. by apply (HJ ty id).
  - intros ty. by rewrite Hsz, located_ids_fst, length_fmap.
Qed.

(** X12. Clicking a name moves the view to where the last kept row with
    that id and both coordinates says, at the zoom of the kind, and opens
    the popup of a marker that is on the map; when no kept row of the kind
    with that id has both coordinates, nothing happens. *)
Theorem X12_zoomTo_last_located_row d evs ty id :
  ∃ st, run localeCompare d evs = Ok st
    ∧ match lastLocated id (located ty st) with
      | Some ll =>
          ∃ h, h ∈ layerOf ty st
            ∧ zoomTo st ty id = [SetView ll (ZOOM ty); OpenPopup h]
      | None => zoomTo st ty id = []
      end
    ∧ (lastLocated id (located ty st) = None ↔ id ∉ (located ty st).*1).
Proof.
  destruct (run_extra d evs)
    as (st0 & st & base & _ & Hrun & _ & _ & _ & _ & _ & _ & _ & Hom & _).
  exists st. split; [exact Hrun|]. split; [|apply lastLocated_None].
  destruct Hom as (_ & _ & HJ & _ & _ & _ & Hll).
  rewrite <- (Hll ty id). unfold zoomTo.
  destruct (JsMap.get id (sel ty (markers st))) as [m|] eqn:Hget; csimpl; [|done].
  exists (m_stamp m). split; [|done].
  apply (HJ ty id). by apply JsMapFacts.get_elem_of.
Qed.

Lemma keepBarangay_located b : keepBarangay b = true →
  brgyLocated b = true ∧ truthy_id (BrgyRow.city_id b) = true.
Proof.
  unfold keepBarangay, brgyLocated. intros Hk.
  apply andb_prop in Hk as [Hk Hlo]. apply andb_prop in Hk as [Hk Hla].
  apply andb_prop in Hk as [_ Hc]. split; [|done].
  by destruct (BrgyRow.lat b), (BrgyRow.lon b).
Qed.

(** X13. Which lines are drawn: a kept barangay has a line iff some kept
    city row with the barangay's city id has both coordinates; a kept city
    has a line iff it has both coordinates and some kept province row with
    the city's province id has both coordinates. *)
Theorem X13_line_exists_iff d evs :
  ∃ st, run localeCompare d evs = Ok st
    ∧ (∀ k, is_Some (JsMap.get k (linkBrgyToCity st))
            ↔ ∃ b c, b ∈ barangays st ∧ BrgyRow.brgy_id b = k
                ∧ c ∈ cities st ∧ CityRow.city_id c = BrgyRow.city_id b
                ∧ cityLocated c = true)
    ∧ (∀ k, is_Some (JsMap.get k (linkCityToProv st))
            ↔ ∃ c p, c ∈ cities st ∧ CityRow.city_id c = k ∧ cityLocated c = true
                ∧ p ∈ provinces st ∧ ProvRow.province_id p = CityRow.province_id c
                ∧ provLocated p = true).
Proof.
  destruct (run_extra d evs)
    as (st0 & st & base & _ & Hrun & _ & _ & _ & _ & _ & _ & _ & Hom & _ & _
        & Hcb & Hpb & _ & _ & Hkp & _ & Hkb).
  exists st. split; [exact Hrun|].
  destruct Hom as (_ & _ & _ & _ & Hlb & Hlc & _). split.
  - intros k. rewrite is_Some_get_keys, (Hlb k), list_elem_of_fmap. split.
    + intros (b & -> & [Hb Hl]%list_elem_of_In%filter_In).
      apply list_elem_of_In in Hb. unfold brgyLinked in Hl.
      apply andb_prop in Hl as [_ Hl]. rewrite Hcb, indexCity_fold_get in Hl.
      simpl in Hl.
      destruct (List.find _ (rev (cities st))) as [c|] eqn:Hf; [|done].
      apply find_rev_Some in Hf as [Hc [Hid Hloc]%andb_prop].
      apply bool_decide_eq_true_1 in Hid. by exists b, c.
    + intros (b & c & Hb & <- & Hc & Hid & Hloc). exists b. split; [done|].
      apply list_elem_of_In, filter_In. split; [by apply list_elem_of_In|].
      destruct (keepBarangay_located b (Hkb b Hb)) as [Hbl Hbc].
      unfold brgyLinked. rewrite Hbl, Hbc, Hcb, indexCity_fold_get. simpl.
      destruct (find_rev_is_Some
                  (fun c => bool_decide (CityRow.city_id c = BrgyRow.city_id b)
                            && cityLocated c) (cities st) c) as [c' Hf];
        [done | by rewrite Hloc, bool_decide_eq_true_2 |].
      rewrite Hf. by apply find_rev_Some in Hf as [_ [_ ?]%andb_prop].
  - intros k. rewrite is_Some_get_keys, (Hlc k), list_elem_of_fmap. split.
    + intros (c & -> & [Hc Hl]%list_elem_of_In%filter_In).
      apply list_elem_of_In in Hc. unfold cityLinked in Hl.
      apply andb_prop in Hl as [[Hcl _]%andb_prop Hl].
      rewrite Hpb, indexProvince_fold_get in Hl. simpl in Hl.
      destruct (List.find _ (rev (provinces st))) as [p|] eqn:Hf; [|done].
      apply find_rev_Some in Hf as [Hp [Hid Hloc]%andb_prop].
      apply bool_decide_eq_true_1 in Hid. by exists c, p.
    + intros (c & p & Hc & <- & Hcl & Hp & Hid & Hloc). exists c. split; [done|].
      apply list_elem_of_In, filter_In. split; [by apply list_elem_of_In|].
      unfold cityLinked. rewrite Hcl, <- Hid.
      pose proof (Hkp p Hp) as Hk. unfold keepProvince in Hk. rewrite Hk.
      rewrite Hpb, indexProvince_fold_get. simpl.
      destruct (find_rev_is_Some
                  (fun q => bool_decide (ProvRow.province_id q = ProvRow.province_id p)
                            && provLocated q) (provinces st) p) as [p' Hf];
        [done | by rewrite Hloc, bool_decide_eq_true_2 |].
      rewrite Hf. by apply find_rev_Some in Hf as [_ [_ ?]%andb_prop].
Qed.

(** X14. The two indexes hold, under an id, the last kept row with that
    id that has both coordinates, and nothing under an id no such row
    has. *)
Theorem X14_index_last_located_row d evs :
  ∃ st, run localeCompare d evs = Ok st
    ∧ (∀ k, JsMap.get k (cityById st)
            = List.find (fun c => bool_decide (CityRow.city_id c = k) && cityLocated c)
                        (rev (cities st)))
    ∧ (∀ k, JsMap.get k (provinceById st)
            = List.find (fun p => bool_decide (ProvRow.province_id p = k)
                                  && provLocated p)
                        (rev (provinces st))).
Proof.
  destruct (run_extra d evs)
    as (st0 & st & base & _ & Hrun & _ & _ & _ & _ & _ & _ & _ & _ & _ & _
        & Hcb & Hpb & _).
  exists st. split; [exact Hrun|]. split; intros k.
  - rewrite Hcb, indexCity_fold_get. by destruct (List.find _ _).
  - rewrite Hpb, indexProvince_fold_get. by destruct (List.find _ _).
Qed.

(** X15. [barangaysByCity] groups the kept barangays by city id, in file
    order: under an id it holds the kept barangays with that city id, and
    no entry is an empty list. *)
Theorem X15_barangaysByCity_groups d evs :
  ∃ st, run localeCompare d evs = Ok st
    ∧ (∀ k, default [] (JsMap.get k (barangaysByCity st))
            = List.filter (fun b => bool_decide (BrgyRow.city_id b = k)) (barangays st))
    ∧ (∀ k bs, JsMap.get k (barangaysByCity st) = Some bs → bs ≠ []).
Proof.
  destruct (run_extra d evs)
    as (st0 & st & base & _ & Hrun & _ & _ & _ & _ & _ & _ & _ & _ & _ & _
        & _ & _ & Hbc & _).
  exists st. split; [exact Hrun|].
  assert (∀ l m, (∀ k bs, JsMap.get k m = Some bs → bs ≠ []) →
            ∀ k bs, JsMap.get k (fold_left groupBarangay l m) = Some bs → bs ≠ [])
    as Hne.
  { induction l as [|a l IH]; intros m Hm; [done|]. simpl. apply IH.
    intros k bs. rewrite groupBarangay_get. case_decide; [|apply Hm].
    intros [= <-]. by destruct (default [] _). }
  split.
  - intros k. by rewrite Hbc, groupBarangay_fold_get.
  - rewrite Hbc. by apply Hne.
Qed.

(** ** The view and the status line *)

Lemma values_elem_of {V B : Type} (f : V → B) (m : JsMap.t V) y :
  y ∈ f <$> JsMap.values m ↔ ∃ k v, (k, v) ∈ m ∧ f v = y.
Proof.
  split.
  - intros (v & -> & ([k v'] & -> & Hin)%list_elem_of_fmap)%list_elem_of_fmap.
    by exists k, v'.
  - intros (k & v & Hin & <-). apply list_elem_of_fmap. exists v. split; [done|].
    apply list_elem_of_fmap. by exists (k, v).
Qed.

Lemma get_iff_elem_of {V : Type} k v (m : JsMap.t V) :
  NoDup (JsMap.keys m) → JsMap.get k m = Some v ↔ (k, v) ∈ m.
Proof.
  intros Hnd. split; [apply JsMapFacts.get_elem_of | by apply JsMapFacts.elem_of_get].
Qed.

(** X16. [fitBoundsToData] fits the view to the places of the markers the
    maps hold, which are the places the last located row of each id gives;
    it falls back to the default view exactly when no kept row of any kind
    has both coordinates. *)
Theorem X16_fitBoundsToData d evs :
  ∃ st, run localeCompare d evs = Ok st
    ∧ ((∀ ty, located ty st = []) →
       fitBoundsToData st
       = SetView (Finite false 103169 (-4), Finite false 12389 (-2)) 10)
    ∧ ((∃ ty, located ty st ≠ []) →
       ∃ ll, fitBoundsToData st = FitBounds ll (40, 40)
         ∧ ∀ p, p ∈ ll ↔ ∃ ty id, lastLocated id (located ty st) = Some p).
Proof.
  destruct (run_extra d evs)
    as (st0 & st & base & _ & Hrun & _ & _ & _ & _ & _ & _ & _ & Hom & _).
  exists st. split; [exact Hrun|].
  destruct Hom as (Hk & Hnd & _ & _ & _ & _ & Hll).
  assert (∀ p, p ∈ (m_latlng <$> JsMap.values (barangay (markers st)))
                   ++ (m_latlng <$> JsMap.values (city (markers st)))
                   ++ (m_latlng <$> JsMap.values (province (markers st)))
               ↔ ∃ ty id, lastLocated id (located ty st) = Some p) as Hpts.
  { intros p. rewrite !elem_of_app, !values_elem_of. split.
    - intros [(k & m & Hin & <-)|[(k & m & Hin & <-)|(k & m & Hin & <-)]].
      + exists Barangay, k. rewrite <- Hll.
        by rewrite (proj2 (get_iff_elem_of k m _ (Hnd Barangay)) Hin).
      + exists City, k. rewrite <- Hll.
        by rewrite (proj2 (get_iff_elem_of k m _ (Hnd City)) Hin).
      + exists Province, k. rewrite <- Hll.
        by rewrite (proj2 (get_iff_elem_of k m _ (Hnd Province)) Hin).
    - intros (ty & id & Hl). rewrite <- Hll in Hl.
      apply fmap_Some in Hl as (m & Hget%JsMapFacts.get_elem_of & ->).
      destruct ty; [right; right | right; left | left]; by exists id, m. }
  split.
  - intros Hempty. unfold fitBoundsToData.
    assert (∀ ty, sel ty (markers st) = []) as Hm.
    { intros ty. apply (fmap_nil_inv fst). apply elem_of_nil_inv. intros k.
      change (k ∉ JsMap.keys (sel ty (markers st))).
      rewrite (Hk ty k), located_ids_fst, Hempty. apply not_elem_of_nil. }
    by rewrite (Hm Barangay : barangay _ = []), (Hm City : city _ = []),
      (Hm Province : province _ = []).
  - intros (ty & Hne). unfold fitBoundsToData. eexists. split; [|exact Hpts].
    destruct (located ty st) as [|[k ll] l] eqn:Hl; [done|].
    destruct (lastLocated k (located ty st)) as [ll'|] eqn:Hlast.
    2: { apply lastLocated_None in Hlast. exfalso. apply Hlast. rewrite Hl. left. }
    assert (ll' ∈ (m_latlng <$> JsMap.values (barangay (markers st)))
                  ++ (m_latlng <$> JsMap.values (city (markers st)))
                  ++ (m_latlng <$> JsMap.values (province (markers st)))) as Hin
      by (apply Hpts; by exists ty, k).
    destruct (_ ++ _); [by apply elem_of_nil in Hin | done].
Qed.





(** X18. "Check all" brings back the picture loading drew, whatever was
    done in between: the same lines are on the map and every marker the
    script ever made shows the icon it had. *)
Theorem X18_check_all_restores_load d evs :
  ∃ st0 st st', main localeCompare d = Ok st0
    ∧ run localeCompare d evs = Ok st
    ∧ handle CheckAll st = Ok st'
    ∧ layerLinks st' = layerLinks st0
    ∧ icons st' = icons st0.
Proof.
  destruct (run_extra d evs)
    as (st0 & st & base & Hmain & Hrun & Hs & Hinv & Hsy & Hsy0 & _ & _ & He0 & _
        & Hinv0 & Hfr & _).
  destruct (handle_spec CheckAll st base) as (st' & Hh & Hs' & He & Hinv' & Hsy');
    [done..|].
  exists st0, st, st'. split; [exact Hmain|]. split; [exact Hrun|].
  split; [exact Hh|].
  assert (∀ ty id, getEnabled (enabled st') ty id = true) as Hon.
  { intros ty id. rewrite He. unfold flagsAfter. rewrite getEnabled_all_set.
    case_decide; [done | by apply getEnabled_not_key]. }
  assert (∀ ty id, getEnabled (enabled st0) ty id = true) as Hon0.
  { intros ty id. apply getEnabled_values. rewrite He0. intros k v.
    apply flagsAtLoad_values. }
  assert (static st' = static st0) as Hs0 by congruence.
  split.
  - apply set_eq. intros h. rewrite (Hsy' h), (Hsy0 h).
    apply expected_flags; [done|]. intros ty id. by rewrite Hon, Hon0.
  - apply map_eq. intros h.
    pose proof (static_fields _ _ Hs0) as (_ & _ & _ & _ & Hm & _).
    pose proof (static_fields _ _ Hs) as (_ & _ & _ & _ & Hm1 & _).
    destruct (marker_stamp_cases st0 h) as [(ty & id & m & Hin & <-)|Hout].
    + destruct Hinv0 as (_ & _ & _ & _ & Hic0). destruct Hinv' as (_ & _ & _ & _ & Hic').
      rewrite (Hic0 _ _ _ Hin), Hon0. rewrite <- Hm in Hin.
      by rewrite (Hic' _ _ _ Hin), Hon.
    + rewrite <- (Hfr h Hout).
      apply (handle_icons_frame CheckAll st); [done..|]. by rewrite Hm1.
Qed.

(** X19. In every state the script reaches the picture is up to date:
    running the visibility rules or the marker styles again changes
    nothing. *)
Theorem X19_rendering_is_idempotent d evs :
  ∃ st, run localeCompare d evs = Ok st
    ∧ applyVisibilityRules st = Ok st
    ∧ updateMarkerStyles st = st.
Proof.
  destruct (run_extra d evs)
    as (st0 & st & base & _ & Hrun & _ & Hinv & Hsy & _).
  exists st. split; [exact Hrun|].
  pose proof Hinv as (Hst & _ & _ & _ & Hic). split.
  - destruct (applyVisibilityRules_spec st Hst) as (st' & -> & Hst' & Hmem).
    f_equal. rewrite Hst'.
    assert (layerLinks st' = layerLinks st) as ->; [|by destruct st].
    apply set_eq. intros h. rewrite (Hmem h).
    etrans; [apply expected_iff, (Hsy h)|].
    etrans; [by apply expected_idem|]. symmetry. apply Hsy.
  - assert (icons (updateMarkerStyles st) = icons st) as Heq.
    { apply map_eq. intros h.
      destruct (marker_stamp_cases st h) as [(ty & id & m & Hin & <-)|Hout].
      - rewrite (Hic _ _ _ Hin).
        by rewrite (updateMarkerStyles_icons st Hst ty id m Hin).
      - by apply updateMarkerStyles_frame. }
    transitivity (st ▷ set_icons (icons (updateMarkerStyles st))); [done|].
    rewrite Heq. by destruct st.
Qed.

(** X20. The two rendering functions do not interfere: in any state,
    styling the markers and then applying the rules gives what applying
    the rules and then styling the markers gives ([addMarkersAndLinks]
    calls them in the first order, the handlers in the second). *)
Theorem X20_styles_and_rules_commute st :
  applyVisibilityRules (updateMarkerStyles st)
  = (st' ← applyVisibilityRules st; Ok (updateMarkerStyles st')).
Proof. by rewrite !applyVisibilityRules_Ok. Qed.

(** ** The tree *)

Lemma sort_length {A : Type} (cmp : A → A → Z) (l : list A) :
  length (sort cmp l) = length l.
Proof. unfold sort. apply Permutation_length, merge_sort_Permutation. Qed.

Lemma buildTree_ids_inv s ty id :
  (ty, id) ∈ tree_ids (tree (buildTree localeCompare s)) →
  match ty with
  | Province => ∃ p, p ∈ provinces s ∧ ProvRow.province_id p = id
  | City =>
      ∃ c p, c ∈ cities s ∧ p ∈ provinces s
        ∧ CityRow.province_id c = ProvRow.province_id p ∧ CityRow.city_id c = id
  | Barangay =>
      ∃ b c p, b ∈ default [] (JsMap.get (CityRow.city_id c) (barangaysByCity s))
        ∧ c ∈ cities s ∧ p ∈ provinces s
        ∧ CityRow.province_id c = ProvRow.province_id p ∧ BrgyRow.brgy_id b = id
  end.
Proof.
  unfold tree_ids. intros ([p0 cs] & Hx & Hin)%list_elem_of_bind.
  apply list_elem_of_fmap in Hin as (p & Heq & Hp%sort_elem_of).
  injection Heq as -> ->.
  apply elem_of_cons in Hx as [Hx|Hx].
  { injection Hx as -> ->. by exists p. }
  apply list_elem_of_bind in Hx as ([c0 bs] & Hx & Hc).
  apply list_elem_of_fmap in Hc as (c & Heq & Hc%sort_elem_of).
  injection Heq as -> ->.
  apply list_elem_of_In, filter_In in Hc as [Hc Hcp].
  apply list_elem_of_In in Hc. apply bool_decide_eq_true_1 in Hcp.
  apply elem_of_cons in Hx as [Hx|Hx].
  { injection Hx as -> ->. by exists c, p. }
  apply list_elem_of_fmap in Hx as (r & Hx & Hr).
  apply list_elem_of_fmap in Hr as (b & -> & Hb%sort_elem_of).
  injection Hx as -> ->. by exists b, c, p.
Qed.

(** X21. The rows of the tree: a row for each kept province; a row for a
    city exactly when some kept province row has the city's province id; a
    row for a barangay exactly when some kept city row has its city id and
    that city has a row. *)
Theorem X21_tree_rows_iff d evs :
  ∃ st, run localeCompare d evs = Ok st
    ∧ (∀ id, (Province, id) ∈ tree_ids (tree st)
             ↔ ∃ p, p ∈ provinces st ∧ ProvRow.province_id p = id)
    ∧ (∀ id, (City, id) ∈ tree_ids (tree st)
             ↔ ∃ c p, c ∈ cities st ∧ p ∈ provinces st
                 ∧ CityRow.province_id c = ProvRow.province_id p
                 ∧ CityRow.city_id c = id)
    ∧ (∀ id, (Barangay, id) ∈ tree_ids (tree st)
             ↔ ∃ b c p, b ∈ barangays st ∧ c ∈ cities st ∧ p ∈ provinces st
                 ∧ BrgyRow.city_id b = CityRow.city_id c
                 ∧ CityRow.province_id c = ProvRow.province_id p
                 ∧ BrgyRow.brgy_id b = id).
Proof.
  destruct (run_extra d evs)
    as (st0 & st & base & _ & Hrun & Hs & _ & _ & _ & _ & _ & _ & _ & _ & _
        & _ & _ & Hbc & Ht & _).
  exists st. split; [exact Hrun|]. rewrite Ht.
  unfold static in Hs. injection Hs as Hsb Hsc Hsp _ _ Hsbc _ _ _ _ _ _ _ _.
  rewrite Hsb, Hsc, Hsp. rewrite Hsb, Hsbc in Hbc.
  destruct (buildTree_ids st0) as (Htp & Htc & Htb).
  assert (∀ b c, b ∈ default [] (JsMap.get (CityRow.city_id c) (barangaysByCity st0))
                 ↔ b ∈ barangays st0 ∧ BrgyRow.city_id b = CityRow.city_id c) as Hgrp.
  { intros b c. rewrite Hbc, groupBarangay_fold_get. simpl.
    rewrite list_elem_of_In, filter_In, <- list_elem_of_In.
    by rewrite bool_decide_eq_true. }
  split_and!.
  - intros id. split; [apply (buildTree_ids_inv st0 Province)|].
    intros (p & Hp & <-). by apply Htp.
  - intros id. split; [apply (buildTree_ids_inv st0 City)|].
    intros (c & p & Hc & Hp & Hcp & <-). by apply (Htc c p).
  - intros id. split.
    + intros (b & c & p & Hb%Hgrp & Hc & Hp & Hcp & <-)%(buildTree_ids_inv st0 Barangay).
      destruct Hb as [Hb Hbc']. by exists b, c, p.
    + intros (b & c & p & Hb & Hc & Hp & Hbc' & Hcp & <-).
      apply (Htb b c p); [|done..]. by apply Hgrp.
Qed.

(** X22. The count shown beside a node is the number of rows listed under
    it: cities under a province, barangays under a city; a barangay shows
    no count. *)
Theorem X22_tree_counts_match_rows d evs :
  ∃ st, run localeCompare d evs = Ok st
    ∧ ∀ p cs, (p, cs) ∈ tree st →
        nr_meta p = pretty (length cs) +:+ " cities"
        ∧ ∀ c bs, (c, bs) ∈ cs →
            nr_meta c = pretty (length bs) +:+ " brgys"
            ∧ ∀ b, b ∈ bs → nr_meta b = "".
Proof.
  destruct (run_extra d evs)
    as (st0 & st & base & _ & Hrun & _ & _ & _ & _ & _ & _ & _ & _ & _ & _
        & _ & _ & _ & Ht & _).
  exists st. split; [exact Hrun|]. rewrite Ht. intros p0 cs Hin.
  apply list_elem_of_fmap in Hin as (p & Heq & _).
  injection Heq as -> ->. split.
  - by rewrite length_fmap, sort_length.
  - intros c0 bs Hc. apply list_elem_of_fmap in Hc as (c & Heq & _).
    injection Heq as -> ->. split.
    + by rewrite length_fmap, sort_length.
    + intros b0 Hb. by apply list_elem_of_fmap in Hb as (b & -> & _).
Qed.

(** ** Normalisation *)

Lemma trimStart_ws pre s : all_ws pre = true → trimStart (pre +:+ s) = trimStart s.
Proof.
  induction pre as [|a pre IH]; simpl; [done|].
  intros [Ha Hpre]%andb_prop. rewrite Ha. by apply IH.
Qed.

Lemma trimStart_all_ws s : all_ws s = true → trimStart s = "".
Proof.
  induction s as [|a s IH]; simpl; [done|].
  intros [Ha Hs]%andb_prop. rewrite Ha. by apply IH.
Qed.

Lemma trimEnd_all_ws s : all_ws s = true → trimEnd s = "".
Proof.
  induction s as [|a s IH]; simpl; [done|].
  intros [Ha Hs]%andb_prop. by rewrite (IH Hs), Ha.
Qed.

Lemma trimEnd_ws s post : all_ws post = true → trimEnd (s +:+ post) = trimEnd s.
Proof.
  intros Hpost. induction s as [|a s IH]; simpl; [by apply trimEnd_all_ws|].
  by rewrite IH.
Qed.

Lemma trim_ws_end s post :
  all_ws post = true → trimEnd (trimStart (s +:+ post)) = trimEnd (trimStart s).
Proof.
  intros Hpost. induction s as [|a s IH].
  - change (trimEnd (trimStart post) = ""). by rewrite (trimStart_all_ws post Hpost).
  - change (trimEnd (if is_ws a then trimStart (s +:+ post) else String a s +:+ post)
            = trimEnd (if is_ws a then trimStart s else String a s)).
    destruct (is_ws a); [exact IH|].
    exact (trimEnd_ws (String a s) post Hpost).
Qed.

Lemma trim_pad pre s post :
  all_ws pre = true → all_ws post = true → trim (pre +:+ s +:+ post) = trim s.
Proof.
  intros Hpre Hpost. unfold trim. rewrite (trimStart_ws pre _ Hpre).
  by apply trim_ws_end.
Qed.

Lemma trim_idem s : trim (trim s) = trim s.
Proof.
  destruct (trim_spec s) as (pre & post & Hs & Hpre & Hpost & _).
  rewrite Hs at 2. symmetry. by apply trim_pad.
Qed.

(** X23. White space around a cell never matters: an id cell and a
    coordinate cell read the same with and without it; and normalising an
    id that is already normalised changes nothing. *)
Theorem X23_padding_is_ignored pre s post x :
  all_ws pre = true → all_ws post = true →
  normalizeId (Some (pre +:+ s +:+ post)) = normalizeId (Some s)
  ∧ toNum (Some (pre +:+ s +:+ post)) = toNum (Some s)
  ∧ normalizeId (normalizeId x) = normalizeId x.
Proof.
  intros Hpre Hpost. split_and!.
  - unfold normalizeId. simpl. by rewrite (trim_pad pre s post Hpre Hpost).
  - unfold toNum, Number. by rewrite (trim_pad pre s post Hpre Hpost).
  - unfold normalizeId.
    destruct (0 <? String.length (trim (default "" x)))%nat eqn:Hlen; simpl.
    + by rewrite trim_idem, Hlen.
    + done.
Qed.

(** ** Checking never hides, unchecking never shows *)

Lemma line_cases st h :
  (∃ k line, (k, line) ∈ linkBrgyToCity st ∧ l_stamp line = h)
  ∨ (∃ k line, (k, line) ∈ linkCityToProv st ∧ l_stamp line = h)
  ∨ ¬ tracked st h.
Proof.
  unfold tracked.
  destruct (decide (h ∈ l_stamp <$> JsMap.values (linkBrgyToCity st)))
    as [(k & v & ? & ?)%stamps_elem_of|Hb]; [left; by exists k, v|].
  destruct (decide (h ∈ l_stamp <$> JsMap.values (linkCityToProv st)))
    as [(k & v & ? & ?)%stamps_elem_of|Hc]; [right; left; by exists k, v|].
  right; right. tauto.
Qed.

Lemma flags_monotone st st' base :
  inv st → synced base st → inv st' → synced base st' → static st' = static st →
  (∀ ty id, getEnabled (enabled st) ty id = true → getEnabled (enabled st') ty id = true) →
  layerLinks st ⊆ layerLinks st'.
Proof.
  intros Hinv Hsy Hinv' Hsy' Hs Hle h Hh.
  pose proof (static_fields _ _ Hs) as (Hb & Hcb & Hlb & Hlc & _).
  destruct (line_cases st h) as [(k & line & Hin & <-)|[(k & line & Hin & <-)|Hnt]].
  - destruct (brgy_line_synced st base k line) as (b1 & Hb1 & Hv1); [done..|].
    destruct (brgy_line_synced st' base k line) as (b2 & Hb2 & Hv2);
      [done | done | by rewrite Hlb|].
    rewrite Hb, Hb1 in Hb2. injection Hb2 as <-.
    apply Hv2. apply Hv1 in Hh as [H1 H2]. split; by apply Hle.
  - destruct (city_line_synced st base k line) as (c1 & Hc1 & Hv1); [done..|].
    destruct (city_line_synced st' base k line) as (c2 & Hc2 & Hv2);
      [done | done | by rewrite Hlc|].
    rewrite Hcb, Hc1 in Hc2. injection Hc2 as <-.
    apply Hv2. apply Hv1 in Hh as [H1 H2]. split; by apply Hle.
  - apply (untracked_synced st base h Hsy Hnt) in Hh.
    apply (untracked_synced st' base h); [done | | done].
    by rewrite (static_tracked st st' h Hs).
Qed.

(** X26. Checking a box never takes a line off the map, and unchecking a
    box never puts one on it. *)
Theorem X26_visibility_is_monotone d evs ty id :
  ∃ st st1 st2, run localeCompare d evs = Ok st
    ∧ handle (Change ty id true) st = Ok st1
    ∧ handle (Change ty id false) st = Ok st2
    ∧ layerLinks st ⊆ layerLinks st1
    ∧ layerLinks st2 ⊆ layerLinks st.
Proof.
  destruct (run_extra d evs) as (st0 & st & base & _ & Hrun & _ & Hinv & Hsy & _).
  destruct (handle_spec (Change ty id true) st base)
    as (st1 & Hh1 & Hs1 & He1 & Hinv1 & Hsy1); [done..|].
  destruct (handle_spec (Change ty id false) st base)
    as (st2 & Hh2 & Hs2 & He2 & Hinv2 & Hsy2); [done..|].
  exists st, st1, st2. split; [exact Hrun|]. split; [exact Hh1|]. split; [exact Hh2|].
  unfold flagsAfter in He1, He2. split.
  - apply (flags_monotone st st1 base); [done..|].
    intros ty' id' Hon. rewrite He1, getEnabled_setEnabled. by case_decide.
  - apply (flags_monotone st2 st base); [done.. | by symmetry |].
    intros ty' id'. rewrite He2, getEnabled_setEnabled. by case_decide.
Qed.

(** ** Markers the maps no longer hold *)

Lemma fresh_icons_marker s (id : nat) (ic : icon) ty0
    (layers : node_type → gset nat) (s' : state) :
  fresh_icons s →
  id = S (lastId s) → ic = iconFor ty0 true →
  lastId s' = id → icons s' = <[id := ic]> (icons s) →
  (∀ ty, layerOf ty s' = if decide (ty = ty0) then {[id]} ∪ layerOf ty s
                         else layerOf ty s) →
  fresh_icons s'.
Proof.
  intros HK -> -> Hlast Hic Hlay ty h. rewrite Hlast, Hic, Hlay.
  case_decide as Hty.
  - subst ty. intros [->%elem_of_singleton|Hh]%elem_of_union.
    + split; [lia | apply lookup_insert_eq].
    + destruct (HK ty0 h Hh) as [Hle Hi].
      split; [lia|]. rewrite lookup_insert_ne by lia. done.
  - intros Hh. destruct (HK ty h Hh) as [Hle Hi].
    split; [lia|]. rewrite lookup_insert_ne by lia. done.
Qed.

Lemma addProvinceMarker_fresh s p : fresh_icons s → fresh_icons (addProvinceMarker s p).
Proof.
  intros HK. unfold addProvinceMarker.
  destruct (ProvRow.lat p), (ProvRow.lon p); try done.
  apply (fresh_icons_marker s (S (lastId s)) provinceIconEnabled Province
           (fun _ => ∅)); try done.
  by intros [].
Qed.

Lemma addCityMarker_fresh s c : fresh_icons s → fresh_icons (addCityMarker s c).
Proof.
  intros HK. unfold addCityMarker.
  destruct (CityRow.lat c), (CityRow.lon c); try done.
  apply (fresh_icons_marker s (S (lastId s)) cityIconEnabled City
           (fun _ => ∅)); try done.
  by intros [].
Qed.

Lemma addBarangayMarker_fresh s b : fresh_icons s → fresh_icons (addBarangayMarker s b).
Proof.
  intros HK. unfold addBarangayMarker.
  destruct (BrgyRow.lat b), (BrgyRow.lon b); try done.
  apply (fresh_icons_marker s (S (lastId s)) brgyIconEnabled Barangay
           (fun _ => ∅)); try done.
  by intros [].
Qed.

Lemma fresh_icons_line s s' :
  fresh_icons s → (lastId s ≤ lastId s')%nat → icons s' = icons s →
  (∀ ty, layerOf ty s' = layerOf ty s) → fresh_icons s'.
Proof.
  intros HK Hlast Hic Hlay ty h. rewrite Hic, Hlay. intros Hh.
  destruct (HK ty h Hh) as [Hle Hi]. split; [lia | done].
Qed.

Lemma addBrgyLink_fresh s b : fresh_icons s → fresh_icons (addBrgyLink s b).
Proof.
  intros HK. unfold addBrgyLink.
  destruct (BrgyRow.lat b), (BrgyRow.lon b); try done.
  destruct (negb _); [done|]. destruct (JsMap.get _ _) as [c|]; [|done].
  destruct (CityRow.lat c), (CityRow.lon c); try done.
  apply (fresh_icons_line s); [done | simpl; lia | done | by intros []].
Qed.

Lemma addCityLink_fresh s c : fresh_icons s → fresh_icons (addCityLink s c).
Proof.
  intros HK. unfold addCityLink.
  destruct (CityRow.lat c), (CityRow.lon c); try done.
  destruct (negb _); [done|]. destruct (JsMap.get _ _) as [p|]; [|done].
  destruct (ProvRow.lat p), (ProvRow.lon p); try done.
  apply (fresh_icons_line s); [done | simpl; lia | done | by intros []].
Qed.

Lemma addMarkersAndLinks_stale st st' :
  addMarkersAndLinks st = Ok st' →
  ∀ ty h, h ∈ layerOf ty st' →
    (∀ ty', h ∉ m_stamp <$> JsMap.values (sel ty' (markers st'))) →
    icons st' !! h = Some (iconFor ty true).
Proof.
  unfold addMarkersAndLinks. lazy zeta.
  set (st0 := clearMapObjects st).
  set (st1 := fold_left addProvinceMarker (provinces st0) st0).
  set (st2 := fold_left addCityMarker (cities st1) st1).
  set (st3 := fold_left addBarangayMarker (barangays st2) st2).
  set (st4 := fold_left addBrgyLink (barangays st3) st3).
  set (st5 := fold_left addCityLink (cities st4) st4).
  rewrite applyVisibilityRules_Ok. intros [= <-].
  assert (stamps_ok st5) as Hst5.
  { apply fold_left_preserves; [intros; by apply addCityLink_stamps|].
    apply fold_left_preserves; [intros; by apply addBrgyLink_stamps|].
    apply fold_left_preserves; [intros; by apply addBarangayMarker_stamps|].
    apply fold_left_preserves; [intros; by apply addCityMarker_stamps|].
    apply fold_left_preserves; [intros; by apply addProvinceMarker_stamps|].
    unfold stamps_ok, stamps_of. simpl. apply submseteq_nil_l. }
  assert (fresh_icons st5) as HK.
  { apply fold_left_preserves; [intros; by apply addCityLink_fresh|].
    apply fold_left_preserves; [intros; by apply addBrgyLink_fresh|].
    apply fold_left_preserves; [intros; by apply addBarangayMarker_fresh|].
    apply fold_left_preserves; [intros; by apply addCityMarker_fresh|].
    apply fold_left_preserves; [intros; by apply addProvinceMarker_fresh|].
    intros ty h. by destruct ty; intros ?%not_elem_of_empty. }
  intros ty h Hh Hout.
  change (icons (updateMarkerStyles st5) !! h = Some (iconFor ty true)).
  rewrite updateMarkerStyles_frame; [|done|exact Hout].
  apply (HK ty h). by destruct ty.
Qed.

Lemma main_stale d :
  ∃ st, main localeCompare d = Ok st
    ∧ ∀ ty h, h ∈ layerOf ty st →
        (∀ ty', h ∉ m_stamp <$> JsMap.values (sel ty' (markers st))) →
        icons st !! h = Some (iconFor ty true).
Proof.
  unfold main. lazy zeta.
  match goal with |- context [addMarkersAndLinks ?p] => set (st1 := p) end.
  destruct (addMarkersAndLinks_spec st1) as (st & base & Hrun & _).
  { intros c Hin Hla Hlo. by apply indexCity_fold_is_Some. }
  exists st. split; [exact Hrun|]. by apply (addMarkersAndLinks_stale st1).
Qed.

(** X27. A marker that is on the map but that the map of markers no
    longer holds (made for a row whose id a later row took over) is never
    restyled: whatever the user does, it shows the enabled icon of its
    kind. *)
Theorem X27_replaced_marker_never_greys d evs :
  ∃ st, run localeCompare d evs = Ok st
    ∧ ∀ ty h, h ∈ layerOf ty st →
        (∀ ty' id m, JsMap.get id (sel ty' (markers st)) = Some m → m_stamp m ≠ h) →
        icons st !! h = Some (iconFor ty true).
Proof.
  destruct (run_extra d evs)
    as (st0 & st & base & Hmain & Hrun & Hs & _ & _ & _ & _ & _ & _ & Hom & _ & Hfr & _).
  destruct (main_stale d) as (st0' & Hmain' & Hstale).
  rewrite Hmain in Hmain'. injection Hmain' as <-.
  exists st. split; [exact Hrun|]. intros ty h Hh Hout.
  destruct Hom as (_ & Hnd & _).
  unfold static in Hs. injection Hs as _ _ _ _ _ _ Hm _ _ Hlb Hlc Hlp _ _.
  assert (∀ ty', h ∉ m_stamp <$> JsMap.values (sel ty' (markers st0))) as Hout0.
  { intros ty' (k & m & Hin & Hk)%stamps_elem_of. rewrite <- Hm in Hin.
    apply (Hout ty' k m); [|done]. by apply JsMapFacts.elem_of_get. }
  rewrite (Hfr h Hout0). apply Hstale; [|done].
  destruct ty; simpl in *; congruence.
Qed.

End Properties.

(** ** On the sample dataset *)

(** C4. A city or province without coordinates stays in the hierarchy
    and the tree and gets no marker and no line, as the script's comments
    say of every kind of node; a barangay without coordinates does not: the
    barangay filter of [main] drops it, so it has no row in the working
    set, no flag and no row in the tree. *)
Theorem C4_barangay_without_coordinates_is_dropped :
  ∃ st, run codeUnitCompare sample [] = Ok st
    ∧ normBarangay sampleBrgy3
      = {| BrgyRow.brgy_id := Some "B3"; BrgyRow.city_id := Some "C1";
           BrgyRow.barangay := "Banilad"; BrgyRow.city := "Cebu City";
           BrgyRow.lat := None; BrgyRow.lon := None |}
    ∧ (Some "B3" ∉ BrgyRow.brgy_id <$> barangays st)
    ∧ JsMap.get (Some "C1") (barangaysByCity st)
      = Some [normBarangay sampleBrgy1; normBarangay sampleBrgy2]
    ∧ JsMap.get (Some "B3") (barangay (enabled st)) = None
    ∧ ((Barangay, Some "B3") ∉ tree_ids (tree st))
    ∧ (Some "C2" ∈ CityRow.city_id <$> cities st)
    ∧ CityRow.lat (normCity sampleCity2) = None
    ∧ ((City, Some "C2") ∈ tree_ids (tree st))
    ∧ JsMap.get (Some "C2") (city (markers st)) = None
    ∧ JsMap.get (Some "C2") (linkCityToProv st) = None.
Proof.
  eexists. split; [vm_compute; reflexivity|].
  split_and!; try (vm_compute; reflexivity);
    apply (bool_decide_unpack _); vm_compute; exact I.
Qed.

(** C7 as stated fails: with everything unchecked, the barangay [B1] and
    the city [C1] are both disabled and their markers show two different
    icons. *)
Lemma C7_disabled_icons_differ :
  ∃ st mb mc, run codeUnitCompare sample [UncheckAll] = Ok st
    ∧ JsMap.get (Some "B1") (barangay (markers st)) = Some mb
    ∧ JsMap.get (Some "C1") (city (markers st)) = Some mc
    ∧ getEnabled (enabled st) Barangay (Some "B1") = false
    ∧ getEnabled (enabled st) City (Some "C1") = false
    ∧ icons st !! m_stamp mb = Some brgyIconDisabled
    ∧ icons st !! m_stamp mc = Some disabledAwesome
    ∧ brgyIconDisabled ≠ disabledAwesome.
Proof.
  eexists _, _, _. split; [vm_compute; reflexivity|].
  split_and!; try (vm_compute; reflexivity). discriminate.
Qed.

(** ** Instances of the theorems *)

Lemma C1_witness :
  ∃ st line b,
    run codeUnitCompare sample [Change City "C1" false] = Ok st
    ∧ JsMap.get (Some "B1") (linkBrgyToCity st) = Some line
    ∧ BrgyRow.city_id b = Some "C1"
    ∧ (visible st line
       ↔ getEnabled (enabled st) Barangay (Some "B1") = true
         ∧ getEnabled (enabled st) City (BrgyRow.city_id b) = true).
Proof.
  destruct (C1_brgy_line_visible_iff codeUnitCompare sample [Change City "C1" false])
    as (st & Hrun & H).
  vm_compute in Hrun. injection Hrun as Hst. subst st.
  edestruct (H (Some "B1")) as (b & Hb & Hiff); [vm_compute; reflexivity|].
  vm_compute in Hb. injection Hb as Hb. subst b.
  eexists _, _, _.
  split_and!; [vm_compute; reflexivity | vm_compute; reflexivity | | exact Hiff].
  reflexivity.
Defined.

Lemma C2_witness :
  ∃ st line c,
    run codeUnitCompare sample [Change Province "P1" false] = Ok st
    ∧ JsMap.get (Some "C1") (linkCityToProv st) = Some line
    ∧ CityRow.province_id c = Some "P1"
    ∧ (visible st line
       ↔ getEnabled (enabled st) City (Some "C1") = true
         ∧ getEnabled (enabled st) Province (CityRow.province_id c) = true).
Proof.
  destruct (C2_city_line_visible_iff codeUnitCompare sample
              [Change Province "P1" false]) as (st & Hrun & H).
  vm_compute in Hrun. injection Hrun as Hst. subst st.
  edestruct (H (Some "C1")) as (c & Hc & Hiff); [vm_compute; reflexivity|].
  vm_compute in Hc. injection Hc as Hc. subst c.
  eexists _, _, _.
  split_and!; [vm_compute; reflexivity | vm_compute; reflexivity | | exact Hiff].
  reflexivity.
Defined.

Lemma C3_witness :
  ∃ st st' line,
    run codeUnitCompare sample [] = Ok st
    ∧ handle (Change Province "P1" false) st = Ok st'
    ∧ JsMap.get (Some "B1") (linkBrgyToCity st) = Some line
    ∧ (visible st' line ↔ visible st line).
Proof.
  destruct (C3_province_flag_frame codeUnitCompare sample [] "P1" false)
    as (st & st' & Hrun & Hh & Hbrgy & _).
  exists st, st'. eexists. split; [exact Hrun|]. split; [exact Hh|].
  vm_compute in Hrun. injection Hrun as Hst. subst st.
  split; [vm_compute; reflexivity|]. apply Hbrgy with (brgyId := Some "B1").
  vm_compute. reflexivity.
Defined.

Lemma C5_witness :
  ∃ st1 st2,
    run codeUnitCompare sample [Change City "C1" false; Change Barangay "B2" false]
    = Ok st1
    ∧ run codeUnitCompare sample [Change Barangay "B2" false; Change City "C1" false]
      = Ok st2
    ∧ same_flags (enabled st1) (enabled st2)
    ∧ layerLinks st1 = layerLinks st2.
Proof.
  destruct (C5_visibility_depends_on_flags_only codeUnitCompare sample
              [Change City "C1" false; Change Barangay "B2" false]
              [Change Barangay "B2" false; Change City "C1" false])
    as (st1 & st2 & Hr1 & Hr2 & H).
  exists st1, st2. split; [exact Hr1|]. split; [exact Hr2|].
  assert (same_flags (enabled st1) (enabled st2)) as Hfl.
  { vm_compute in Hr1. injection Hr1 as H1. subst st1.
    vm_compute in Hr2. injection Hr2 as H2. subst st2.
    intros ty id. reflexivity. }
  split; [exact Hfl | exact (H Hfl)].
Defined.

Lemma C6_witness :
  ∃ st st',
    run codeUnitCompare sample [] = Ok st
    ∧ handleAll [Change City "C1" false; Change City "C1" true] st = Ok st'
    ∧ getEnabled (enabled st) City (Some "C1") = true
    ∧ layerLinks st' = layerLinks st.
Proof.
  destruct (C6_toggle_twice_restores codeUnitCompare sample [] City "C1")
    as (st & st' & Hrun & Hh & H).
  exists st, st'. split; [exact Hrun|]. split; [exact Hh|].
  assert (getEnabled (enabled st) City (Some "C1") = true) as Hon.
  { vm_compute in Hrun. injection Hrun as Hst. subst st. reflexivity. }
  split; [exact Hon | exact (H Hon)].
Defined.

Lemma C7_witness :
  ∃ st m,
    run codeUnitCompare sample [Change Barangay "B1" false] = Ok st
    ∧ JsMap.get (Some "B1") (barangay (markers st)) = Some m
    ∧ icons st !! m_stamp m = Some brgyIconDisabled.
Proof.
  destruct (C7_marker_icon_of_own_flag codeUnitCompare sample
              [Change Barangay "B1" false]) as (st & Hrun & H).
  exists st. eexists. split; [exact Hrun|].
  vm_compute in Hrun. injection Hrun as Hst. subst st.
  split; [vm_compute; reflexivity|].
  apply (H Barangay (Some "B1")). vm_compute. reflexivity.
Defined.

Lemma C8_witness :
  CityRow.city (normCity sampleCity1) = "Cebu City"
  ∧ Number (sampleCity2 !! "lat") = NaN
  ∧ CityRow.lat (normCity sampleCity2) = None.
Proof.
  destruct (C8_rows_normalised codeUnitCompare sample) as [Hrow _].
  destruct (Hrow sampleCity2)
    as (_ & _ & _ & _ & _ & _ & _ & _ & _ & _ & [Hlat _] & _).
  split; [reflexivity|]. split; [reflexivity|]. apply Hlat. reflexivity.
Defined.

Lemma C9_witness :
  (∃ st', applyVisibilityRules strayState = Ok st')
  ∧ List.find (fun x => bool_decide (BrgyRow.brgy_id x = Some "B9"))
              (barangays strayState) = None
  ∧ brgyLineRule strayState (layerLinks strayState) (Some "B9") strayLine
    = Ok (layerLinks strayState).
Proof.
  destruct (C9_applyVisibilityRules_total strayState) as (Htotal & Hbrgy & _).
  split; [exact Htotal|]. split; [reflexivity|]. apply Hbrgy. reflexivity.
Defined.

Lemma C10_witness :
  is_zero_coord (toNum (sampleBrgy4 !! "lat")) = true
  ∧ keepBarangay (normBarangay sampleBrgy4) = false
  ∧ run codeUnitCompare sample []
    = run codeUnitCompare
        {| barangaysRaw := [sampleBrgy1; sampleBrgy2; sampleBrgy3];
           citiesRaw := citiesRaw sample; provincesRaw := provincesRaw sample |} [].
Proof.
  destruct (C10_zero_coordinate_barangay_excluded codeUnitCompare sampleBrgy4)
    as (Hdrop & Hrun & _).
  { left. reflexivity. }
  split; [reflexivity|]. split; [exact Hdrop|].
  exact (Hrun [sampleBrgy1; sampleBrgy2; sampleBrgy3] [] _ _ []).
Defined.

(** ** Instances of the further properties *)

Lemma X1_witness :
  getEnabled (setEnabled City (Some "C1") false (flagsAtLoad [] [] [])) City (Some "C1")
  = false
  ∧ getEnabled (setEnabled City (Some "C1") false (flagsAtLoad [] [] [])) City (Some "C2")
    = true.
Proof.
  destruct (X1_flag_write_read City (Some "C1") false (flagsAtLoad [] [] []))
    as (Hset & Hframe & Hdefault).
  split; [exact Hset|]. rewrite Hframe; [|discriminate].
  apply Hdefault. apply (bool_decide_unpack _). vm_compute. exact I.
Defined.

Lemma X2_witness :
  getEnabled
    (setAllEnabled City false
       {| province := []; city := [(Some "C1", true); (Some "C2", true)];
          barangay := [] |}) City (Some "C2") = false
  ∧ getEnabled
      (setAllEnabled City false
         {| province := []; city := [(Some "C1", true); (Some "C2", true)];
            barangay := [] |}) City (Some "C9") = true.
Proof.
  destruct (X2_setAllEnabled_flags City false
              {| province := []; city := [(Some "C1", true); (Some "C2", true)];
                 barangay := [] |}) as (Hin & Hout & _).
  split.
  - apply Hin. apply (bool_decide_unpack _). vm_compute. exact I.
  - apply Hout. apply (bool_decide_unpack _). vm_compute. exact I.
Defined.

Lemma X3_witness :
  ∃ st line,
    main codeUnitCompare sample = Ok st
    ∧ JsMap.get (Some "B1") (linkBrgyToCity st) = Some line
    ∧ visible st line.
Proof.
  destruct (X3_after_load codeUnitCompare sample) as (st & Hmain & _ & Hlines & _).
  exists st. eexists. split; [exact Hmain|].
  vm_compute in Hmain. injection Hmain as Hst. subst st.
  split; [vm_compute; reflexivity|].
  apply (Hlines (Some "B1")). left. vm_compute. reflexivity.
Defined.

Lemma X4_witness :
  ∃ st st' line,
    run codeUnitCompare sample [UncheckAll] = Ok st
    ∧ handle CheckAll st = Ok st'
    ∧ JsMap.get (Some "B1") (linkBrgyToCity st') = Some line
    ∧ visible st' line.
Proof.
  destruct (X4_check_all codeUnitCompare sample [UncheckAll])
    as (st & st' & Hrun & Hh & _ & Hlines & _).
  exists st, st'. eexists. split; [exact Hrun|]. split; [exact Hh|].
  vm_compute in Hrun. injection Hrun as Hst. subst st.
  vm_compute in Hh. injection Hh as Hst'. subst st'.
  split; [vm_compute; reflexivity|].
  apply (Hlines (Some "B1")). left. vm_compute. reflexivity.
Defined.

Lemma X5_witness :
  ∃ st st' line,
    run codeUnitCompare sample [] = Ok st
    ∧ handle UncheckAll st = Ok st'
    ∧ JsMap.get (Some "C1") (linkCityToProv st') = Some line
    ∧ ¬ visible st' line.
Proof.
  destruct (X5_uncheck_all codeUnitCompare sample [])
    as (st & st' & Hrun & Hh & _ & Hlines & _).
  exists st, st'. eexists. split; [exact Hrun|]. split; [exact Hh|].
  vm_compute in Hrun. injection Hrun as Hst. subst st.
  vm_compute in Hh. injection Hh as Hst'. subst st'.
  split; [vm_compute; reflexivity|].
  apply (Hlines (Some "C1")). right. vm_compute. reflexivity.
Defined.

Lemma X6_witness :
  ∃ st st' line,
    run codeUnitCompare sample [] = Ok st
    ∧ handle (Change City "C1" false) st = Ok st'
    ∧ JsMap.get (Some "C1") (linkCityToProv st') = Some line
    ∧ ¬ visible st' line.
Proof.
  destruct (X6_uncheck_hides_lines codeUnitCompare sample [] City "C1")
    as (st & st' & Hrun & Hh & _ & Hown & _).
  exists st, st'. eexists. split; [exact Hrun|]. split; [exact Hh|].
  vm_compute in Hrun. injection Hrun as Hst. subst st.
  vm_compute in Hh. injection Hh as Hst'. subst st'.
  split; [vm_compute; reflexivity|].
  apply (Hown eq_refl). vm_compute. reflexivity.
Defined.

Lemma X7_witness :
  ∃ st st' line,
    run codeUnitCompare sample [] = Ok st
    ∧ handle (Change Barangay "B1" false) st = Ok st'
    ∧ JsMap.get (Some "B2") (linkBrgyToCity st) = Some line
    ∧ (visible st' line ↔ visible st line).
Proof.
  destruct (X7_barangay_flag_frame codeUnitCompare sample [] "B1" false)
    as (st & st' & Hrun & Hh & Hother & _).
  exists st, st'. eexists. split; [exact Hrun|]. split; [exact Hh|].
  vm_compute in Hrun. injection Hrun as Hst. subst st.
  split; [vm_compute; reflexivity|].
  apply (Hother (Some "B2")); [discriminate|]. vm_compute. reflexivity.
Defined.

Lemma X8_witness :
  ∃ st st' line,
    run codeUnitCompare sample [] = Ok st
    ∧ handle (Change City "C2" false) st = Ok st'
    ∧ JsMap.get (Some "C1") (linkCityToProv st) = Some line
    ∧ (visible st' line ↔ visible st line).
Proof.
  destruct (X8_city_flag_frame codeUnitCompare sample [] "C2" false)
    as (st & st' & Hrun & Hh & Hother & _).
  exists st, st'. eexists. split; [exact Hrun|]. split; [exact Hh|].
  vm_compute in Hrun. injection Hrun as Hst. subst st.
  split; [vm_compute; reflexivity|].
  apply (Hother (Some "C1")); [discriminate|]. vm_compute. reflexivity.
Defined.

Lemma X9_witness :
  ∃ st0 st,
    main codeUnitCompare dupSample = Ok st0
    ∧ run codeUnitCompare dupSample [UncheckAll] = Ok st
    ∧ ¬ tracked st0 5
    ∧ (5%nat ∈ layerLinks st ↔ 5%nat ∈ layerLinks st0).
Proof.
  destruct (X9_untracked_line_never_changes codeUnitCompare dupSample [UncheckAll])
    as (st0 & st & Hmain & Hrun & H).
  exists st0, st. split; [exact Hmain|]. split; [exact Hrun|].
  assert (¬ tracked st0 5) as Hnt.
  { vm_compute in Hmain. injection Hmain as Hst. subst st0.
    unfold tracked. apply (bool_decide_unpack _). vm_compute. exact I. }
  split; [exact Hnt | exact (H 5%nat Hnt)].
Defined.

Lemma X10_witness :
  ∃ st st' m,
    run codeUnitCompare sample [] = Ok st
    ∧ handle (Change Barangay "B1" false) st = Ok st'
    ∧ JsMap.get (Some "B1") (sel Barangay (markers st)) = Some m
    ∧ icons st' !! m_stamp m = Some brgyIconDisabled.
Proof.
  destruct (X10_change_marker_icons codeUnitCompare sample [] Barangay "B1" false)
    as (st & st' & Hrun & Hh & Hown & _).
  exists st, st'. eexists. split; [exact Hrun|]. split; [exact Hh|].
  vm_compute in Hrun. injection Hrun as Hst. subst st.
  split; [vm_compute; reflexivity|].
  apply Hown. vm_compute. reflexivity.
Defined.

Lemma X11_witness :
  ∃ st0 st m,
    main codeUnitCompare sample = Ok st0
    ∧ run codeUnitCompare sample [UncheckAll] = Ok st
    ∧ JsMap.get (Some "C1") (sel City (markers st)) = Some m
    ∧ m_stamp m ∈ layerOf City st.
Proof.
  destruct (X11_markers_stay_on_map codeUnitCompare sample [UncheckAll])
    as (st0 & st & Hmain & Hrun & _ & Hon & _).
  exists st0, st. eexists. split; [exact Hmain|]. split; [exact Hrun|].
  vm_compute in Hrun. injection Hrun as Hst. subst st.
  split; [vm_compute; reflexivity|].
  apply (Hon City (Some "C1")). vm_compute. reflexivity.
Defined.

Lemma X12_witness :
  ∃ st, run codeUnitCompare sample [] = Ok st
    ∧ zoomTo st City (Some "C2") = []
    ∧ ∃ h, zoomTo st City (Some "C1")
           = [SetView (Finite false 1031 (-2), Finite false 1239 (-1)) 12; OpenPopup h].
Proof.
  destruct (X12_zoomTo_last_located_row codeUnitCompare sample [] City (Some "C2"))
    as (st & Hrun & Hnone & _).
  destruct (X12_zoomTo_last_located_row codeUnitCompare sample [] City (Some "C1"))
    as (st' & Hrun' & Hsome & _).
  rewrite Hrun in Hrun'. injection Hrun' as <-.
  exists st. split; [exact Hrun|].
  vm_compute in Hrun. injection Hrun as Hst. subst st.
  split; [exact Hnone|]. destruct Hsome as (h & _ & Hz). by exists h.
Defined.

Lemma X13_witness :
  ∃ st, run codeUnitCompare sample [] = Ok st
    ∧ is_Some (JsMap.get (Some "B1") (linkBrgyToCity st))
    ∧ ¬ is_Some (JsMap.get (Some "C2") (linkCityToProv st)).
Proof.
  destruct (X13_line_exists_iff codeUnitCompare sample []) as (st & Hrun & Hb & Hc).
  exists st. split; [exact Hrun|].
  vm_compute in Hrun. injection Hrun as Hst. subst st. split.
  - apply Hb. eexists _, _.
    split_and!; [left | reflexivity | left | reflexivity | reflexivity].
  - intros Hs. by destruct Hs as [line [=]].
Defined.

Lemma X15_witness :
  ∃ st bs, run codeUnitCompare sample [] = Ok st
    ∧ JsMap.get (Some "C1") (barangaysByCity st) = Some bs
    ∧ bs ≠ [].
Proof.
  destruct (X15_barangaysByCity_groups codeUnitCompare sample [])
    as (st & Hrun & _ & Hne).
  exists st. eexists. split; [exact Hrun|].
  vm_compute in Hrun. injection Hrun as Hst. subst st.
  split; [vm_compute; reflexivity|].
  apply (Hne (Some "C1")). vm_compute. reflexivity.
Defined.

Lemma X16_witness :
  ∃ st ll, run codeUnitCompare sample [] = Ok st
    ∧ located Province st ≠ []
    ∧ fitBoundsToData st = FitBounds ll (40, 40).
Proof.
  destruct (X16_fitBoundsToData codeUnitCompare sample []) as (st & Hrun & _ & H).
  assert (located Province st ≠ []) as Hne.
  { vm_compute in Hrun. injection Hrun as Hst. subst st. vm_compute. discriminate. }
  destruct H as (ll & Hfit & _); [by exists Province|].
  exists st, ll. by split_and!.
Defined.


Lemma X21_witness :
  ∃ st, run codeUnitCompare sample [] = Ok st
    ∧ (City, Some "C2") ∈ tree_ids (tree st).
Proof.
  destruct (X21_tree_rows_iff codeUnitCompare sample []) as (st & Hrun & _ & Hc & _).
  exists st. split; [exact Hrun|].
  vm_compute in Hrun. injection Hrun as Hst. subst st.
  apply Hc. eexists _, _.
  split_and!; [right; left | left | reflexivity | reflexivity].
Defined.

Lemma X22_witness :
  ∃ st p cs, run codeUnitCompare sample [] = Ok st
    ∧ (p, cs) ∈ tree st
    ∧ nr_meta p = pretty (length cs) +:+ " cities".
Proof.
  destruct (X22_tree_counts_match_rows codeUnitCompare sample []) as (st & Hrun & H).
  assert (∃ p cs, (p, cs) ∈ tree st) as (p & cs & Hin).
  { vm_compute in Hrun. injection Hrun as Hst. subst st. eexists _, _. left. }
  exists st, p, cs. split; [exact Hrun|]. split; [exact Hin|].
  by destruct (H p cs Hin) as [Hmeta _].
Defined.

Lemma X23_witness :
  all_ws " " = true
  ∧ normalizeId (Some (" " +:+ "C1" +:+ "  ")) = normalizeId (Some "C1")
  ∧ toNum (Some (" " +:+ "10.5" +:+ "  ")) = toNum (Some "10.5").
Proof.
  destruct (X23_padding_is_ignored " " "C1" "  " None) as (Hid & _ & _);
    [reflexivity..|].
  destruct (X23_padding_is_ignored " " "10.5" "  " None) as (_ & Hnum & _);
    [reflexivity..|].
  split; [reflexivity|]. by split.
Defined.

Lemma X24_witness :
  ∃ st, run codeUnitCompare sample [UncheckAll; CheckAll] = Ok st
    ∧ unique_ids st
    ∧ ∀ h, h ∈ layerLinks st → tracked st h.
Proof.
  destruct (every_line_tracked codeUnitCompare sample [UncheckAll; CheckAll])
    as (st & Hrun & H).
  exists st. split; [exact Hrun|].
  assert (unique_ids st) as Hu.
  { vm_compute in Hrun. injection Hrun as Hst. subst st.
    split; apply (bool_decide_unpack _); vm_compute; exact I. }
  split; [exact Hu | exact (H Hu)].
Defined.

Lemma X25_witness :
  ∃ st, run codeUnitCompare sample [] = Ok st
    ∧ keepCity (normCity sampleCity2) = true
    ∧ normCity sampleCity2 ∈ cities st.
Proof.
  destruct (kept_nodes_tree_and_drawings codeUnitCompare sample [])
    as (st & Hrun & _ & Hc & _).
  exists st. split; [exact Hrun|]. split; [reflexivity|].
  apply Hc; [right; left | reflexivity].
Defined.

Lemma X26_witness :
  ∃ st st1 st2,
    run codeUnitCompare sample [Change City "C1" false] = Ok st
    ∧ handle (Change Barangay "B1" true) st = Ok st1
    ∧ handle (Change Barangay "B1" false) st = Ok st2
    ∧ layerLinks st ⊆ layerLinks st1
    ∧ layerLinks st2 ⊆ layerLinks st.
Proof.
  destruct (X26_visibility_is_monotone codeUnitCompare sample
              [Change City "C1" false] Barangay "B1")
    as (st & st1 & st2 & Hrun & H1 & H2 & Hup & Hdown).
  exists st, st1, st2. by split_and!.
Defined.

Lemma X27_witness :
  ∃ st, run codeUnitCompare dupSample [UncheckAll] = Ok st
    ∧ 3%nat ∈ layerOf Barangay st
    ∧ icons st !! 3%nat = Some brgyIconEnabled.
Proof.
  destruct (X27_replaced_marker_never_greys codeUnitCompare dupSample [UncheckAll])
    as (st & Hrun & H).
  exists st. split; [exact Hrun|].
  assert (3%nat ∈ layerOf Barangay st) as Hin.
  { vm_compute in Hrun. injection Hrun as Hst. subst st.
    apply (bool_decide_unpack _). vm_compute. exact I. }
  split; [exact Hin|]. apply (H Barangay 3%nat Hin).
  intros ty' id m Hget%JsMapFacts.get_elem_of%list_elem_of_In.
  vm_compute in Hrun. injection Hrun as Hst. subst st.
  destruct ty'; simpl in Hget; destruct Hget as [[= <- <-]|[]]; discriminate.
Defined.
